(** * toy-socks5: the SOCKS5 session and its relay, embedded in Rocq

    The repository holds two versions of the Go server: [server.go] and a
    later revision of the same file (module [Part001] below).  Both are
    embedded function by function.  A session is a state-passing computation
    over the [SocksProxy] struct and the record of what reaches the network
    (the wire); Go panics are an explicit outcome, because [handle] runs its
    deferred [closeConnection] after them.  The relay ([exchange]) is the one
    concurrent piece: it is modelled as an interleaving transition system over
    the two copying goroutines and the waiting caller. *)

From Stdlib Require Import String Ascii DecimalString ZArith List Bool Lia.
Import ListNotations.
Local Open Scope string_scope.
Local Open Scope list_scope.
Local Open Scope Z_scope.

Set Implicit Arguments.

(** ** Constants of the protocol (identical in both versions) *)

Definition socksVersion : Z := 5.
Definition noAuth : Z := 0.

Definition connect : Z := 1.
Definition bind : Z := 2.
Definition udpAssociate : Z := 3.

Definition ipv4 : Z := 1.
Definition domainName : Z := 3.
Definition ipv6 : Z := 4.

Definition succeeded : Z := 0.
Definition generalFailure : Z := 1.
Definition connectionNotAllowed : Z := 2.
Definition networkUnreachable : Z := 3.
Definition hostUnreachable : Z := 4.
Definition connectionRefused : Z := 5.
Definition ttlExpired : Z := 6.
Definition commandNotSupported : Z := 7.
Definition addressTypeNotSupported : Z := 8.

(** ** The network as the session sees it *)

(** The accepted client connection: the bytes the client has sent and that
    are not consumed yet, and whether this end called [Close]. *)
Record ClientConn : Type := mkClientConn {
  pending : list Z;
  closed : bool
}.

(** [net.TCPAddr], the type of [LocalAddr()] on a dialled connection. *)
Record TCPAddr : Type := mkTCPAddr {
  tcpIP : list Z;
  tcpPort : Z
}.

(** A dialled connection to the destination. *)
Record RemoteConn : Type := mkRemoteConn {
  LocalAddr : TCPAddr;
  remoteClosed : bool
}.

(** What leaves the process.  An operation on a connection this end has
    already closed fails inside the Go runtime and reaches nobody; the code
    drops the error, so such a call leaves no event. *)
Inductive Event : Type :=
| ClientWrite (payload : list Z)
| ClientClose
| Lookup (fqdn : string)
| DialTCP (address : string)
| Exchange
| RemoteClose.

(** The capabilities the session consumes: [net.LookupIP], [net.Dial], the
    text form of an address ([%v] and [%s] of a [net.IP]), and the error the
    relay hands back (only [server.go] returns one). *)
Record Net : Type := mkNet {
  LookupIP : string -> list (list Z) * option string;
  Dial : string -> TCPAddr + string;
  IPString : list Z -> string;
  relayError : option string
}.

(** [conn.Read(buf)]: fills [buf] from the stream; at end of stream, or on a
    closed connection, the rest of [buf] keeps what it held (the code ignores
    the count and the error).  The bytes in [pending] are taken to have
    arrived already, so a read gets as many of them as [buf] holds.  A read
    on a TCP connection may return fewer while the rest is still under way;
    with a one-byte buffer, as in the greeting, there is no difference. *)
Definition Read (c : ClientConn) (buf : list Z) : list Z * ClientConn :=
  if closed c then (buf, c)
  else
    let got := firstn (length buf) (pending c) in
    (got ++ skipn (length got) buf,
     mkClientConn (skipn (length buf) (pending c)) false).

(** [make([]byte, n)] *)
Definition make (n : Z) : list Z := repeat 0 (Z.to_nat n).

(** [strings.Contains] *)
Fixpoint Contains (s substr : string) : bool :=
  if prefix substr s then true
  else match s with
       | EmptyString => false
       | String _ s' => Contains s' substr
       end.

(** [%d] of a port *)
Definition decimal (n : Z) : string :=
  NilZero.string_of_uint (N.to_uint (Z.to_N n)).

(** [uint8(x)] *)
Definition uint8 (x : Z) : Z := Z.land x 255.

(** The reply code of a dial error in the words of the specification; the
    two [handleCommandConnect] below carry the test inline, as the source
    does. *)
Definition dialErrorReply (msg : string) : Z :=
  if Contains msg "network is unreachable" then networkUnreachable
  else if Contains msg "refused" then connectionRefused
  else hostUnreachable.

(** A SOCKS5 reply frame starts VER=5, REP, RSV=0, ATYP; the method
    selection message of the greeting has two bytes and is not one. *)
Definition isReplyFrame (payload : list Z) : bool :=
  match payload with
  | v :: _ :: r :: _ :: _ => (v =? 5) && (r =? 0)
  | _ => false
  end.

Definition replyFrame (e : Event) : bool :=
  match e with
  | ClientWrite p => isReplyFrame p
  | _ => false
  end.

(** The reply frames that reached the client. *)
Definition replies (wire : list Event) : list Event := filter replyFrame wire.

Definition isExchange (e : Event) : bool :=
  match e with Exchange => true | _ => false end.

Definition isDial (e : Event) : bool :=
  match e with DialTCP _ => true | _ => false end.

(** ** Computations with state and panics *)

Inductive Panic : Type :=
| NilDereference (method : string)
| IndexOutOfRange.

Inductive Res (A : Type) : Type :=
| Ok (a : A)
| Panicked (p : Panic).
Arguments Panicked {A} p.

Section StateAndPanic.
Variable St : Type.

Definition M (A : Type) : Type := St -> Res A * St.

Definition ret {A} (a : A) : M A := fun w => (Ok a, w).

Definition bindM {A B} (m : M A) (k : A -> M B) : M B :=
  fun w =>
    match m w with
    | (Ok a, w') => k a w'
    | (Panicked p, w') => (Panicked p, w')
    end.

Definition panic {A} (p : Panic) : M A := fun w => (Panicked p, w).

Definition gets {A} (f : St -> A) : M A := fun w => (Ok (f w), w).

Definition modify (f : St -> St) : M unit := fun w => (Ok tt, f w).

(** [defer d] around a body: [d] runs whether the body returned or
    panicked, and the body's outcome stands. *)
Definition withDefer {A} (body : M A) (d : M unit) : M A :=
  fun w =>
    let (r, w') := body w in
    (r, snd (d w')).
End StateAndPanic.

Arguments ret {St A} a.
Arguments bindM {St A B} m k.
Arguments panic {St A} p.
Arguments gets {St A} f.
Arguments modify {St} f.
Arguments withDefer {St A} body d.

Declare Scope go_scope.
Delimit Scope go_scope with go.
Notation "x <- m ;; k" := (bindM m (fun x => k))
  (at level 61, m at next level, right associativity) : go_scope.
Notation "m ;; k" := (bindM m (fun _ => k))
  (at level 61, right associativity) : go_scope.
Local Open Scope go_scope.

(** [err != nil] *)
Definition isErr (err : option string) : bool :=
  match err with
  | Some _ => true
  | None => false
  end.

(** [string(bytes)] *)
Definition stringOfBytes (bs : list Z) : string :=
  string_of_list_ascii (map (fun b => ascii_of_N (Z.to_N b)) bs).

(** [fmt.Sprintf("%v:%d", ip, port)] given the text of the address *)
Definition hostPort (host : string) (p : Z) : string :=
  (host ++ ":" ++ decimal p)%string.

(** ** server.go *)

Module ServerGo.

Record SocksProxy : Type := mkSocksProxy {
  version : Z;
  conn : ClientConn;
  command : Z;
  addressType : Z;
  reply : Z;
  IP : list Z;
  FQDN : string;
  port : Z;
  remote : option RemoteConn;
  methods : list Z
}.

(** The session and what it has put on the wire so far. *)
Record State : Type := mkState {
  self : SocksProxy;
  wire : list Event
}.

Definition NewProxy (c : ClientConn) : SocksProxy :=
  mkSocksProxy 5 c 0 0 0 [] "" 0 None [].

Definition setConn (c : ClientConn) (s : SocksProxy) : SocksProxy :=
  mkSocksProxy (version s) c (command s) (addressType s) (reply s) (IP s)
               (FQDN s) (port s) (remote s) (methods s).
Definition setCommand (x : Z) (s : SocksProxy) : SocksProxy :=
  mkSocksProxy (version s) (conn s) x (addressType s) (reply s) (IP s)
               (FQDN s) (port s) (remote s) (methods s).
Definition setAddressType (x : Z) (s : SocksProxy) : SocksProxy :=
  mkSocksProxy (version s) (conn s) (command s) x (reply s) (IP s)
               (FQDN s) (port s) (remote s) (methods s).
Definition setReply (x : Z) (s : SocksProxy) : SocksProxy :=
  mkSocksProxy (version s) (conn s) (command s) (addressType s) x (IP s)
               (FQDN s) (port s) (remote s) (methods s).
Definition setIP (x : list Z) (s : SocksProxy) : SocksProxy :=
  mkSocksProxy (version s) (conn s) (command s) (addressType s) (reply s) x
               (FQDN s) (port s) (remote s) (methods s).
Definition setFQDN (x : string) (s : SocksProxy) : SocksProxy :=
  mkSocksProxy (version s) (conn s) (command s) (addressType s) (reply s)
               (IP s) x (port s) (remote s) (methods s).
Definition setPort (x : Z) (s : SocksProxy) : SocksProxy :=
  mkSocksProxy (version s) (conn s) (command s) (addressType s) (reply s)
               (IP s) (FQDN s) x (remote s) (methods s).
Definition setRemote (x : option RemoteConn) (s : SocksProxy) : SocksProxy :=
  mkSocksProxy (version s) (conn s) (command s) (addressType s) (reply s)
               (IP s) (FQDN s) (port s) x (methods s).
Definition setMethods (x : list Z) (s : SocksProxy) : SocksProxy :=
  mkSocksProxy (version s) (conn s) (command s) (addressType s) (reply s)
               (IP s) (FQDN s) (port s) (remote s) x.

Definition update (f : SocksProxy -> SocksProxy) : M State unit :=
  modify (fun w => mkState (f (self w)) (wire w)).

Definition field {A} (f : SocksProxy -> A) : M State A :=
  gets (fun w => f (self w)).

Definition emit (e : Event) : M State unit :=
  modify (fun w => mkState (self w) (wire w ++ [e])).

(** [s.conn.Read(buf)] *)
Definition connRead (buf : list Z) : M State (list Z) :=
  fun w =>
    let (b, c) := Read (conn (self w)) buf in
    (Ok b, mkState (setConn c (self w)) (wire w)).

(** [s.conn.Write(payload)] *)
Definition connWrite (payload : list Z) : M State unit :=
  fun w =>
    if closed (conn (self w)) then (Ok tt, w)
    else (Ok tt, mkState (self w) (wire w ++ [ClientWrite payload])).

(** [s.conn.Close()] *)
Definition connClose : M State unit :=
  fun w =>
    if closed (conn (self w)) then (Ok tt, w)
    else (Ok tt, mkState (setConn (mkClientConn (pending (conn (self w))) true)
                                  (self w))
                         (wire w ++ [ClientClose])).

Definition closeConnection : M State unit := connClose.

Definition generateReply (s : SocksProxy) (ip : list Z) (p : Z) : list Z :=
  let payload := [socksVersion; reply s; 0; addressType s] in
  let payload := payload ++ ip in
  let payload := payload ++ [uint8 (Z.shiftr p 8)] in
  let payload := payload ++ [uint8 (Z.land p 255)] in
  payload.

Definition generateSucceededReply (s : SocksProxy) (ip : list Z) (p : Z) :=
  generateReply s ip p.
Definition generateFailedReply (s : SocksProxy) (ip : list Z) (p : Z) :=
  generateReply s ip p.

Definition closeConnectionWithError (err : Z) : M State unit :=
  update (setReply err) ;;
  payload <- field (fun s => generateFailedReply s [0] 0) ;;
  connWrite payload ;;
  closeConnection.

Definition ensureVersion (v : Z) : M State unit :=
  if negb (v =? socksVersion) then closeConnectionWithError generalFailure
  else ret tt.

Definition ensureNMethod (nmethod : Z) : M State unit :=
  if negb ((1 <=? nmethod) && (nmethod <=? 255))
  then closeConnectionWithError generalFailure
  else ret tt.

(** The loop of [getAvailableMethods]: the one-byte buffer [m] is reused
    from one round to the next, and round [i] stores [m[0]] at index [i]. *)
Fixpoint readMethods (rounds : nat) (m methods : list Z) : M State (list Z) :=
  match rounds with
  | O => ret methods
  | S rounds' =>
      m' <- connRead m ;;
      readMethods rounds' m' (methods ++ [hd 0 m'])
  end.

Definition getAvailableMethods (nmethod : Z) : M State (list Z) :=
  readMethods (Z.to_nat nmethod) [0] [].

Definition parseAddress : M State unit :=
  atyp <- field addressType ;;
  if atyp =? ipv4 then
    buf <- connRead (make 4) ;;
    update (setIP buf)
  else if atyp =? domainName then
    domainLength <- connRead [0] ;;
    fqdn <- connRead (make (hd 0 domainLength)) ;;
    update (setFQDN (stringOfBytes fqdn))
  else if atyp =? ipv6 then
    buf <- connRead (make 16) ;;
    update (setIP buf)
  else
    closeConnectionWithError addressTypeNotSupported.

Definition parsePort : M State unit :=
  buf <- connRead [0; 0] ;;
  update (setPort (Z.lor (Z.shiftl (nth 0 buf 0) 8) (nth 1 buf 0))).

Definition handleGreetings : M State unit :=
  ver <- connRead [0] ;;
  nmethod <- connRead [0] ;;
  ensureVersion (hd 0 ver) ;;
  ensureNMethod (hd 0 nmethod) ;;
  ms <- getAvailableMethods (hd 0 nmethod) ;;
  update (setMethods ms) ;;
  connWrite [socksVersion; noAuth].

Definition handleRequestHeader : M State unit :=
  header <- connRead [0; 0; 0; 0] ;;
  ensureVersion (nth 0 header 0) ;;
  update (setCommand (nth 1 header 0)) ;;
  update (setAddressType (nth 3 header 0)) ;;
  parseAddress ;;
  parsePort.

Section WithNet.
Variable net : Net.

Definition constructRemoteAddress : M State string :=
  atyp <- field addressType ;;
  if (atyp =? ipv4) || (atyp =? ipv6) then
    ip <- field IP ;;
    p <- field port ;;
    ret (hostPort (IPString net ip) p)
  else if atyp =? domainName then
    fqdn <- field FQDN ;;
    emit (Lookup fqdn) ;;
    let (ips, err) := LookupIP net fqdn in
    (if isErr err then closeConnectionWithError generalFailure
     else ret tt) ;;
    match ips with
    | [] => panic IndexOutOfRange
    | ip0 :: _ =>
        p <- field port ;;
        update (setAddressType ipv4) ;;
        ret (hostPort (IPString net ip0) p)
    end
  else
    closeConnectionWithError addressTypeNotSupported ;;
    ret "".

Definition handleCommandConnect : M State (list Z) :=
  remoteAddress <- constructRemoteAddress ;;
  emit (DialTCP remoteAddress) ;;
  let (rem, err) :=
    match Dial net remoteAddress with
    | inl bound => (Some (mkRemoteConn bound false), None)
    | inr msg => (None, Some msg)
    end in
  update (setRemote rem) ;;
  (match err with
   | Some msg =>
       if Contains msg "network is unreachable" then
         closeConnectionWithError networkUnreachable
       else if Contains msg "refused" then
         closeConnectionWithError connectionRefused
       else
         closeConnectionWithError hostUnreachable
   | None => ret tt
   end) ;;
  match rem with
  | None => panic (NilDereference "LocalAddr")
  | Some r =>
      let bindAddress := LocalAddr r in
      update (setReply succeeded) ;;
      field (fun s => generateSucceededReply s (tcpIP bindAddress)
                                             (tcpPort bindAddress))
  end.

Definition handleRequestCommand : M State (list Z * option string) :=
  cmd <- field command ;;
  if cmd =? connect then
    payload <- handleCommandConnect ;;
    ret (payload, None)
  else
    (if cmd =? bind then closeConnectionWithError commandNotSupported
     else if cmd =? udpAssociate then
            closeConnectionWithError commandNotSupported
     else closeConnectionWithError commandNotSupported) ;;
    ret ([], Some "Unsupported command").

(** The call of [exchange] as the session sees it: the relay runs and
    hands back its error, if any. *)
Definition exchange : M State (option string) :=
  emit Exchange ;;
  ret (relayError net).

Definition doReplyAction : M State (option string) :=
  cmd <- field command ;;
  rep <- field reply ;;
  if cmd =? connect then
    if rep =? succeeded then
      err <- exchange ;;
      match err with
      | Some e => ret (Some e)
      | None => ret None
      end
    else ret None
  else ret None.

(** [server.remote.RemoteAddr()] *)
Definition remoteRemoteAddr : M State unit :=
  rem <- field remote ;;
  match rem with
  | None => panic (NilDereference "RemoteAddr")
  | Some _ => ret tt
  end.

(** [server.remote.Close()] *)
Definition remoteClose (r : RemoteConn) : M State unit :=
  if remoteClosed r then ret tt
  else update (setRemote (Some (mkRemoteConn (LocalAddr r) true))) ;;
       emit RemoteClose.

(** The body of [handle], up to its last statement; the deferred
    [closeConnection] is added by [handle] below. *)
Definition handleBody : M State unit :=
  handleGreetings ;;
  handleRequestHeader ;;
  res <- handleRequestCommand ;;
  (if (0 <? Z.of_nat (length (fst res))) then connWrite (fst res)
   else ret tt) ;;
  _ <- doReplyAction ;;
  remoteRemoteAddr ;;
  rem <- field remote ;;
  match rem with
  | Some r => remoteClose r
  | None => ret tt
  end.

(** [handle(conn)], started on a fresh proxy and an empty wire. *)
Definition handle (c : ClientConn) : Res unit * State :=
  withDefer handleBody closeConnection (mkState (NewProxy c) []).
End WithNet.

End ServerGo.

(** ** The later revision of server.go (src/unnamed/part_001) *)

(** [netip.Addr]: the zero value is the invalid address. *)
Inductive Addr : Type :=
| AddrZero
| Addr4 (b : list Z)
| Addr16 (b : list Z).

Record AddrPort : Type := mkAddrPort {
  apAddr : Addr;
  apPort : Z
}.

(** [netip.AddrFromSlice] *)
Definition AddrFromSlice (ip : list Z) : Addr :=
  if (length ip =? 4)%nat then Addr4 ip
  else if (length ip =? 16)%nat then Addr16 ip
  else AddrZero.

(** The [AddrPort] method of [net.TCPAddr] *)
Definition TCPAddrPort (a : TCPAddr) : AddrPort :=
  mkAddrPort (AddrFromSlice (tcpIP a)) (Z.land (tcpPort a) 65535).

(** [netip.MustParseAddrPort("0.0.0.0:0")] *)
Definition anyAddrPort : AddrPort := mkAddrPort (Addr4 [0; 0; 0; 0]) 0.

Definition IsValid (ap : AddrPort) : bool :=
  match apAddr ap with
  | AddrZero => false
  | _ => true
  end.

Definition AsSlice (a : Addr) : list Z :=
  match a with
  | AddrZero => []
  | Addr4 b => b
  | Addr16 b => b
  end.

(** [%v] of a [netip.Addr], through the text form the network gives the
    bytes. *)
Definition AddrString (net : Net) (a : Addr) : string :=
  match a with
  | AddrZero => "invalid IP"
  | Addr4 b => IPString net b
  | Addr16 b => IPString net b
  end.

Module Part001.

Record SocksProxy : Type := mkSocksProxy {
  version : Z;
  conn : option ClientConn;
  command : Z;
  addressType : Z;
  reply : Z;
  IP : Addr;
  FQDN : string;
  port : Z;
  remote : option RemoteConn;
  methods : list Z
}.

Record State : Type := mkState {
  self : SocksProxy;
  wire : list Event
}.

Definition NewProxy (c : ClientConn) : SocksProxy :=
  mkSocksProxy 5 (Some c) 0 0 0 AddrZero "" 0 None [].

Definition setConn (c : option ClientConn) (s : SocksProxy) : SocksProxy :=
  mkSocksProxy (version s) c (command s) (addressType s) (reply s) (IP s)
               (FQDN s) (port s) (remote s) (methods s).
Definition setCommand (x : Z) (s : SocksProxy) : SocksProxy :=
  mkSocksProxy (version s) (conn s) x (addressType s) (reply s) (IP s)
               (FQDN s) (port s) (remote s) (methods s).
Definition setAddressType (x : Z) (s : SocksProxy) : SocksProxy :=
  mkSocksProxy (version s) (conn s) (command s) x (reply s) (IP s)
               (FQDN s) (port s) (remote s) (methods s).
Definition setReply (x : Z) (s : SocksProxy) : SocksProxy :=
  mkSocksProxy (version s) (conn s) (command s) (addressType s) x (IP s)
               (FQDN s) (port s) (remote s) (methods s).
Definition setIP (x : Addr) (s : SocksProxy) : SocksProxy :=
  mkSocksProxy (version s) (conn s) (command s) (addressType s) (reply s) x
               (FQDN s) (port s) (remote s) (methods s).
Definition setFQDN (x : string) (s : SocksProxy) : SocksProxy :=
  mkSocksProxy (version s) (conn s) (command s) (addressType s) (reply s)
               (IP s) x (port s) (remote s) (methods s).
Definition setPort (x : Z) (s : SocksProxy) : SocksProxy :=
  mkSocksProxy (version s) (conn s) (command s) (addressType s) (reply s)
               (IP s) (FQDN s) x (remote s) (methods s).
Definition setRemote (x : option RemoteConn) (s : SocksProxy) : SocksProxy :=
  mkSocksProxy (version s) (conn s) (command s) (addressType s) (reply s)
               (IP s) (FQDN s) (port s) x (methods s).
Definition setMethods (x : list Z) (s : SocksProxy) : SocksProxy :=
  mkSocksProxy (version s) (conn s) (command s) (addressType s) (reply s)
               (IP s) (FQDN s) (port s) (remote s) x.

Definition update (f : SocksProxy -> SocksProxy) : M State unit :=
  modify (fun w => mkState (f (self w)) (wire w)).

Definition field {A} (f : SocksProxy -> A) : M State A :=
  gets (fun w => f (self w)).

Definition emit (e : Event) : M State unit :=
  modify (fun w => mkState (self w) (wire w ++ [e])).

(** [s.conn.Read(buf)]; a method call on the nil interface panics. *)
Definition connRead (buf : list Z) : M State (list Z) :=
  fun w =>
    match conn (self w) with
    | None => (Panicked (NilDereference "Read"), w)
    | Some c0 =>
        let (b, c) := Read c0 buf in
        (Ok b, mkState (setConn (Some c) (self w)) (wire w))
    end.

(** [s.conn.Write(payload)]; the result is the error of the call. *)
Definition connWrite (payload : list Z) : M State (option string) :=
  fun w =>
    match conn (self w) with
    | None => (Panicked (NilDereference "Write"), w)
    | Some c =>
        if closed c then (Ok (Some "use of closed network connection"), w)
        else (Ok None, mkState (self w) (wire w ++ [ClientWrite payload]))
    end.

(** [s.conn.Close()] *)
Definition connClose : M State unit :=
  fun w =>
    match conn (self w) with
    | None => (Panicked (NilDereference "Close"), w)
    | Some c =>
        if closed c then (Ok tt, w)
        else (Ok tt, mkState (setConn (Some (mkClientConn (pending c) true))
                                      (self w))
                             (wire w ++ [ClientClose]))
    end.

Definition closeConnection : M State unit :=
  c <- field conn ;;
  match c with
  | None => ret tt
  | Some _ =>
      connClose ;;
      update (setConn None)
  end.

Definition generateReply (s : SocksProxy) (addrPort : AddrPort) : list Z :=
  if negb (IsValid addrPort) then []
  else
    let ip := AsSlice (apAddr addrPort) in
    let p := apPort addrPort in
    let payload := [socksVersion; reply s; 0; addressType s] in
    let payload := payload ++ ip in
    let payload := payload ++ [uint8 (Z.shiftr p 8)] in
    let payload := payload ++ [uint8 (Z.land p 255)] in
    payload.

Definition generateSucceededReply (s : SocksProxy) (addrPort : AddrPort) :=
  generateReply s addrPort.
Definition generateFailedReply (s : SocksProxy) (addrPort : AddrPort) :=
  generateReply s addrPort.

Definition closeConnectionWithError (rep : Z) : M State unit :=
  c <- field conn ;;
  match c with
  | None => ret tt
  | Some _ =>
      update (setReply rep) ;;
      payload <- field (fun s => generateFailedReply s anyAddrPort) ;;
      _ <- connWrite payload ;;
      closeConnection
  end.

Definition ensureVersion (v : Z) : M State unit :=
  if negb (v =? socksVersion) then closeConnectionWithError generalFailure
  else ret tt.

Definition ensureNMethod (nmethod : Z) : M State unit :=
  if negb ((1 <=? nmethod) && (nmethod <=? 255))
  then closeConnectionWithError generalFailure
  else ret tt.

(** The loop of [getAvailableMethods], as in [server.go]. *)
Fixpoint readMethods (rounds : nat) (m methods : list Z) : M State (list Z) :=
  match rounds with
  | O => ret methods
  | S rounds' =>
      m' <- connRead m ;;
      readMethods rounds' m' (methods ++ [hd 0 m'])
  end.

Definition getAvailableMethods (nmethod : Z) : M State (list Z) :=
  readMethods (Z.to_nat nmethod) [0] [].

Definition parseAddress : M State unit :=
  atyp <- field addressType ;;
  if atyp =? ipv4 then
    buf <- connRead (make 4) ;;
    update (setIP (Addr4 buf))
  else if atyp =? domainName then
    domainLength <- connRead [0] ;;
    fqdn <- connRead (make (hd 0 domainLength)) ;;
    update (setFQDN (stringOfBytes fqdn))
  else if atyp =? ipv6 then
    buf <- connRead (make 16) ;;
    update (setIP (Addr16 buf))
  else
    closeConnectionWithError addressTypeNotSupported.

Definition parsePort : M State unit :=
  buf <- connRead [0; 0] ;;
  update (setPort (Z.lor (Z.shiftl (nth 0 buf 0) 8) (nth 1 buf 0))).

(** [fmt.Errorf("...(%d)", n)], the error as its message. *)
Definition errorf (what : string) (n : Z) : string :=
  (what ++ "(" ++ decimal n ++ ")")%string.

Definition handleGreetings : M State (option string) :=
  ver <- connRead [0] ;;
  nmethod <- connRead [0] ;;
  (* the source has the call of ensureVersion commented out here *)
  c <- field conn ;;
  match c with
  | None =>
      ret (Some (errorf "connection closed due to invalid version" (hd 0 ver)))
  | Some _ =>
      ensureNMethod (hd 0 nmethod) ;;
      c <- field conn ;;
      match c with
      | None =>
          ret (Some (errorf "connection closed due to invalid nmethod"
                            (hd 0 nmethod)))
      | Some _ =>
          ms <- getAvailableMethods (hd 0 nmethod) ;;
          update (setMethods ms) ;;
          _ <- connWrite [socksVersion; noAuth] ;;
          ret None
      end
  end.

Definition handleRequestHeader : M State (option string) :=
  header <- connRead [0; 0; 0; 0] ;;
  ensureVersion (nth 0 header 0) ;;
  c <- field conn ;;
  match c with
  | None =>
      ret (Some (errorf "connection closed due to invalid version"
                        (nth 0 header 0)))
  | Some _ =>
      update (setCommand (nth 1 header 0)) ;;
      update (setAddressType (nth 3 header 0)) ;;
      parseAddress ;;
      c <- field conn ;;
      match c with
      | None =>
          ret (Some (errorf "connection closed due to invalid address type"
                            (nth 3 header 0)))
      | Some _ =>
          parsePort ;;
          ret None
      end
  end.

Section WithNet.
Variable net : Net.

Definition constructRemoteAddress : M State string :=
  atyp <- field addressType ;;
  if (atyp =? ipv4) || (atyp =? ipv6) then
    ip <- field IP ;;
    p <- field port ;;
    ret (hostPort (AddrString net ip) p)
  else if atyp =? domainName then
    fqdn <- field FQDN ;;
    emit (Lookup fqdn) ;;
    let (ips, err) := LookupIP net fqdn in
    (if isErr err || (length ips =? 0)%nat
     then closeConnectionWithError generalFailure
     else ret tt) ;;
    match ips with
    | ip0 :: _ =>
        p <- field port ;;
        update (setAddressType ipv4) ;;
        ret (hostPort (IPString net ip0) p)
    | [] => ret ""
    end
  else
    closeConnectionWithError addressTypeNotSupported ;;
    ret "".

Definition handleCommandConnect : M State (list Z * option string) :=
  remoteAddress <- constructRemoteAddress ;;
  c <- field conn ;;
  match c with
  | None => ret ([], Some "Connection closed early")
  | Some _ =>
      emit (DialTCP remoteAddress) ;;
      let (rem, err) :=
        match Dial net remoteAddress with
        | inl bound => (Some (mkRemoteConn bound false), None)
        | inr msg => (None, Some msg)
        end in
      update (setRemote rem) ;;
      match err with
      | Some msg =>
          (if Contains msg "network is unreachable" then
             closeConnectionWithError networkUnreachable
           else if Contains msg "refused" then
             closeConnectionWithError connectionRefused
           else
             closeConnectionWithError hostUnreachable) ;;
          ret ([], Some ("Failed to dial remote: " ++ remoteAddress
                         ++ ": " ++ msg)%string)
      | None =>
          match rem with
          | None => panic (NilDereference "LocalAddr")
          | Some r =>
              let bindAddress := LocalAddr r in
              update (setReply succeeded) ;;
              payload <- field (fun s =>
                generateSucceededReply s (TCPAddrPort bindAddress)) ;;
              ret (payload, None)
          end
      end
  end.

Definition handleRequestCommand : M State (list Z * option string) :=
  cmd <- field command ;;
  if cmd =? connect then
    res <- handleCommandConnect ;;
    match snd res with
    | Some err => ret ([], Some err)
    | None => ret (fst res, None)
    end
  else
    (if cmd =? bind then closeConnectionWithError commandNotSupported
     else if cmd =? udpAssociate then
            closeConnectionWithError commandNotSupported
     else closeConnectionWithError commandNotSupported) ;;
    ret ([], Some (errorf "Unsupported command " cmd)).

(** The call of [exchange] as the session sees it; this revision always
    returns nil. *)
Definition exchange : M State (option string) :=
  emit Exchange ;;
  ret None.

Definition doReplyAction : M State (option string) :=
  cmd <- field command ;;
  rep <- field reply ;;
  if cmd =? connect then
    if rep =? succeeded then
      err <- exchange ;;
      match err with
      | Some e => ret (Some e)
      | None => ret None
      end
    else ret None
  else ret None.

(** [server.remote.Close()] *)
Definition remoteClose (r : RemoteConn) : M State unit :=
  if remoteClosed r then ret tt
  else update (setRemote (Some (mkRemoteConn (LocalAddr r) true))) ;;
       emit RemoteClose.

(** The body of [handle]: every [return] of the source ends it, and the
    deferred [closeConnection] is added by [handle] below. *)
Definition handleBody : M State unit :=
  err <- handleGreetings ;;
  match err with
  | Some _ => ret tt
  | None =>
  err <- handleRequestHeader ;;
  match err with
  | Some _ => ret tt
  | None =>
  res <- handleRequestCommand ;;
  match snd res with
  | Some _ => ret tt
  | None =>
  werr <- (if 0 <? Z.of_nat (length (fst res)) then connWrite (fst res)
           else ret None) ;;
  match werr with
  | Some _ => ret tt
  | None =>
  err <- doReplyAction ;;
  match err with
  | Some _ => ret tt
  | None =>
  rem <- field remote ;;
  match rem with
  | Some r => remoteClose r
  | None => ret tt
  end end end end end end.

(** [handle(conn)], started on a fresh proxy and an empty wire. *)
Definition handle (c : ClientConn) : Res unit * State :=
  withDefer handleBody closeConnection (mkState (NewProxy c) []).
End WithNet.

End Part001.

(** ** The relay: [exchange] as a transition system

    [exchange] starts two goroutines, each running [io.Copy] in one
    direction, and waits.  A state holds where each goroutine stands and what
    the caller is doing; a step is one goroutine, or the caller, moving on.
    When an [io.Copy] ends, and with which error, is the network's choice. *)

Inductive Direction : Type :=
| ClientToRemote   (* proxy(remote, client) *)
| RemoteToClient.  (* proxy(client, remote) *)

Inductive Endpoint : Type :=
| ClientEnd
| RemoteEnd.

(** The [dst] argument of [proxy] in each direction. *)
Definition dst (d : Direction) : Endpoint :=
  match d with
  | ClientToRemote => RemoteEnd
  | RemoteToClient => ClientEnd
  end.

Definition sibling (d : Direction) : Direction :=
  match d with
  | ClientToRemote => RemoteToClient
  | RemoteToClient => ClientToRemote
  end.

Inductive RelayEvent : Type :=
| CopyEnded (d : Direction) (err : option string)
| CloseWrite (e : Endpoint)
| Return (err : option string).

(** What the claims about the relay look at, in either version. *)
Record RelayView : Type := mkRelayView {
  returned : bool;
  finished : Direction -> bool;
  halfClosed : Endpoint -> bool
}.

(** Full-duplex join with half-close: once [exchange] has returned, both
    directions have run to their end and each destination has had its write
    side shut down. *)
Definition joinedBoth (v : RelayView) : Prop :=
  returned v = true ->
  (forall d, finished v d = true) /\ (forall e, halfClosed v e = true).

Definition hasCloseWrite (e : Endpoint) (ev : RelayEvent) : bool :=
  match ev, e with
  | CloseWrite ClientEnd, ClientEnd => true
  | CloseWrite RemoteEnd, RemoteEnd => true
  | _, _ => false
  end.

Module Part001Relay.

(** Where a [proxy] goroutine stands. *)
Inductive Proxy : Type :=
| Copying                         (* inside io.Copy *)
| Copied (err : option string)    (* io.Copy returned *)
| HalfClosed                      (* dst.CloseWrite() done *)
| Finished.                       (* wg.Done() done *)

Inductive Caller : Type :=
| Waiting                         (* in wg.Wait() *)
| Returned.                       (* return nil *)

Record Relay : Type := mkRelay {
  toRemote : Proxy;
  toClient : Proxy;
  wg : nat;
  caller : Caller;
  log : list RelayEvent
}.

Definition proxy (r : Relay) (d : Direction) : Proxy :=
  match d with
  | ClientToRemote => toRemote r
  | RemoteToClient => toClient r
  end.

Definition setProxy (d : Direction) (p : Proxy) (r : Relay) : Relay :=
  match d with
  | ClientToRemote => mkRelay p (toClient r) (wg r) (caller r) (log r)
  | RemoteToClient => mkRelay (toRemote r) p (wg r) (caller r) (log r)
  end.

Definition record (ev : RelayEvent) (r : Relay) : Relay :=
  mkRelay (toRemote r) (toClient r) (wg r) (caller r) (log r ++ [ev]).

Definition wgDone (r : Relay) : Relay :=
  mkRelay (toRemote r) (toClient r) (wg r - 1) (caller r) (log r).

Definition setCaller (c : Caller) (r : Relay) : Relay :=
  mkRelay (toRemote r) (toClient r) (wg r) c (log r).

(** After [wg.Add(2)] and the two [go] statements. *)
Definition start : Relay := mkRelay Copying Copying 2 Waiting [].

Inductive step : Relay -> Relay -> Prop :=
| copy_ends d err r :
    proxy r d = Copying ->
    step r (record (CopyEnded d err) (setProxy d (Copied err) r))
| close_write d err r :
    proxy r d = Copied err ->
    step r (record (CloseWrite (dst d)) (setProxy d HalfClosed r))
| wg_done d r :
    proxy r d = HalfClosed ->
    step r (wgDone (setProxy d Finished r))
| wait_returns r :
    caller r = Waiting ->
    wg r = 0%nat ->
    step r (record (Return None) (setCaller Returned r)).

Inductive reachable : Relay -> Prop :=
| reach_start : reachable start
| reach_step r r' : reachable r -> step r r' -> reachable r'.

Definition isFinished (p : Proxy) : bool :=
  match p with Finished => true | _ => false end.

Definition view (r : Relay) : RelayView :=
  mkRelayView
    (match caller r with Returned => true | Waiting => false end)
    (fun d => isFinished (proxy r d))
    (fun e => existsb (hasCloseWrite e) (log r)).

Definition unfinished (p : Proxy) : nat := if isFinished p then 0 else 1.

Definition closedWrite (p : Proxy) : bool :=
  match p with
  | HalfClosed | Finished => true
  | _ => false
  end.

(** The wait group counts the goroutines that have not called [Done]; the
    caller has returned only at zero; a goroutine past its [CloseWrite] has
    left the event in the log. *)
Definition Inv (r : Relay) : Prop :=
  wg r = (unfinished (toRemote r) + unfinished (toClient r))%nat
  /\ (caller r = Returned -> wg r = 0%nat)
  /\ (closedWrite (toRemote r) = true ->
      existsb (hasCloseWrite RemoteEnd) (log r) = true)
  /\ (closedWrite (toClient r) = true ->
      existsb (hasCloseWrite ClientEnd) (log r) = true).

Inductive steps : Relay -> Relay -> Prop :=
| steps_refl r : steps r r
| steps_more r r' r'' : step r r' -> steps r' r'' -> steps r r''.

End Part001Relay.

Module ServerGoRelay.

Inductive Proxy : Type :=
| Copying                         (* inside io.Copy *)
| Copied (err : option string)    (* io.Copy returned *)
| Finished.                       (* errCh <- err done *)

Inductive Caller : Type :=
| Receiving (i : nat)             (* at <-errCh in round i of the loop *)
| Returned (err : option string).

Record Relay : Type := mkRelay {
  toRemote : Proxy;
  toClient : Proxy;
  errCh : list (option string);
  caller : Caller;
  log : list RelayEvent
}.

Definition proxy (r : Relay) (d : Direction) : Proxy :=
  match d with
  | ClientToRemote => toRemote r
  | RemoteToClient => toClient r
  end.

Definition setProxy (d : Direction) (p : Proxy) (r : Relay) : Relay :=
  match d with
  | ClientToRemote => mkRelay p (toClient r) (errCh r) (caller r) (log r)
  | RemoteToClient => mkRelay (toRemote r) p (errCh r) (caller r) (log r)
  end.

Definition record (ev : RelayEvent) (r : Relay) : Relay :=
  mkRelay (toRemote r) (toClient r) (errCh r) (caller r) (log r ++ [ev]).

Definition setErrCh (ch : list (option string)) (r : Relay) : Relay :=
  mkRelay (toRemote r) (toClient r) ch (caller r) (log r).

Definition setCaller (c : Caller) (r : Relay) : Relay :=
  mkRelay (toRemote r) (toClient r) (errCh r) c (log r).

(** After [make(chan error, 2)] and the two [go] statements. *)
Definition start : Relay := mkRelay Copying Copying [] (Receiving 0) [].

(** One round of [for i := 0; i < 2; i++ { if err := <-errCh; ... }]. *)
Definition afterReceive (i : nat) (err : option string) : Caller :=
  match err with
  | Some e => Returned (Some e)
  | None => if (i + 1 <? 2)%nat then Receiving (i + 1) else Returned None
  end.

Definition returnEvent (c : Caller) (r : Relay) : Relay :=
  match c with
  | Returned err => record (Return err) r
  | Receiving _ => r
  end.

Inductive step : Relay -> Relay -> Prop :=
| copy_ends d err r :
    proxy r d = Copying ->
    step r (record (CopyEnded d err) (setProxy d (Copied err) r))
| send d err r :
    proxy r d = Copied err ->
    (length (errCh r) < 2)%nat ->
    step r (setErrCh (errCh r ++ [err]) (setProxy d Finished r))
| receive i err rest r :
    caller r = Receiving i ->
    errCh r = err :: rest ->
    step r (returnEvent (afterReceive i err)
              (setCaller (afterReceive i err) (setErrCh rest r))).

Inductive reachable : Relay -> Prop :=
| reach_start : reachable start
| reach_step r r' : reachable r -> step r r' -> reachable r'.

Definition isFinished (p : Proxy) : bool :=
  match p with Finished => true | _ => false end.

Definition view (r : Relay) : RelayView :=
  mkRelayView
    (match caller r with Returned _ => true | Receiving _ => false end)
    (fun d => isFinished (proxy r d))
    (fun e => existsb (hasCloseWrite e) (log r)).

(** The run in which the copy towards the remote fails first: [io.Copy]
    returns the error, the goroutine sends it, the caller receives it and
    returns, while the copy towards the client is still running. *)
Definition resetMessage : string := "write: connection reset by peer".

Definition earlyReturn : Relay :=
  mkRelay Finished Copying [] (Returned (Some resetMessage))
          [CopyEnded ClientToRemote (Some resetMessage);
           Return (Some resetMessage)].

End ServerGoRelay.

(** ** Assumptions on the network, and triples *)

(** A dialled TCP connection is bound to a four- or sixteen-byte address. *)
Definition dialBindsIP (net : Net) : Prop :=
  forall address bound,
    Dial net address = inl bound ->
    length (tcpIP bound) = 4%nat \/ length (tcpIP bound) = 16%nat.

(** A lookup that reports no error has found an address. *)
Definition lookupFinds (net : Net) : Prop :=
  forall fqdn ips, LookupIP net fqdn = (ips, None) -> ips <> [].

(** [triple P m Q E]: from a state in [P], [m] ends in [Q] when it returns
    and in [E] when it panics. *)
Definition triple {St A} (P : St -> Prop) (m : M St A)
           (Q : A -> St -> Prop) (E : Panic -> St -> Prop) : Prop :=
  forall w, P w ->
    match m w with
    | (Ok a, w') => Q a w'
    | (Panicked p, w') => E p w'
    end.

(** [m] keeps [I] and does not panic. *)
Definition safe {St A} (I : St -> Prop) (m : M St A) : Prop :=
  triple I m (fun _ => I) (fun _ _ => False).

(** ** The address family of a lookup result *)

(** The address family of a lookup result, in the words of the claim: an
    address is IPv4 when [To4] of [net.IP] accepts it (four bytes, or sixteen
    with the IPv4-mapped prefix). *)
Definition isIPv4 (ip : list Z) : bool :=
  (length ip =? 4)%nat
  || ((length ip =? 16)%nat
      && forallb (Z.eqb 0) (firstn 10 ip)
      && (nth 10 ip 0 =? 255) && (nth 11 ip 0 =? 255)).

Definition addressFamily (ip : list Z) : Z :=
  if isIPv4 ip then ipv4 else ipv6.

(** ** What the sessions keep *)

(** Nothing dialled and no relay so far. *)
Definition quiet (wire : list Event) : Prop :=
  forall e, In e wire -> isExchange e = false /\ isDial e = false.

(** As many replies have reached the client as the connection's state
    allows: one once it is closed, none while it is open. *)
Definition sentOnce (w : ServerGo.State) : Prop :=
  length (replies (ServerGo.wire w))
  = if closed (ServerGo.conn (ServerGo.self w)) then 1%nat else 0%nat.

(** Up to the dial: nothing dialled, no relay, no remote connection; [P]
    is what is known of the command. *)
Definition GoInv (P : Z -> Prop) (w : ServerGo.State) : Prop :=
  sentOnce w
  /\ ServerGo.remote (ServerGo.self w) = None
  /\ quiet (ServerGo.wire w)
  /\ P (ServerGo.command (ServerGo.self w)).

(** Nothing known of the command. *)
Definition anyCommand : Z -> Prop := fun _ => True.

(** What a [server.go] session has reached when it stops. *)
Definition GoFinal (w : ServerGo.State) : Prop :=
  length (replies (ServerGo.wire w)) = 1%nat
  /\ (In Exchange (ServerGo.wire w) ->
      ServerGo.command (ServerGo.self w) = connect
      /\ ServerGo.reply (ServerGo.self w) = succeeded).

(** The state in which [handleCommandConnect] hands back its payload. *)
Definition GoConnected (payload : list Z) (w : ServerGo.State) : Prop :=
  sentOnce w
  /\ ServerGo.remote (ServerGo.self w) <> None
  /\ ~ In Exchange (ServerGo.wire w)
  /\ ServerGo.command (ServerGo.self w) = connect
  /\ ServerGo.reply (ServerGo.self w) = succeeded
  /\ isReplyFrame payload = true.

(** Some dial on the wire was answered with an error. *)
Definition dialFailed (net : Net) (wire : list Event) : Prop :=
  exists address msg, In (DialTCP address) wire /\ Dial net address = inr msg.

(** How [handleCommandConnect] of [server.go] panics. *)
Definition GoConnectPanic (net : Net) (p : Panic)
           (w : ServerGo.State) : Prop :=
  sentOnce w
  /\ ServerGo.remote (ServerGo.self w) = None
  /\ ~ In Exchange (ServerGo.wire w)
  /\ ServerGo.command (ServerGo.self w) = connect
  /\ ((p = NilDereference "LocalAddr"
       /\ closed (ServerGo.conn (ServerGo.self w)) = true
       /\ dialFailed net (ServerGo.wire w))
      \/ (p = IndexOutOfRange
          /\ quiet (ServerGo.wire w)
          /\ (lookupFinds net ->
              closed (ServerGo.conn (ServerGo.self w)) = true))).

(** How a [server.go] session panics. *)
Definition GoBodyPanic (net : Net) (p : Panic)
           (w : ServerGo.State) : Prop :=
  (lookupFinds net -> length (replies (ServerGo.wire w)) = 1%nat)
  /\ ~ In Exchange (ServerGo.wire w)
  /\ ServerGo.remote (ServerGo.self w) = None
  /\ ((ServerGo.command (ServerGo.self w) <> connect
       /\ p = NilDereference "RemoteAddr"
       /\ quiet (ServerGo.wire w))
      \/ (ServerGo.command (ServerGo.self w) = connect
          /\ p = NilDereference "LocalAddr"
          /\ dialFailed net (ServerGo.wire w))
      \/ (ServerGo.command (ServerGo.self w) = connect
          /\ p = IndexOutOfRange
          /\ quiet (ServerGo.wire w))).

(** The later revision before the dial: nothing dialled, no relay, no
    remote connection; the handle is nil exactly when the one reply has been
    sent, and a handle that is not nil is open. *)
Definition P1Inv (w : Part001.State) : Prop :=
  Part001.remote (Part001.self w) = None
  /\ quiet (Part001.wire w)
  /\ match Part001.conn (Part001.self w) with
     | None => length (replies (Part001.wire w)) = 1%nat
     | Some c => closed c = false
                 /\ length (replies (Part001.wire w)) = 0%nat
     end.

(** ... and the handle is not nil. *)
Definition P1Live (w : Part001.State) : Prop :=
  P1Inv w /\ Part001.conn (Part001.self w) <> None.

(** The test [if s.conn == nil] after a step that may have closed. *)
Definition closedIff (err : option string) (w : Part001.State) : Prop :=
  P1Inv w
  /\ (err = None -> Part001.conn (Part001.self w) <> None)
  /\ (err <> None -> Part001.conn (Part001.self w) = None).

(** What a session of the later revision has reached when it stops. *)
Definition P1Final (w : Part001.State) : Prop :=
  length (replies (Part001.wire w)) = 1%nat
  /\ (In Exchange (Part001.wire w) ->
      Part001.command (Part001.self w) = connect
      /\ Part001.reply (Part001.self w) = succeeded).

(** Closed after its one reply, nothing relayed. *)
Definition P1Failed (w : Part001.State) : Prop :=
  Part001.conn (Part001.self w) = None
  /\ length (replies (Part001.wire w)) = 1%nat
  /\ ~ In Exchange (Part001.wire w).

(** The state in which [handleCommandConnect] hands back its payload. *)
Definition P1Connected (net : Net) (payload : list Z)
           (w : Part001.State) : Prop :=
  (exists c, Part001.conn (Part001.self w) = Some c /\ closed c = false)
  /\ length (replies (Part001.wire w)) = 0%nat
  /\ ~ In Exchange (Part001.wire w)
  /\ Part001.remote (Part001.self w) <> None
  /\ Part001.reply (Part001.self w) = succeeded
  /\ (dialBindsIP net -> isReplyFrame payload = true).

(** What [handleCommandConnect] and [handleRequestCommand] of the later
    revision return: an error after the one reply, or the payload. *)
Definition P1Outcome (net : Net) (res : list Z * option string)
           (w : Part001.State) : Prop :=
  (snd res <> None /\ P1Failed w)
  \/ (snd res = None /\ P1Connected net (fst res) w).

(** ** Networks, requests and sessions for concrete runs *)

(** Dotted-decimal text of a four-byte address. *)
Definition dotted (ip : list Z) : string :=
  String.concat "." (map decimal ip).

(** Every dial succeeds and is bound to 10.0.0.2:40000; lookups give
    93.184.216.34. *)
Definition reachable : Net :=
  mkNet (fun _ => ([[93; 184; 216; 34]], None))
        (fun _ => inl (mkTCPAddr [10; 0; 0; 2] 40000))
        dotted
        None.

(** Every dial is refused; lookups fail. *)
Definition refusing : Net :=
  mkNet (fun _ => ([], Some "no such host"))
        (fun _ => inr "dial tcp: connect: connection refused")
        dotted
        None.

(** A connection on which the client has sent [bytes]. *)
Definition client (bytes : list Z) : ClientConn := mkClientConn bytes false.

(** 2001:db8::1 *)
Definition documentation6 : list Z :=
  [32; 1; 13; 184; 0; 0; 0; 0; 0; 0; 0; 0; 0; 0; 0; 1].

(** Lookups give the IPv6 address alone; dials succeed from it. *)
Definition v6only : Net :=
  mkNet (fun _ => ([documentation6], None))
        (fun _ => inl (mkTCPAddr documentation6 40000))
        (fun _ => "2001:db8::1")
        None.

(** The BIND request 05 02 00 01 127.0.0.1:8080 after a valid greeting. *)
Definition bindSession : ClientConn :=
  client [5; 1; 0; 5; 2; 0; 1; 127; 0; 0; 1; 31; 144].

(** The CONNECT request 05 01 00 01 127.0.0.1:8080 after a valid greeting. *)
Definition connectSession : ClientConn :=
  client [5; 1; 0; 5; 1; 0; 1; 127; 0; 0; 1; 31; 144].

(** The request 05 02 00 01 (bind, ipv4) as both versions hold it after
    [handleRequestHeader]. *)
Definition bindRequestGo : ServerGo.SocksProxy :=
  ServerGo.setAddressType ipv4
    (ServerGo.setCommand bind (ServerGo.NewProxy (client []))).

(** The same request in the later revision. *)
Definition bindRequest001 : Part001.SocksProxy :=
  Part001.setAddressType ipv4
    (Part001.setCommand bind (Part001.NewProxy (client []))).

(** The request 05 01 00 01 7F 00 00 01 1F 90 (connect to 127.0.0.1:8080) as
    both versions hold it after [handleRequestHeader]. *)
Definition connectRequestGo : ServerGo.State :=
  ServerGo.mkState
    (ServerGo.setPort 8080
       (ServerGo.setIP [127; 0; 0; 1]
          (ServerGo.setAddressType ipv4
             (ServerGo.setCommand connect (ServerGo.NewProxy (client []))))))
    [ClientWrite [5; 0]].

(** The same request in the later revision. *)
Definition connectRequest001 : Part001.State :=
  Part001.mkState
    (Part001.setPort 8080
       (Part001.setIP (Addr4 [127; 0; 0; 1])
          (Part001.setAddressType ipv4
             (Part001.setCommand connect (Part001.NewProxy (client []))))))
    [ClientWrite [5; 0]].

(** A connect request for example.com:80 by name, as both versions hold it
    after [handleRequestHeader]. *)
Definition domainRequestGo : ServerGo.SocksProxy :=
  ServerGo.setPort 80
    (ServerGo.setFQDN "example.com"
       (ServerGo.setAddressType domainName
          (ServerGo.setCommand connect (ServerGo.NewProxy (client []))))).

(** The same request in the later revision. *)
Definition domainRequest001 : Part001.SocksProxy :=
  Part001.setPort 80
    (Part001.setFQDN "example.com"
       (Part001.setAddressType domainName
          (Part001.setCommand connect (Part001.NewProxy (client []))))).

(** ** Further definitions *)

(** On a closed connection [m] returns without a panic, writes nothing and
    consumes nothing: the wire and the unread bytes are as before, and the
    connection stays closed. *)
Definition idleOnClosed {A} (m : M ServerGo.State A) : Prop :=
  forall s wire,
    closed (ServerGo.conn s) = true ->
    exists a s2,
      m (ServerGo.mkState s wire) = (Ok a, ServerGo.mkState s2 wire)
      /\ ServerGo.conn s2 = ServerGo.conn s
      /\ ServerGo.remote s2 = ServerGo.remote s.


(** How often the write side of [e] has been shut down. *)
Definition closeWrites (e : Endpoint) (log : list RelayEvent) : nat :=
  length (filter (hasCloseWrite e) log).

(** The later revision's relay shuts the write side of a destination
    exactly when the goroutine that copies towards it has passed its
    [CloseWrite]. *)
Definition closedOnce (r : Part001Relay.Relay) : Prop :=
  closeWrites RemoteEnd (Part001Relay.log r)
  = (if Part001Relay.closedWrite (Part001Relay.toRemote r)
     then 1 else 0)%nat
  /\ closeWrites ClientEnd (Part001Relay.log r)
     = (if Part001Relay.closedWrite (Part001Relay.toClient r)
        then 1 else 0)%nat.

(** The relay of the later revision run to its end, both copies ending
    without error. *)
Definition joined : Part001Relay.Relay :=
  Part001Relay.mkRelay Part001Relay.Finished Part001Relay.Finished 0
    Part001Relay.Returned
    [CopyEnded ClientToRemote None; CloseWrite RemoteEnd;
     CopyEnded RemoteToClient None; CloseWrite ClientEnd;
     Return None].

(** ** Bookkeeping for the relay of [server.go] *)

Definition sameDirection (d d' : Direction) : bool :=
  match d, d' with
  | ClientToRemote, ClientToRemote => true
  | RemoteToClient, RemoteToClient => true
  | _, _ => false
  end.

(** The copy in direction [d] has ended with an error. *)
Definition copyFailed (d : Direction) (ev : RelayEvent) : bool :=
  match ev with
  | CopyEnded d' (Some _) => sameDirection d d'
  | _ => false
  end.

Definition failed (d : Direction) (log : list RelayEvent) : bool :=
  existsb (copyFailed d) log.

(** Goroutines that have sent on [errCh], and those among them whose copy
    failed. *)
Definition sent (r : ServerGoRelay.Relay) (d : Direction) : nat :=
  if ServerGoRelay.isFinished (ServerGoRelay.proxy r d) then 1 else 0.

Definition sentError (r : ServerGoRelay.Relay) (d : Direction) : nat :=
  if ServerGoRelay.isFinished (ServerGoRelay.proxy r d)
     && failed d (ServerGoRelay.log r)
  then 1 else 0.

(** What the log says of a goroutine that has not sent yet. *)
Definition proxyKnown (r : ServerGoRelay.Relay) (d : Direction) : Prop :=
  match ServerGoRelay.proxy r d with
  | ServerGoRelay.Copying => failed d (ServerGoRelay.log r) = false
  | ServerGoRelay.Copied err =>
      failed d (ServerGoRelay.log r) = isErr err
      /\ In (CopyEnded d err) (ServerGoRelay.log r)
  | ServerGoRelay.Finished => True
  end.

(** Every value in the channel is the result of a copy. *)
Definition channelKnown (r : ServerGoRelay.Relay) : Prop :=
  forall err, In err (ServerGoRelay.errCh r) ->
              exists d, In (CopyEnded d err) (ServerGoRelay.log r).

(** The caller against the channel: what it has received and what is
    buffered make up what has been sent; while it is still receiving it
    has seen nil only, so the errors sent are all in the buffer. *)
Definition callerKnown (r : ServerGoRelay.Relay) : Prop :=
  let n := (sent r ClientToRemote + sent r RemoteToClient)%nat in
  let bad := (sentError r ClientToRemote + sentError r RemoteToClient)%nat in
  match ServerGoRelay.caller r with
  | ServerGoRelay.Receiving i =>
      (i + length (ServerGoRelay.errCh r) = n)%nat
      /\ bad = length (filter isErr (ServerGoRelay.errCh r))
      /\ (i < 2)%nat
  | ServerGoRelay.Returned None =>
      n = 2%nat /\ ServerGoRelay.errCh r = [] /\ bad = 0%nat
  | ServerGoRelay.Returned (Some e) =>
      (length (ServerGoRelay.errCh r) <= n)%nat
      /\ exists d, In (CopyEnded d (Some e)) (ServerGoRelay.log r)
  end.

Definition accounted (r : ServerGoRelay.Relay) : Prop :=
  proxyKnown r ClientToRemote /\ proxyKnown r RemoteToClient
  /\ channelKnown r /\ callerKnown r.

(** Runs of the relay of [server.go]. *)
Inductive runsTo : ServerGoRelay.Relay -> ServerGoRelay.Relay -> Prop :=
| runs_refl r : runsTo r r
| runs_more r r' r'' :
    ServerGoRelay.step r r' -> runsTo r' r'' -> runsTo r r''.

(** [exchange] of [server.go] has returned the error of the copy towards
    the remote; the copy towards the client has ended since and its
    goroutine is about to send. *)
Definition lateSender : ServerGoRelay.Relay :=
  ServerGoRelay.mkRelay ServerGoRelay.Finished (ServerGoRelay.Copied None) []
    (ServerGoRelay.Returned (Some ServerGoRelay.resetMessage))
    [CopyEnded ClientToRemote (Some ServerGoRelay.resetMessage);
     Return (Some ServerGoRelay.resetMessage);
     CopyEnded RemoteToClient None].

(** ** The name of a reply code (src/unnamed/part_001) *)

(** [func (r socksReply) String() string]; the default branch is
    [fmt.Sprintf("unknown(%d)", r)]. *)
Definition socksReply_String (r : Z) : string :=
  if r =? succeeded then "succeeded"
  else if r =? generalFailure then "general failure"
  else if r =? connectionNotAllowed then "connection not allowed"
  else if r =? networkUnreachable then "network unreachable"
  else if r =? hostUnreachable then "host unreachable"
  else if r =? connectionRefused then "connection refused"
  else if r =? ttlExpired then "ttl expired"
  else if r =? commandNotSupported then "command not supported"
  else if r =? addressTypeNotSupported then "address type not supported"
  else ("unknown(" ++ decimal r ++ ")")%string.
(** * Proofs *)

Section TripleRules.
Context {St : Type}.

Lemma triple_ret {A} (P : St -> Prop) (a : A) Q E :
  (forall w, P w -> Q a w) -> triple P (ret a) Q E.
Proof. intros H w Hw. simpl. auto. Qed.

Lemma triple_bind {A B} (P : St -> Prop) (m : M St A) (k : A -> M St B)
      (R : A -> St -> Prop) Q E :
  triple P m R E ->
  (forall a, triple (R a) (k a) Q E) ->
  triple P (bindM m k) Q E.
Proof.
  intros Hm Hk w Hw. unfold bindM.
  specialize (Hm w Hw). destruct (m w) as [[a|p] w']; auto.
  apply Hk; assumption.
Qed.

Lemma triple_weaken {A} (P P' : St -> Prop) (m : M St A)
      (Q Q' : A -> St -> Prop) (E E' : Panic -> St -> Prop) :
  triple P' m Q' E' ->
  (forall w, P w -> P' w) ->
  (forall a w, Q' a w -> Q a w) ->
  (forall p w, E' p w -> E p w) ->
  triple P m Q E.
Proof.
  intros H HP HQ HE w Hw. specialize (H w (HP w Hw)).
  destruct (m w) as [[a|p] w']; auto.
Qed.

Lemma triple_gets {A} (P : St -> Prop) (f : St -> A) Q E :
  (forall w, P w -> Q (f w) w) -> triple P (gets f) Q E.
Proof. intros H w Hw. simpl. auto. Qed.

Lemma triple_modify (P : St -> Prop) (f : St -> St) Q E :
  (forall w, P w -> Q tt (f w)) -> triple P (modify f) Q E.
Proof. intros H w Hw. simpl. auto. Qed.

Lemma triple_panic {A} (P : St -> Prop) p (Q : A -> St -> Prop) E :
  (forall w, P w -> E p w) -> triple P (panic p) Q E.
Proof. intros H w Hw. simpl. auto. Qed.

End TripleRules.

(** ** Facts on the primitives *)

Lemma Read_closed c buf : closed (snd (Read c buf)) = closed c.
Proof. unfold Read. destruct (closed c) eqn:E; simpl; auto. Qed.

Lemma Read_open c buf :
  closed c = false ->
  Read c buf =
  (firstn (length buf) (pending c)
     ++ skipn (length (firstn (length buf) (pending c))) buf,
   mkClientConn (skipn (length buf) (pending c)) false).
Proof. intros H. unfold Read. rewrite H. reflexivity. Qed.

Lemma filter_snoc {A} (f : A -> bool) l x :
  filter f (l ++ [x]) = filter f l ++ (if f x then [x] else []).
Proof. rewrite filter_app. reflexivity. Qed.

Lemma replies_snoc wire e :
  replies (wire ++ [e]) = replies wire ++ (if replyFrame e then [e] else []).
Proof. apply filter_snoc. Qed.

Lemma in_snoc {A} (x y : A) l : In x (l ++ [y]) <-> In x l \/ x = y.
Proof.
  rewrite in_app_iff. simpl. split; intros [H|H]; auto.
  - destruct H as [H|[]]; auto.
Qed.

(** ** The greeting *)

(** The reads of [handleGreetings] take one byte each. *)

Unset Implicit Arguments.

Lemma last_cons_default {A} (y : A) l x : last (y :: l) x = last l y.
Proof.
  revert y x. induction l as [|z l IH]; intros y x; [reflexivity |].
  change (last (y :: z :: l) x) with (last (z :: l) x).
  rewrite (IH z x), (IH z y). reflexivity.
Qed.

Lemma ServerGo_readMethods_open rounds : forall x acc s wire bytes,
  closed (ServerGo.conn s) = false ->
  pending (ServerGo.conn s) = bytes ->
  ServerGo.readMethods rounds [x] acc (ServerGo.mkState s wire)
  = (Ok (acc ++ firstn rounds bytes
             ++ repeat (last (firstn rounds bytes) x)
                       (rounds - length (firstn rounds bytes))),
     ServerGo.mkState
       (ServerGo.setConn (mkClientConn (skipn rounds bytes) false) s) wire).
Proof.
  induction rounds as [|k IH]; intros x acc s wire bytes Hopen Hp.
  - simpl. rewrite app_nil_r.
    destruct s as [v [p cl] cmd aty rp ip fq po rm ms]. simpl in *. subst.
    reflexivity.
  - simpl. unfold bindM, ServerGo.connRead. simpl.
    rewrite (@Read_open _ [x] Hopen), Hp. simpl.
    destruct bytes as [|y bytes']; simpl.
    + match goal with
      | |- context [ServerGo.readMethods k _ ?a (ServerGo.mkState ?t ?w)] =>
          rewrite (IH x a t w [] eq_refl eq_refl)
      end.
      rewrite firstn_nil, skipn_nil. simpl. rewrite Nat.sub_0_r.
      rewrite <- app_assoc. reflexivity.
    + match goal with
      | |- context [ServerGo.readMethods k _ ?a (ServerGo.mkState ?t ?w)] =>
          rewrite (IH y a t w bytes' eq_refl eq_refl)
      end.
      rewrite <- app_assoc. simpl app.
      rewrite <- (last_cons_default y (firstn k bytes') x). reflexivity.
Qed.

Lemma Part001_readMethods_open rounds : forall x acc s wire bytes,
  Part001.conn s = Some (mkClientConn bytes false) ->
  Part001.readMethods rounds [x] acc (Part001.mkState s wire)
  = (Ok (acc ++ firstn rounds bytes
             ++ repeat (last (firstn rounds bytes) x)
                       (rounds - length (firstn rounds bytes))),
     Part001.mkState
       (Part001.setConn (Some (mkClientConn (skipn rounds bytes) false)) s)
       wire).
Proof.
  induction rounds as [|k IH]; intros x acc s wire bytes Hc.
  - simpl. rewrite app_nil_r.
    destruct s as [v c cmd aty rp ip fq po rm ms]. simpl in *. subst.
    reflexivity.
  - simpl. unfold bindM, Part001.connRead. simpl. rewrite Hc.
    rewrite (@Read_open (mkClientConn bytes false) [x] eq_refl). simpl.
    destruct bytes as [|y bytes']; simpl.
    + match goal with
      | |- context [Part001.readMethods k _ ?a (Part001.mkState ?t ?w)] =>
          rewrite (IH x a t w [] eq_refl)
      end.
      rewrite firstn_nil, skipn_nil. simpl. rewrite Nat.sub_0_r.
      rewrite <- app_assoc. reflexivity.
    + match goal with
      | |- context [Part001.readMethods k _ ?a (Part001.mkState ?t ?w)] =>
          rewrite (IH y a t w bytes' eq_refl)
      end.
      rewrite <- app_assoc. simpl app.
      rewrite <- (last_cons_default y (firstn k bytes') x). reflexivity.
Qed.

Lemma bind_ok {St A B} (m : M St A) (k : A -> M St B) w a w' :
  m w = (Ok a, w') -> bindM m k w = k a w'.
Proof. intros Hm. unfold bindM. rewrite Hm. reflexivity. Qed.

Lemma ServerGo_connRead_open s wire buf :
  closed (ServerGo.conn s) = false ->
  ServerGo.connRead buf (ServerGo.mkState s wire)
  = (Ok (firstn (length buf) (pending (ServerGo.conn s))
           ++ skipn (length (firstn (length buf) (pending (ServerGo.conn s))))
                    buf),
     ServerGo.mkState
       (ServerGo.setConn
          (mkClientConn (skipn (length buf) (pending (ServerGo.conn s))) false)
          s) wire).
Proof.
  intros Hopen. unfold ServerGo.connRead. simpl.
  rewrite (@Read_open _ buf Hopen). reflexivity.
Qed.

Lemma Part001_connRead_open s wire buf bytes :
  Part001.conn s = Some (mkClientConn bytes false) ->
  Part001.connRead buf (Part001.mkState s wire)
  = (Ok (firstn (length buf) bytes
           ++ skipn (length (firstn (length buf) bytes)) buf),
     Part001.mkState
       (Part001.setConn
          (Some (mkClientConn (skipn (length buf) bytes) false)) s) wire).
Proof.
  intros Hc. unfold Part001.connRead. simpl. rewrite Hc.
  rewrite (@Read_open (mkClientConn bytes false) buf eq_refl). reflexivity.
Qed.

Lemma hd_read1 bytes :
  hd 0 (firstn 1 bytes ++ skipn (length (firstn 1 bytes)) [0]) = hd 0 bytes.
Proof. destruct bytes; reflexivity. Qed.

Lemma hd_skipn1 (bytes : list Z) : hd 0 (skipn 1 bytes) = nth 1 bytes 0.
Proof. destruct bytes as [|v [|n rest]]; reflexivity. Qed.

Lemma skipn_1_1 (bytes : list Z) : skipn 1 (skipn 1 bytes) = skipn 2 bytes.
Proof. destruct bytes as [|v [|n rest]]; reflexivity. Qed.

(** The two reads that open [handleGreetings]. *)
Lemma ServerGo_handleGreetings_reads s wire bytes :
  closed (ServerGo.conn s) = false ->
  pending (ServerGo.conn s) = bytes ->
  ServerGo.handleGreetings (ServerGo.mkState s wire)
  = (ServerGo.ensureVersion (hd 0 bytes) ;;
     ServerGo.ensureNMethod (nth 1 bytes 0) ;;
     ms <- ServerGo.getAvailableMethods (nth 1 bytes 0) ;;
     ServerGo.update (ServerGo.setMethods ms) ;;
     ServerGo.connWrite [socksVersion; noAuth])
      (ServerGo.mkState
         (ServerGo.setConn (mkClientConn (skipn 2 bytes) false) s) wire).
Proof.
  intros Hopen Hp. unfold ServerGo.handleGreetings.
  rewrite (bind_ok _ _ _ _ _ (ServerGo_connRead_open s wire [0] Hopen)).
  rewrite Hp.
  erewrite bind_ok; [| apply ServerGo_connRead_open; reflexivity].
  cbn [ServerGo.conn ServerGo.setConn pending length].
  rewrite !hd_read1, hd_skipn1, skipn_1_1. reflexivity.
Qed.

Lemma Part001_handleGreetings_reads s wire bytes :
  Part001.conn s = Some (mkClientConn bytes false) ->
  Part001.handleGreetings (Part001.mkState s wire)
  = (Part001.ensureNMethod (nth 1 bytes 0) ;;
     c <- Part001.field Part001.conn ;;
     match c with
     | None =>
         ret (Some (Part001.errorf "connection closed due to invalid nmethod"
                                   (nth 1 bytes 0)))
     | Some _ =>
         ms <- Part001.getAvailableMethods (nth 1 bytes 0) ;;
         Part001.update (Part001.setMethods ms) ;;
         Part001.connWrite [socksVersion; noAuth] ;;
         ret None
     end)
      (Part001.mkState
         (Part001.setConn (Some (mkClientConn (skipn 2 bytes) false)) s)
         wire).
Proof.
  intros Hc. unfold Part001.handleGreetings.
  rewrite (bind_ok _ _ _ _ _ (Part001_connRead_open s wire [0] bytes Hc)).
  erewrite bind_ok;
    [| apply (Part001_connRead_open _ wire [0] (skipn 1 bytes)); reflexivity].
  erewrite bind_ok; [| reflexivity].
  cbn [Part001.conn Part001.setConn Part001.self length].
  rewrite !hd_read1, hd_skipn1, skipn_1_1. reflexivity.
Qed.

Set Implicit Arguments.

Lemma nmethod_in_range n :
  1 <= n <= 255 -> negb ((1 <=? n) && (n <=? 255)) = false.
Proof.
  intros [H1 H2].
  apply Z.leb_le in H1. apply Z.leb_le in H2. rewrite H1, H2. reflexivity.
Qed.

(** C8.  A greeting with version 5 and a method count [n] between 1 and 255
    is decoded by both versions of [handleGreetings], whatever methods the
    client offers: the two header bytes and the next [n] bytes are taken off
    the stream, the bytes after them stay unread, the offer is recorded in
    [methods], no error is reported, and the one thing written to the client
    is the method selection 05 00.  The recorded offer has [n] entries; it
    is the [n] bytes the client sent, and when the stream ends before that
    the missing entries repeat the last byte read.  [s] is a session of
    [server.go], [s'] one of the later revision. *)
Theorem C8_greeting_reply_is_05_00 :
  forall n bytes (s : ServerGo.SocksProxy) (s' : Part001.SocksProxy) wire,
    1 <= n <= 255 ->
    closed (ServerGo.conn s) = false ->
    pending (ServerGo.conn s) = 5 :: n :: bytes ->
    Part001.conn s' = Some (mkClientConn (5 :: n :: bytes) false) ->
    let k := Z.to_nat n in
    let offered := firstn k bytes in
    let offer := offered ++ repeat (last offered 0) (k - length offered) in
    ServerGo.handleGreetings (ServerGo.mkState s wire)
    = (Ok tt,
       ServerGo.mkState
         (ServerGo.setMethods offer
            (ServerGo.setConn (mkClientConn (skipn k bytes) false) s))
         (wire ++ [ClientWrite [5; 0]]))
    /\ Part001.handleGreetings (Part001.mkState s' wire)
       = (Ok None,
          Part001.mkState
            (Part001.setMethods offer
               (Part001.setConn (Some (mkClientConn (skipn k bytes) false))
                                s'))
            (wire ++ [ClientWrite [5; 0]]))
    /\ length offer = k
    /\ ((k <= length bytes)%nat -> offer = firstn k bytes).
Proof.
  intros n bytes s s' wire Hn Hopen Hp Hc. cbv zeta.
  split; [| split; [| split]].
  - rewrite (ServerGo_handleGreetings_reads s wire (5 :: n :: bytes) Hopen Hp).
    cbn [hd nth skipn].
    unfold ServerGo.ensureVersion, ServerGo.ensureNMethod.
    rewrite (nmethod_in_range Hn). cbn [Z.eqb socksVersion Pos.eqb negb].
    erewrite bind_ok; [| reflexivity].
    erewrite bind_ok; [| reflexivity].
    unfold ServerGo.getAvailableMethods.
    erewrite bind_ok;
      [| apply (ServerGo_readMethods_open _ 0 [] _ wire bytes); reflexivity].
    reflexivity.
  - rewrite (Part001_handleGreetings_reads s' wire (5 :: n :: bytes) Hc).
    cbn [hd nth skipn].
    unfold Part001.ensureNMethod. rewrite (nmethod_in_range Hn).
    erewrite bind_ok; [| reflexivity].
    erewrite bind_ok; [| reflexivity].
    cbn [Part001.self Part001.conn Part001.setConn].
    unfold Part001.getAvailableMethods.
    erewrite bind_ok;
      [| apply (Part001_readMethods_open _ 0 [] _ wire bytes); reflexivity].
    reflexivity.
  - rewrite length_app, repeat_length.
    pose proof (firstn_le_length (Z.to_nat n) bytes). lia.
  - intros Hk. rewrite length_firstn, Nat.min_l by exact Hk.
    rewrite Nat.sub_diag. simpl. apply app_nil_r.
Qed.

Lemma C8_greeting_reply_is_05_00_witness :
  ServerGo.handleGreetings
    (ServerGo.mkState (ServerGo.NewProxy (client [5; 2; 0; 2; 5; 1])) [])
  = (Ok tt,
     ServerGo.mkState
       (ServerGo.setMethods [0; 2]
          (ServerGo.setConn (mkClientConn [5; 1] false)
             (ServerGo.NewProxy (client [5; 2; 0; 2; 5; 1]))))
       [ClientWrite [5; 0]])
  /\ Part001.handleGreetings
       (Part001.mkState (Part001.NewProxy (client [5; 2; 0; 2; 5; 1])) [])
     = (Ok None,
        Part001.mkState
          (Part001.setMethods [0; 2]
             (Part001.setConn (Some (mkClientConn [5; 1] false))
                (Part001.NewProxy (client [5; 2; 0; 2; 5; 1]))))
          [ClientWrite [5; 0]])
  /\ length [0; 2] = 2%nat
  /\ ((2 <= length [0; 2; 5; 1])%nat -> [0; 2] = [0; 2]).
Proof.
  apply (@C8_greeting_reply_is_05_00 2 [0; 2; 5; 1]
           (ServerGo.NewProxy (client [5; 2; 0; 2; 5; 1]))
           (Part001.NewProxy (client [5; 2; 0; 2; 5; 1])) []);
    first [lia | reflexivity].
Defined.

(** C3.  The later revision does not check the greeting's version byte: on
    the greeting 04 01 00 [handleGreetings] reports no error and answers
    05 00, and the session goes on to dial and relay, while [server.go]
    answers the same bytes with a general-failure reply and closes. *)
Theorem C3_part001_greeting_accepts_version_4 :
  Part001.handleGreetings
    (Part001.mkState (Part001.NewProxy (client [4; 1; 0])) [])
  = (Ok None,
     Part001.mkState
       (Part001.setMethods [0]
          (Part001.NewProxy (client []))) [ClientWrite [5; 0]])
  /\
  Part001.wire
    (snd (Part001.handle reachable
            (client [4; 1; 0; 5; 1; 0; 1; 127; 0; 0; 1; 31; 144])))
  = [ClientWrite [5; 0]; DialTCP "127.0.0.1:8080";
     ClientWrite [5; 0; 0; 1; 10; 0; 0; 2; 156; 64]; Exchange;
     RemoteClose; ClientClose]
  /\
  ServerGo.wire
    (snd (ServerGo.handleGreetings
            (ServerGo.mkState (ServerGo.NewProxy (client [4; 1; 0])) [])))
  = [ClientWrite [5; generalFailure; 0; 0; 0; 0; 0]; ClientClose].
Proof. repeat split; reflexivity. Qed.

(** ** The failure reply *)

Lemma Part001_closeConnectionWithError_live rep s c wire :
  Part001.conn s = Some c ->
  closed c = false ->
  Part001.closeConnectionWithError rep (Part001.mkState s wire)
  = (Ok tt,
     Part001.mkState
       (Part001.setConn None (Part001.setReply rep s))
       (wire ++ [ClientWrite [5; rep; 0; Part001.addressType s;
                              0; 0; 0; 0; 0; 0];
                 ClientClose])).
Proof.
  intros Hc Ho. unfold Part001.closeConnectionWithError.
  unfold bindM, Part001.field, gets. simpl. rewrite Hc.
  unfold Part001.update, modify, Part001.connWrite, Part001.closeConnection,
    Part001.connClose, bindM, Part001.field, gets. simpl.
  repeat (first [rewrite Hc | rewrite Ho]; simpl).
  rewrite <- app_assoc. reflexivity.
Qed.

Lemma Part001_closeConnectionWithError_nil rep w :
  Part001.conn (Part001.self w) = None ->
  Part001.closeConnectionWithError rep w = (Ok tt, w).
Proof.
  intros Hc.
  unfold Part001.closeConnectionWithError, bindM, Part001.field, gets.
  rewrite Hc. reflexivity.
Qed.

Lemma ServerGo_closeConnectionWithError_open err s wire :
  closed (ServerGo.conn s) = false ->
  ServerGo.closeConnectionWithError err (ServerGo.mkState s wire)
  = (Ok tt,
     ServerGo.mkState
       (ServerGo.setConn (mkClientConn (pending (ServerGo.conn s)) true)
                         (ServerGo.setReply err s))
       (wire ++ [ClientWrite [5; err; 0; ServerGo.addressType s; 0; 0; 0];
                 ClientClose])).
Proof.
  intros Ho. unfold ServerGo.closeConnectionWithError.
  unfold bindM, ServerGo.update, modify, ServerGo.field, gets,
    ServerGo.connWrite, ServerGo.closeConnection, ServerGo.connClose. simpl.
  rewrite Ho. simpl. rewrite Ho. rewrite <- app_assoc. reflexivity.
Qed.

Lemma ServerGo_closeConnectionWithError_closed err s wire :
  closed (ServerGo.conn s) = true ->
  ServerGo.closeConnectionWithError err (ServerGo.mkState s wire)
  = (Ok tt, ServerGo.mkState (ServerGo.setReply err s) wire).
Proof.
  intros Hc. unfold ServerGo.closeConnectionWithError.
  unfold bindM, ServerGo.update, modify, ServerGo.field, gets,
    ServerGo.connWrite, ServerGo.closeConnection, ServerGo.connClose. simpl.
  rewrite Hc. simpl. rewrite Hc. reflexivity.
Qed.

(** C4.  The address type byte of a failure reply is the session's current
    address type, not ipv4: a BIND request that names its target by domain
    (05 02 00 03, empty name, port 80) is answered 05 07 00 03 followed by
    six zero bytes, and a greeting with no methods (05 00) is answered with
    address type 0.  [server.go] moreover sends one address byte, not four. *)
Theorem C4_failure_reply_carries_session_address_type :
  Part001.wire
    (snd (Part001.handle reachable (client [5; 1; 0; 5; 2; 0; 3; 0; 0; 80])))
  = [ClientWrite [5; 0];
     ClientWrite [5; commandNotSupported; 0; domainName; 0; 0; 0; 0; 0; 0];
     ClientClose]
  /\
  Part001.wire (snd (Part001.handle reachable (client [5; 0])))
  = [ClientWrite [5; generalFailure; 0; 0; 0; 0; 0; 0; 0; 0]; ClientClose]
  /\
  ServerGo.wire
    (snd (ServerGo.handle reachable (client [5; 1; 0; 5; 2; 0; 3; 0; 0; 80])))
  = [ClientWrite [5; 0];
     ClientWrite [5; commandNotSupported; 0; domainName; 0; 0; 0];
     ClientClose].
Proof. repeat split; reflexivity. Qed.

(** ** Closing *)

(** C10.  Closing is idempotent in both versions: [closeConnection] on a
    session that has just been closed changes nothing, and neither does it on
    a session whose connection is already closed ([server.go]) or nil (the
    later revision, which sets the handle to nil on close). *)
Theorem C10_closeConnection_idempotent :
  (forall w,
      ServerGo.closeConnection (snd (ServerGo.closeConnection w))
      = (Ok tt, snd (ServerGo.closeConnection w)))
  /\
  (forall s bytes wire,
      ServerGo.closeConnection
        (ServerGo.mkState (ServerGo.setConn (mkClientConn bytes true) s) wire)
      = (Ok tt,
         ServerGo.mkState (ServerGo.setConn (mkClientConn bytes true) s) wire))
  /\
  (forall w,
      Part001.closeConnection (snd (Part001.closeConnection w))
      = (Ok tt, snd (Part001.closeConnection w)))
  /\
  (forall s wire,
      Part001.closeConnection
        (Part001.mkState (Part001.setConn None s) wire)
      = (Ok tt, Part001.mkState (Part001.setConn None s) wire)).
Proof.
  split; [| split; [| split]].
  - intros [s wire]. unfold ServerGo.closeConnection, ServerGo.connClose.
    simpl. destruct (closed (ServerGo.conn s)) eqn:E; simpl.
    + rewrite E. reflexivity.
    + reflexivity.
  - reflexivity.
  - intros [s wire].
    unfold Part001.closeConnection, Part001.connClose, bindM, Part001.field,
      gets, Part001.update, modify. simpl.
    destruct (Part001.conn s) as [c|] eqn:E; simpl.
    + rewrite E. destruct (closed c); reflexivity.
    + rewrite E. reflexivity.
  - reflexivity.
Qed.

(** ** Commands other than connect *)

Lemma not_connect cmd : cmd <> connect -> (cmd =? connect) = false.
Proof. intros H. apply Z.eqb_neq. exact H. Qed.

(** C9.  [handleRequestCommand] on a live session whose command is not
    connect (bind, udp-associate or anything else): the one thing written is
    the reply with code command-not-supported, the connection is closed, an
    error is returned, and nothing is dialled (the wire gains the reply and
    the close, nothing else).  [s] is a session of [server.go], [s'] one of
    the later revision. *)
Theorem C9_other_commands_not_supported :
  forall net (s : ServerGo.SocksProxy) (s' : Part001.SocksProxy) c wire,
    ServerGo.command s <> connect ->
    closed (ServerGo.conn s) = false ->
    Part001.command s' <> connect ->
    Part001.conn s' = Some c ->
    closed c = false ->
    ServerGo.handleRequestCommand net (ServerGo.mkState s wire)
    = (Ok ([], Some "Unsupported command"),
       ServerGo.mkState
         (ServerGo.setConn (mkClientConn (pending (ServerGo.conn s)) true)
                           (ServerGo.setReply commandNotSupported s))
         (wire ++ [ClientWrite [5; commandNotSupported; 0;
                                ServerGo.addressType s; 0; 0; 0];
                   ClientClose]))
    /\
    Part001.handleRequestCommand net (Part001.mkState s' wire)
    = (Ok ([], Some (Part001.errorf "Unsupported command "
                                    (Part001.command s'))),
       Part001.mkState
         (Part001.setConn None (Part001.setReply commandNotSupported s'))
         (wire ++ [ClientWrite [5; commandNotSupported; 0;
                                Part001.addressType s'; 0; 0; 0; 0; 0; 0];
                   ClientClose])).
Proof.
  intros net s s' c wire Hcmd Hopen Hcmd' Hc Hopen'. split.
  - unfold ServerGo.handleRequestCommand, bindM at 1, ServerGo.field, gets.
    simpl. rewrite (not_connect Hcmd).
    assert (Hrun :
      (if ServerGo.command s =? bind
       then ServerGo.closeConnectionWithError commandNotSupported
       else if ServerGo.command s =? udpAssociate
            then ServerGo.closeConnectionWithError commandNotSupported
            else ServerGo.closeConnectionWithError commandNotSupported)
      = ServerGo.closeConnectionWithError commandNotSupported).
    { destruct (ServerGo.command s =? bind);
        [| destruct (ServerGo.command s =? udpAssociate)]; reflexivity. }
    rewrite Hrun. unfold bindM.
    rewrite (ServerGo_closeConnectionWithError_open _ _ _ Hopen). reflexivity.
  - unfold Part001.handleRequestCommand, bindM at 1, Part001.field, gets.
    simpl. rewrite (not_connect Hcmd').
    assert (Hrun :
      (if Part001.command s' =? bind
       then Part001.closeConnectionWithError commandNotSupported
       else if Part001.command s' =? udpAssociate
            then Part001.closeConnectionWithError commandNotSupported
            else Part001.closeConnectionWithError commandNotSupported)
      = Part001.closeConnectionWithError commandNotSupported).
    { destruct (Part001.command s' =? bind);
        [| destruct (Part001.command s' =? udpAssociate)]; reflexivity. }
    rewrite Hrun. unfold bindM.
    rewrite (Part001_closeConnectionWithError_live _ _ _ Hc Hopen').
    reflexivity.
Qed.

Lemma C9_other_commands_not_supported_witness :
  ServerGo.handleRequestCommand reachable
    (ServerGo.mkState bindRequestGo [ClientWrite [5; 0]])
  = (Ok ([], Some "Unsupported command"),
     ServerGo.mkState
       (ServerGo.setConn (mkClientConn [] true)
                         (ServerGo.setReply commandNotSupported bindRequestGo))
       [ClientWrite [5; 0]; ClientWrite [5; 7; 0; 1; 0; 0; 0]; ClientClose])
  /\
  Part001.handleRequestCommand reachable
    (Part001.mkState bindRequest001 [ClientWrite [5; 0]])
  = (Ok ([], Some "Unsupported command (2)"),
     Part001.mkState
       (Part001.setConn None
                        (Part001.setReply commandNotSupported bindRequest001))
       [ClientWrite [5; 0]; ClientWrite [5; 7; 0; 1; 0; 0; 0; 0; 0; 0];
        ClientClose]).
Proof.
  apply (@C9_other_commands_not_supported reachable bindRequestGo
           bindRequest001 (client []) [ClientWrite [5; 0]]).
  - discriminate.
  - reflexivity.
  - discriminate.
  - reflexivity.
  - reflexivity.
Defined.

(** ** Dial errors *)

Lemma ServerGo_dial_error_branch msg :
  (if Contains msg "network is unreachable"
   then ServerGo.closeConnectionWithError networkUnreachable
   else if Contains msg "refused"
        then ServerGo.closeConnectionWithError connectionRefused
        else ServerGo.closeConnectionWithError hostUnreachable)
  = ServerGo.closeConnectionWithError (dialErrorReply msg).
Proof.
  unfold dialErrorReply.
  destruct (Contains msg "network is unreachable");
    [| destruct (Contains msg "refused")]; reflexivity.
Qed.

Lemma Part001_dial_error_branch msg :
  (if Contains msg "network is unreachable"
   then Part001.closeConnectionWithError networkUnreachable
   else if Contains msg "refused"
        then Part001.closeConnectionWithError connectionRefused
        else Part001.closeConnectionWithError hostUnreachable)
  = Part001.closeConnectionWithError (dialErrorReply msg).
Proof.
  unfold dialErrorReply.
  destruct (Contains msg "network is unreachable");
    [| destruct (Contains msg "refused")]; reflexivity.
Qed.

(** The three cases of [dialErrorReply], spelled out. *)
Lemma dialErrorReply_cases msg :
  (Contains msg "network is unreachable" = true ->
   dialErrorReply msg = networkUnreachable)
  /\ (Contains msg "network is unreachable" = false ->
      Contains msg "refused" = true ->
      dialErrorReply msg = connectionRefused)
  /\ (Contains msg "network is unreachable" = false ->
      Contains msg "refused" = false ->
      dialErrorReply msg = hostUnreachable).
Proof.
  unfold dialErrorReply. repeat split; intros H; try intros H'.
  - rewrite H. reflexivity.
  - rewrite H, H'. reflexivity.
  - rewrite H, H'. reflexivity.
Qed.

Lemma ServerGo_handleCommandConnect_dial_error net msg w s1 wire1 address :
  ServerGo.constructRemoteAddress net w
  = (Ok address, ServerGo.mkState s1 wire1) ->
  closed (ServerGo.conn s1) = false ->
  Dial net address = inr msg ->
  ServerGo.handleCommandConnect net w
  = (Panicked (NilDereference "LocalAddr"),
     ServerGo.mkState
       (ServerGo.setConn (mkClientConn (pending (ServerGo.conn s1)) true)
          (ServerGo.setReply (dialErrorReply msg)
             (ServerGo.setRemote None s1)))
       (wire1
          ++ [DialTCP address;
              ClientWrite [5; dialErrorReply msg; 0; ServerGo.addressType s1;
                           0; 0; 0];
              ClientClose])).
Proof.
  intros Hcra Hopen Hdial.
  unfold ServerGo.handleCommandConnect. unfold bindM at 1. rewrite Hcra.
  rewrite Hdial. rewrite ServerGo_dial_error_branch.
  unfold bindM, ServerGo.emit, ServerGo.update, modify. simpl.
  rewrite ServerGo_closeConnectionWithError_open by exact Hopen.
  simpl. rewrite <- ?app_assoc. reflexivity.
Qed.

Lemma Part001_handleCommandConnect_dial_error net msg v s1 wire1 address c :
  Part001.constructRemoteAddress net v
  = (Ok address, Part001.mkState s1 wire1) ->
  Part001.conn s1 = Some c ->
  closed c = false ->
  Dial net address = inr msg ->
  Part001.handleCommandConnect net v
  = (Ok ([], Some ("Failed to dial remote: " ++ address ++ ": " ++ msg)%string),
     Part001.mkState
       (Part001.setConn None
          (Part001.setReply (dialErrorReply msg)
             (Part001.setRemote None s1)))
       (wire1
          ++ [DialTCP address;
              ClientWrite [5; dialErrorReply msg; 0; Part001.addressType s1;
                           0; 0; 0; 0; 0; 0];
              ClientClose])).
Proof.
  intros Hcra Hc Hopen Hdial.
  unfold Part001.handleCommandConnect. unfold bindM at 1. rewrite Hcra.
  unfold bindM at 1, Part001.field, gets. simpl. rewrite Hc.
  rewrite Hdial. rewrite Part001_dial_error_branch.
  unfold bindM, Part001.emit, Part001.update, modify. simpl.
  rewrite (Part001_closeConnectionWithError_live _ _ (c := c)) by assumption.
  simpl. rewrite <- ?app_assoc. reflexivity.
Qed.

(** C5.  When the dial of [handleCommandConnect] fails with message [msg] on
    a live session, the reply code recorded and sent is network-unreachable
    if [msg] contains "network is unreachable", otherwise connection-refused
    if it contains "refused", otherwise host-unreachable ([dialErrorReply]).
    [w] is a state of [server.go], which then panics on the nil connection;
    [v] one of the later revision, which returns the error. *)
Theorem C5_dial_error_reply_code :
  forall net msg (w w1 : ServerGo.State) (v v1 : Part001.State)
         address address' c,
    ServerGo.constructRemoteAddress net w = (Ok address, w1) ->
    closed (ServerGo.conn (ServerGo.self w1)) = false ->
    Dial net address = inr msg ->
    Part001.constructRemoteAddress net v = (Ok address', v1) ->
    Part001.conn (Part001.self v1) = Some c ->
    closed c = false ->
    Dial net address' = inr msg ->
    (let w2 := snd (ServerGo.handleCommandConnect net w) in
     ServerGo.reply (ServerGo.self w2) = dialErrorReply msg
     /\ ServerGo.wire w2
        = ServerGo.wire w1
          ++ [DialTCP address;
              ClientWrite [5; dialErrorReply msg; 0;
                           ServerGo.addressType (ServerGo.self w1); 0; 0; 0];
              ClientClose])
    /\
    (let v2 := snd (Part001.handleCommandConnect net v) in
     Part001.reply (Part001.self v2) = dialErrorReply msg
     /\ Part001.wire v2
        = Part001.wire v1
          ++ [DialTCP address';
              ClientWrite [5; dialErrorReply msg; 0;
                           Part001.addressType (Part001.self v1);
                           0; 0; 0; 0; 0; 0];
              ClientClose]).
Proof.
  intros net msg w [s1 wire1] v [t1 wire1'] address address' c
         Hcra Hopen Hdial Hcra' Hc Hopen' Hdial'.
  simpl in Hopen, Hc. split.
  - rewrite (ServerGo_handleCommandConnect_dial_error _ _ Hcra Hopen Hdial).
    simpl. split; reflexivity.
  - rewrite (Part001_handleCommandConnect_dial_error
               _ _ Hcra' Hc Hopen' Hdial').
    simpl. split; reflexivity.
Qed.

Lemma C5_dial_error_reply_code_witness :
  (let w2 := snd (ServerGo.handleCommandConnect refusing connectRequestGo) in
   ServerGo.reply (ServerGo.self w2) = connectionRefused
   /\ ServerGo.wire w2
      = [ClientWrite [5; 0]; DialTCP "127.0.0.1:8080";
         ClientWrite [5; 5; 0; 1; 0; 0; 0]; ClientClose])
  /\
  (let v2 := snd (Part001.handleCommandConnect refusing connectRequest001) in
   Part001.reply (Part001.self v2) = connectionRefused
   /\ Part001.wire v2
      = [ClientWrite [5; 0]; DialTCP "127.0.0.1:8080";
         ClientWrite [5; 5; 0; 1; 0; 0; 0; 0; 0; 0]; ClientClose]).
Proof.
  apply (@C5_dial_error_reply_code refusing
           "dial tcp: connect: connection refused"
           connectRequestGo connectRequestGo
           connectRequest001 connectRequest001
           "127.0.0.1:8080" "127.0.0.1:8080" (client []));
    reflexivity.
Defined.

(** ** Domain names *)

(** C6, as stated, fails: when the first lookup result is an IPv6 address,
    both versions still set the address type to ipv4. *)
Lemma C6_ipv6_first_result_typed_ipv4 :
  LookupIP v6only "example.com" = ([documentation6], None)
  /\ addressFamily documentation6 = ipv6
  /\ ServerGo.addressType
       (ServerGo.self
          (snd (ServerGo.constructRemoteAddress v6only
                  (ServerGo.mkState domainRequestGo []))))
     <> addressFamily documentation6
  /\ Part001.addressType
       (Part001.self
          (snd (Part001.constructRemoteAddress v6only
                  (Part001.mkState domainRequest001 []))))
     <> addressFamily documentation6.
Proof. repeat split; try reflexivity; discriminate. Qed.

Lemma ServerGo_constructRemoteAddress_domain net s wire :
  ServerGo.addressType s = domainName ->
  closed (ServerGo.conn s) = false ->
  ServerGo.constructRemoteAddress net (ServerGo.mkState s wire)
  = let failed :=
      ServerGo.setConn (mkClientConn (pending (ServerGo.conn s)) true)
                       (ServerGo.setReply generalFailure s) in
    let told :=
      wire ++ [Lookup (ServerGo.FQDN s);
               ClientWrite [5; generalFailure; 0; domainName; 0; 0; 0];
               ClientClose] in
    match LookupIP net (ServerGo.FQDN s) with
    | ([], Some _) => (Panicked IndexOutOfRange, ServerGo.mkState failed told)
    | (ip0 :: _, Some _) =>
        (Ok (hostPort (IPString net ip0) (ServerGo.port s)),
         ServerGo.mkState (ServerGo.setAddressType ipv4 failed) told)
    | ([], None) =>
        (Panicked IndexOutOfRange,
         ServerGo.mkState s (wire ++ [Lookup (ServerGo.FQDN s)]))
    | (ip0 :: _, None) =>
        (Ok (hostPort (IPString net ip0) (ServerGo.port s)),
         ServerGo.mkState (ServerGo.setAddressType ipv4 s)
                          (wire ++ [Lookup (ServerGo.FQDN s)]))
    end.
Proof.
  intros Hat Hopen. unfold ServerGo.constructRemoteAddress.
  unfold bindM at 1, ServerGo.field at 1, gets. simpl. rewrite Hat. simpl.
  unfold bindM at 1, ServerGo.field at 1, gets. simpl.
  unfold bindM at 1, ServerGo.emit, modify. simpl.
  destruct (LookupIP net (ServerGo.FQDN s)) as [[|ip0 ips] [e|]]; simpl;
    unfold bindM; simpl;
    rewrite ?ServerGo_closeConnectionWithError_open by exact Hopen;
    simpl; rewrite ?Hat, <- ?app_assoc; reflexivity.
Qed.

Lemma Part001_constructRemoteAddress_domain net s c wire :
  Part001.addressType s = domainName ->
  Part001.conn s = Some c ->
  closed c = false ->
  Part001.constructRemoteAddress net (Part001.mkState s wire)
  = let failed :=
      Part001.setConn None (Part001.setReply generalFailure s) in
    let told :=
      wire ++ [Lookup (Part001.FQDN s);
               ClientWrite [5; generalFailure; 0; domainName;
                            0; 0; 0; 0; 0; 0];
               ClientClose] in
    match LookupIP net (Part001.FQDN s) with
    | ([], _) => (Ok "", Part001.mkState failed told)
    | (ip0 :: _, Some _) =>
        (Ok (hostPort (IPString net ip0) (Part001.port s)),
         Part001.mkState (Part001.setAddressType ipv4 failed) told)
    | (ip0 :: _, None) =>
        (Ok (hostPort (IPString net ip0) (Part001.port s)),
         Part001.mkState (Part001.setAddressType ipv4 s)
                         (wire ++ [Lookup (Part001.FQDN s)]))
    end.
Proof.
  intros Hat Hc Hopen. unfold Part001.constructRemoteAddress.
  unfold bindM at 1, Part001.field at 1, gets. simpl. rewrite Hat. simpl.
  unfold bindM at 1, Part001.field at 1, gets. simpl.
  unfold bindM at 1, Part001.emit, modify. simpl.
  destruct (LookupIP net (Part001.FQDN s)) as [[|ip0 ips] [e|]]; simpl;
    unfold bindM; simpl;
    rewrite ?(Part001_closeConnectionWithError_live _ _ (c := c))
      by assumption;
    simpl; rewrite ?Hat, <- ?app_assoc; reflexivity.
Qed.

(** C6, amended.  For a domain-name request on a live session: when the
    lookup returns at least one address and no error,
    [constructRemoteAddress] yields "<first result>:<port>" from the first
    element of the list and sets the address type to ipv4, whatever the
    family of that address; when the lookup fails (and, in the later
    revision, also when it returns no address) a general-failure reply is
    sent and the connection closed.  What [server.go] does with an empty
    list and no error is left open. *)
Theorem C6_domain_first_result_and_ipv4 :
  forall net (s : ServerGo.SocksProxy) (s' : Part001.SocksProxy) c wire,
    ServerGo.addressType s = domainName ->
    closed (ServerGo.conn s) = false ->
    Part001.addressType s' = domainName ->
    Part001.conn s' = Some c ->
    closed c = false ->
    match LookupIP net (ServerGo.FQDN s) with
    | (ip0 :: _, None) =>
        ServerGo.constructRemoteAddress net (ServerGo.mkState s wire)
        = (Ok (hostPort (IPString net ip0) (ServerGo.port s)),
           ServerGo.mkState (ServerGo.setAddressType ipv4 s)
                            (wire ++ [Lookup (ServerGo.FQDN s)]))
    | (_, Some _) =>
        let w := snd (ServerGo.constructRemoteAddress net
                        (ServerGo.mkState s wire)) in
        ServerGo.wire w
        = wire ++ [Lookup (ServerGo.FQDN s);
                   ClientWrite [5; generalFailure; 0; domainName; 0; 0; 0];
                   ClientClose]
        /\ closed (ServerGo.conn (ServerGo.self w)) = true
    | ([], None) => True
    end
    /\
    match LookupIP net (Part001.FQDN s') with
    | (ip0 :: _, None) =>
        Part001.constructRemoteAddress net (Part001.mkState s' wire)
        = (Ok (hostPort (IPString net ip0) (Part001.port s')),
           Part001.mkState (Part001.setAddressType ipv4 s')
                           (wire ++ [Lookup (Part001.FQDN s')]))
    | _ =>
        let v := snd (Part001.constructRemoteAddress net
                        (Part001.mkState s' wire)) in
        Part001.wire v
        = wire ++ [Lookup (Part001.FQDN s');
                   ClientWrite [5; generalFailure; 0; domainName;
                                0; 0; 0; 0; 0; 0];
                   ClientClose]
        /\ Part001.conn (Part001.self v) = None
    end.
Proof.
  intros net s s' c wire Hat Hopen Hat' Hc Hopen'.
  rewrite (ServerGo_constructRemoteAddress_domain net s wire Hat Hopen).
  rewrite (Part001_constructRemoteAddress_domain net s' wire Hat' Hc Hopen').
  split.
  - destruct (LookupIP net (ServerGo.FQDN s)) as [[|ip0 ips] [e|]]; simpl;
      auto.
  - destruct (LookupIP net (Part001.FQDN s')) as [[|ip0 ips] [e|]]; simpl;
      auto.
Qed.

Lemma C6_domain_first_result_and_ipv4_witness :
  ServerGo.constructRemoteAddress reachable
    (ServerGo.mkState domainRequestGo [])
  = (Ok "93.184.216.34:80",
     ServerGo.mkState (ServerGo.setAddressType ipv4 domainRequestGo)
                      [Lookup "example.com"])
  /\
  Part001.constructRemoteAddress reachable
    (Part001.mkState domainRequest001 [])
  = (Ok "93.184.216.34:80",
     Part001.mkState (Part001.setAddressType ipv4 domainRequest001)
                     [Lookup "example.com"]).
Proof.
  apply (@C6_domain_first_result_and_ipv4 reachable domainRequestGo
           domainRequest001 (client []) []); reflexivity.
Defined.

(** ** Invariants of a [server.go] session *)

Lemma safe_ret {St A} (I : St -> Prop) (a : A) : safe I (ret a).
Proof. apply triple_ret; auto. Qed.

Lemma safe_bind {St A B} (I : St -> Prop) (m : M St A) (k : A -> M St B) :
  safe I m -> (forall a, safe I (k a)) -> safe I (bindM m k).
Proof. intros Hm Hk. eapply triple_bind; [exact Hm | exact Hk]. Qed.

Lemma safe_gets {St A} (I : St -> Prop) (f : St -> A) : safe I (gets f).
Proof. apply triple_gets; auto. Qed.

Lemma triple_after_safe {St A B} (I : St -> Prop) (m : M St A)
      (k : A -> M St B) Q E :
  safe I m -> (forall a, triple I (k a) Q E) -> triple I (bindM m k) Q E.
Proof.
  intros Hm Hk. eapply triple_bind; [| exact Hk].
  eapply triple_weaken; [exact Hm | auto | auto |].
  intros p w [].
Qed.

Lemma safe_triple {St A} (I : St -> Prop) (m : M St A)
      (Q : A -> St -> Prop) E :
  safe I m -> (forall a w, I w -> Q a w) -> triple I m Q E.
Proof.
  intros H HQ. eapply triple_weaken; [exact H | auto | exact HQ |].
  intros p w [].
Qed.

Lemma quiet_nil : quiet [].
Proof. intros e []. Qed.

Lemma quiet_app wire more :
  quiet wire -> quiet more -> quiet (wire ++ more).
Proof.
  intros H1 H2 e He. apply in_app_iff in He. destruct He; auto.
Qed.

Lemma quiet_one e : isExchange e = false -> isDial e = false -> quiet [e].
Proof. intros H1 H2 x [<-|[]]. auto. Qed.

Lemma quiet_no_exchange wire : quiet wire -> ~ In Exchange wire.
Proof. intros H Hin. destruct (H _ Hin) as [HE _]. discriminate. Qed.

Lemma quiet_no_dial wire a : quiet wire -> ~ In (DialTCP a) wire.
Proof. intros H Hin. destruct (H _ Hin) as [_ HD]. discriminate. Qed.

Ltac quiet_list :=
  let e := fresh "e" in
  let He := fresh "He" in
  intros e He; simpl in He;
  repeat (destruct He as [<- | He]; [split; reflexivity |]);
  contradiction.

Ltac conjs := repeat match goal with |- _ /\ _ => split end.

Ltac wire_facts :=
  first
    [ apply quiet_app; [assumption | quiet_list]
    | unfold replies in *; rewrite ?filter_app, ?length_app in *;
      simpl in *; lia ].

Section GoInvariant.
Variable P : Z -> Prop.

Lemma ServerGo_connRead_safe buf : safe (GoInv P) (ServerGo.connRead buf).
Proof.
  intros [s wire] (H1 & H2 & H3 & H4). unfold ServerGo.connRead. simpl.
  pose proof (Read_closed (ServerGo.conn s) buf) as Hc.
  destruct (Read (ServerGo.conn s) buf) as [b c]. simpl in *.
  unfold GoInv, sentOnce in *. simpl in *. rewrite Hc. auto.
Qed.

Lemma ServerGo_closeConnectionWithError_closes err :
  triple (GoInv P) (ServerGo.closeConnectionWithError err)
         (fun _ w =>
            GoInv P w /\ closed (ServerGo.conn (ServerGo.self w)) = true)
         (fun _ _ => False).
Proof.
  intros [s wire] (H1 & H2 & H3 & H4). unfold GoInv, sentOnce in *.
  simpl in *.
  destruct (closed (ServerGo.conn s)) eqn:Hc.
  - rewrite ServerGo_closeConnectionWithError_closed by exact Hc.
    simpl. rewrite Hc. auto.
  - rewrite ServerGo_closeConnectionWithError_open by exact Hc.
    simpl. conjs; auto; wire_facts.
Qed.

Lemma ServerGo_closeConnectionWithError_safe err :
  safe (GoInv P) (ServerGo.closeConnectionWithError err).
Proof.
  eapply triple_weaken;
    [apply (ServerGo_closeConnectionWithError_closes err) | auto | | auto].
  simpl. intros _ w [H _]. exact H.
Qed.

Lemma ServerGo_update_safe f :
  (forall s, ServerGo.conn (f s) = ServerGo.conn s) ->
  (forall s, ServerGo.remote (f s) = ServerGo.remote s) ->
  (forall s, P (ServerGo.command s) -> P (ServerGo.command (f s))) ->
  safe (GoInv P) (ServerGo.update f).
Proof.
  intros Hc Hr Hp [s wire] (H1 & H2 & H3 & H4).
  unfold ServerGo.update, modify, GoInv, sentOnce in *. simpl in *.
  rewrite Hc, Hr. auto.
Qed.

Lemma ServerGo_field_safe {A} (f : ServerGo.SocksProxy -> A) :
  safe (GoInv P) (ServerGo.field f).
Proof. apply safe_gets. Qed.

Lemma ServerGo_method_selection_safe :
  safe (GoInv P) (ServerGo.connWrite [socksVersion; noAuth]).
Proof.
  intros [s wire] (H1 & H2 & H3 & H4).
  unfold ServerGo.connWrite, GoInv, sentOnce in *. simpl in *.
  destruct (closed (ServerGo.conn s)) eqn:Hc; simpl; rewrite ?Hc.
  - auto.
  - conjs; auto; wire_facts.
Qed.

Lemma ServerGo_emit_safe e :
  isExchange e = false -> isDial e = false -> replyFrame e = false ->
  safe (GoInv P) (ServerGo.emit e).
Proof.
  intros He Hd Hf [s wire] (H1 & H2 & H3 & H4).
  unfold ServerGo.emit, modify, GoInv, sentOnce in *. simpl in *.
  rewrite replies_snoc, Hf, app_nil_r. conjs; auto.
  apply quiet_app; [assumption | apply quiet_one; assumption].
Qed.

Lemma ServerGo_ensureVersion_safe v :
  safe (GoInv P) (ServerGo.ensureVersion v).
Proof.
  unfold ServerGo.ensureVersion. destruct (negb (v =? socksVersion)).
  - apply ServerGo_closeConnectionWithError_safe.
  - apply safe_ret.
Qed.

Lemma ServerGo_ensureNMethod_safe n :
  safe (GoInv P) (ServerGo.ensureNMethod n).
Proof.
  unfold ServerGo.ensureNMethod.
  destruct (negb ((1 <=? n) && (n <=? 255))).
  - apply ServerGo_closeConnectionWithError_safe.
  - apply safe_ret.
Qed.

Lemma ServerGo_readMethods_safe rounds : forall m acc,
  safe (GoInv P) (ServerGo.readMethods rounds m acc).
Proof.
  induction rounds as [|k IH]; intros m acc; simpl.
  - apply safe_ret.
  - apply safe_bind; [apply ServerGo_connRead_safe | intros b; apply IH].
Qed.

End GoInvariant.

Ltac go_known := fail.

Ltac go_safe :=
  repeat first
    [ go_known
    | apply safe_ret
    | apply ServerGo_connRead_safe
    | apply ServerGo_closeConnectionWithError_safe
    | apply ServerGo_ensureVersion_safe
    | apply ServerGo_ensureNMethod_safe
    | apply ServerGo_readMethods_safe
    | apply ServerGo_method_selection_safe
    | apply ServerGo_field_safe
    | apply ServerGo_emit_safe; reflexivity
    | apply ServerGo_update_safe;
        [reflexivity | reflexivity | intros; simpl; auto; exact I]
    | apply safe_bind; [| intros ?] ].

Lemma ServerGo_parseAddress_safe P : safe (GoInv P) ServerGo.parseAddress.
Proof.
  unfold ServerGo.parseAddress.
  apply safe_bind; [apply ServerGo_field_safe | intros atyp].
  destruct (atyp =? ipv4); [go_safe |].
  destruct (atyp =? domainName); [go_safe |].
  destruct (atyp =? ipv6); go_safe.
Qed.

Lemma ServerGo_parsePort_safe P : safe (GoInv P) ServerGo.parsePort.
Proof. unfold ServerGo.parsePort. go_safe. Qed.

Ltac go_known ::=
  first [ apply ServerGo_parseAddress_safe | apply ServerGo_parsePort_safe ].

Lemma ServerGo_handleGreetings_safe P :
  safe (GoInv P) ServerGo.handleGreetings.
Proof.
  unfold ServerGo.handleGreetings, ServerGo.getAvailableMethods. go_safe.
Qed.

Lemma ServerGo_handleRequestHeader_safe :
  safe (GoInv anyCommand) ServerGo.handleRequestHeader.
Proof.
  unfold ServerGo.handleRequestHeader. go_safe.
Qed.

Ltac same := let H := fresh "H" in intros ? ? H; exact H.
Ltac never := intros ? ? [].

Lemma triple_of_safe {St A} (I P : St -> Prop) (m : M St A)
      (Q : A -> St -> Prop) E :
  safe I m ->
  (forall w, P w -> I w) ->
  (forall a w, I w -> Q a w) ->
  triple P m Q E.
Proof.
  intros H HP HQ. eapply triple_weaken; [exact H | exact HP | exact HQ |].
  intros p w [].
Qed.

Section GoSession.
Variable net : Net.

Lemma ServerGo_constructRemoteAddress_inv P :
  triple (GoInv P) (ServerGo.constructRemoteAddress net)
         (fun _ => GoInv P)
         (fun p w =>
            p = IndexOutOfRange /\ GoInv P w
            /\ (lookupFinds net ->
                closed (ServerGo.conn (ServerGo.self w)) = true)).
Proof.
  unfold ServerGo.constructRemoteAddress.
  apply triple_after_safe; [apply ServerGo_field_safe | intros atyp].
  destruct ((atyp =? ipv4) || (atyp =? ipv6)).
  { apply safe_triple; [go_safe | auto]. }
  destruct (atyp =? domainName).
  2:{ apply safe_triple; [go_safe | auto]. }
  apply triple_after_safe; [apply ServerGo_field_safe | intros fqdn].
  apply triple_after_safe; [go_safe | intros ?].
  destruct (LookupIP net fqdn) as [ips [e|]] eqn:Hl; simpl.
  - eapply triple_bind.
    + eapply triple_weaken;
        [apply (@ServerGo_closeConnectionWithError_closes P generalFailure)
        | auto | same | never].
    + intros ?. destruct ips as [|ip0 ips].
      * apply triple_panic. intros w [HI Hc]. auto.
      * apply triple_of_safe with (I := GoInv P);
          [go_safe | intros w [H _]; exact H | auto].
  - apply triple_after_safe; [apply safe_ret | intros ?].
    destruct ips as [|ip0 ips].
    + apply triple_panic. intros w HI.
      split; [reflexivity | split; [exact HI |]].
      intros Hfinds. exfalso. apply (Hfinds _ _ Hl). reflexivity.
    + apply safe_triple; [go_safe | auto].
Qed.

Lemma ServerGo_handleCommandConnect_inv :
  triple (GoInv (fun cmd => cmd = connect)) (ServerGo.handleCommandConnect net)
         GoConnected (GoConnectPanic net).
Proof.
  unfold ServerGo.handleCommandConnect.
  eapply triple_bind.
  - eapply triple_weaken;
      [apply (@ServerGo_constructRemoteAddress_inv (fun cmd => cmd = connect))
      | auto | same |].
    intros p w (-> & (H1 & H2 & H3 & H4) & Hc).
    unfold GoConnectPanic. conjs; auto using quiet_no_exchange.
  - intros address [s wire] (H1 & H2 & H3 & H4).
    unfold sentOnce in H1. simpl in *.
    unfold bindM at 1, ServerGo.emit, modify. simpl.
    destruct (Dial net address) as [bound|msg] eqn:Hd.
    + unfold bindM, ServerGo.update, modify, ServerGo.field, gets. simpl.
      unfold GoConnected, sentOnce. simpl.
      rewrite replies_snoc, app_nil_r. conjs; auto; try discriminate.
      rewrite in_snoc. intros [Hin | Heq]; [| discriminate].
      exact (quiet_no_exchange H3 Hin).
    + rewrite ServerGo_dial_error_branch.
      unfold bindM at 1, ServerGo.update, modify. simpl.
      unfold bindM at 1.
      assert (Hfail : dialFailed net (wire ++ [DialTCP address])).
      { exists address, msg. rewrite in_snoc. auto. }
      destruct (closed (ServerGo.conn s)) eqn:Hc.
      * rewrite ServerGo_closeConnectionWithError_closed by exact Hc.
        simpl. unfold GoConnectPanic, sentOnce. simpl.
        rewrite replies_snoc, app_nil_r, Hc. conjs; auto.
        rewrite in_snoc. intros [Hin | Heq]; [| discriminate].
        exact (quiet_no_exchange H3 Hin).
      * rewrite ServerGo_closeConnectionWithError_open by exact Hc.
        simpl. unfold GoConnectPanic, sentOnce. simpl.
        conjs; auto.
        -- unfold replies in *. rewrite !filter_app, !length_app. simpl.
           lia.
        -- rewrite !in_app_iff. simpl.
           intros [[Hin | [Heq|[]]] | [Heq | [Heq | []]]];
             try discriminate.
           exact (quiet_no_exchange H3 Hin).
        -- left. conjs; auto.
           destruct Hfail as (a & m & Hin & Hm). exists a, m. split; auto.
           rewrite in_app_iff. auto.
Qed.

Lemma ServerGo_handleRequestCommand_inv :
  triple (GoInv anyCommand) (ServerGo.handleRequestCommand net)
         (fun res w =>
            (snd res = None /\ GoConnected (fst res) w)
            \/ (fst res = []
                /\ GoInv (fun cmd => cmd <> connect) w
                /\ closed (ServerGo.conn (ServerGo.self w)) = true))
         (GoConnectPanic net).
Proof.
  unfold ServerGo.handleRequestCommand.
  eapply triple_bind with
    (R := fun cmd w =>
            GoInv anyCommand w /\ ServerGo.command (ServerGo.self w) = cmd).
  { apply triple_gets. auto. }
  intros cmd. destruct (cmd =? connect) eqn:Hcmd.
  - apply Z.eqb_eq in Hcmd. subst cmd.
    eapply triple_bind.
    + eapply triple_weaken;
        [apply ServerGo_handleCommandConnect_inv | | same
        | auto].
      intros w ((H1 & H2 & H3 & _) & H4). unfold GoInv. auto.
    + intros payload. apply triple_ret. auto.
  - apply Z.eqb_neq in Hcmd.
    eapply triple_bind with
      (R := fun _ w =>
              GoInv (fun cmd => cmd <> connect) w
              /\ closed (ServerGo.conn (ServerGo.self w)) = true).
    + eapply triple_weaken with (P' := GoInv (fun cmd => cmd <> connect))
                                (E' := fun _ _ => False);
        [| | same | never].
      * destruct (cmd =? bind); [| destruct (cmd =? udpAssociate)];
          apply ServerGo_closeConnectionWithError_closes.
      * intros w ((H1 & H2 & H3 & _) & H4). unfold GoInv. conjs; auto.
        congruence.
    + intros ?. apply triple_ret. auto.
Qed.

End GoSession.

Section GoHandle.
Variable net : Net.

Lemma GoConnectPanic_body p w :
  GoConnectPanic net p w -> GoBodyPanic net p w.
Proof.
  intros (H1 & H2 & H3 & H4 & H5). unfold GoBodyPanic, sentOnce in *.
  conjs; auto.
  - intros Hf. destruct H5 as [(_ & Hc & _) | (_ & _ & Hc)].
    + rewrite Hc in H1. exact H1.
    + rewrite (Hc Hf) in H1. exact H1.
  - destruct H5 as [(-> & _ & Hd) | (-> & Hq & _)]; auto.
Qed.

Lemma ServerGo_handleBody_inv :
  triple (GoInv anyCommand) (ServerGo.handleBody net)
         (fun _ w =>
            GoFinal w /\ ServerGo.remote (ServerGo.self w) <> None)
         (GoBodyPanic net).
Proof.
  unfold ServerGo.handleBody.
  apply triple_after_safe; [apply ServerGo_handleGreetings_safe | intros ?].
  apply triple_after_safe; [apply ServerGo_handleRequestHeader_safe | intros ?].
  eapply triple_bind.
  { eapply triple_weaken;
      [apply ServerGo_handleRequestCommand_inv | auto | same
      | apply GoConnectPanic_body]. }
  intros [payload err] [s wire] [[Hn HC] | [Hp [HI Hc]]]; simpl in *.
  - destruct HC as (H1 & H2 & H3 & H4 & H5 & H6).
    unfold sentOnce in H1. simpl in *.
    destruct payload as [|v [|x [|r [|t rest]]]]; try discriminate H6.
    destruct (ServerGo.remote s) as [r0|] eqn:Hr; [| contradiction].
    unfold bindM, ServerGo.connWrite, ServerGo.doReplyAction,
      ServerGo.remoteRemoteAddr, ServerGo.exchange, ServerGo.remoteClose,
      ServerGo.field, gets, ServerGo.emit, ServerGo.update, modify, bindM.
    simpl.
    destruct (closed (ServerGo.conn s)) eqn:Hc; simpl;
      destruct (relayError net); simpl;
      repeat (first [rewrite Hr | rewrite H4 | rewrite H5]; simpl);
      destruct (remoteClosed r0); simpl;
      unfold GoFinal; simpl; rewrite ?Hr;
      (split; [split; [| auto] | discriminate]);
      unfold replies in *; rewrite ?filter_app, ?length_app; simpl;
      simpl in H6; rewrite ?H6; simpl; lia.
  - subst payload. destruct HI as (H1 & H2 & H3 & H4).
    unfold sentOnce in H1. simpl in *. rewrite Hc in H1.
    unfold bindM, ServerGo.doReplyAction, ServerGo.remoteRemoteAddr,
      ServerGo.field, gets, bindM.
    simpl. rewrite (not_connect H4). simpl. rewrite H2. simpl.
    unfold GoBodyPanic. simpl.
    conjs; auto using quiet_no_exchange.
Qed.

Lemma ServerGo_closeConnection_effect w :
  exists c more,
    snd (ServerGo.closeConnection w)
    = ServerGo.mkState (ServerGo.setConn c (ServerGo.self w))
                       (ServerGo.wire w ++ more)
    /\ (more = [] \/ more = [ClientClose]).
Proof.
  destruct w as [s wire].
  unfold ServerGo.closeConnection, ServerGo.connClose. simpl.
  destruct (closed (ServerGo.conn s)); simpl.
  - exists (ServerGo.conn s), []. rewrite app_nil_r. destruct s; auto.
  - eexists _, [ClientClose]. auto.
Qed.

Lemma replies_close wire more :
  more = [] \/ more = [ClientClose] -> replies (wire ++ more) = replies wire.
Proof.
  intros [-> | ->]; unfold replies; rewrite filter_app; simpl;
    apply app_nil_r.
Qed.

Lemma in_close (e : Event) wire more :
  more = [] \/ more = [ClientClose] ->
  e <> ClientClose ->
  In e (wire ++ more) <-> In e wire.
Proof.
  intros [-> | ->] He; rewrite in_app_iff; simpl; intuition congruence.
Qed.

Lemma quiet_close wire more :
  more = [] \/ more = [ClientClose] -> quiet wire -> quiet (wire ++ more).
Proof.
  intros [-> | ->] Hq; apply quiet_app; auto; quiet_list.
Qed.

(** The whole session of [server.go], deferred close included. *)
Lemma ServerGo_handle_inv c :
  closed c = false ->
  match ServerGo.handle net c with
  | (Ok _, w) => GoFinal w /\ ServerGo.remote (ServerGo.self w) <> None
  | (Panicked p, w) => GoBodyPanic net p w
  end.
Proof.
  intros Hopen. unfold ServerGo.handle, withDefer.
  assert (H0 : GoInv anyCommand
                 (ServerGo.mkState (ServerGo.NewProxy c) [])).
  { unfold GoInv, sentOnce, anyCommand. simpl. rewrite Hopen.
    conjs; auto using quiet_nil. }
  pose proof (ServerGo_handleBody_inv H0) as Hb.
  destruct (ServerGo.handleBody net
              (ServerGo.mkState (ServerGo.NewProxy c) [])) as [[[]|p] w].
  - destruct (ServerGo_closeConnection_effect w) as (c' & more & -> & Hm).
    destruct Hb as [[H1 H2] H3]. unfold GoFinal. simpl.
    rewrite (replies_close _ Hm), (in_close _ Hm) by discriminate. auto.
  - destruct (ServerGo_closeConnection_effect w) as (c' & more & -> & Hm).
    destruct Hb as (H1 & H2 & H3 & H4). unfold GoBodyPanic. simpl.
    rewrite (replies_close _ Hm), (in_close _ Hm) by discriminate.
    conjs; auto.
    destruct H4 as [(Ha & Hb & Hq) | [(Ha & Hb & Hd) | (Ha & Hb & Hq)]].
    + left. auto using quiet_close.
    + right. left. conjs; auto.
      destruct Hd as (a & m & Hin & Hm'). exists a, m. split; auto.
      rewrite in_app_iff. auto.
    + right. right. auto using quiet_close.
Qed.

End GoHandle.

(** C7.  In [server.go], a session that ends without an outbound connection
    ends in a panic, whatever the client sent and whatever the network did:
    with a command other than connect, [handle] calls [RemoteAddr] on the nil
    remote (nothing was dialled); with connect and a failed dial,
    [handleCommandConnect] calls [LocalAddr] on the nil connection; the one
    other case is a lookup that produced no address, where indexing the
    empty result panics before any dial. *)
Theorem C7_server_go_nil_dereferences : forall net c,
  closed c = false ->
  ServerGo.remote (ServerGo.self (snd (ServerGo.handle net c))) = None ->
  let r := fst (ServerGo.handle net c) in
  let w := snd (ServerGo.handle net c) in
  (ServerGo.command (ServerGo.self w) <> connect
   /\ r = Panicked (NilDereference "RemoteAddr")
   /\ quiet (ServerGo.wire w))
  \/ (ServerGo.command (ServerGo.self w) = connect
      /\ r = Panicked (NilDereference "LocalAddr")
      /\ dialFailed net (ServerGo.wire w))
  \/ (ServerGo.command (ServerGo.self w) = connect
      /\ r = Panicked IndexOutOfRange
      /\ quiet (ServerGo.wire w)).
Proof.
  intros net c Hopen. pose proof (@ServerGo_handle_inv net c Hopen) as H.
  destruct (ServerGo.handle net c) as [[[]|p] w]; simpl; intros Hr.
  - destruct H as [_ H]. contradiction.
  - destruct H as (_ & _ & _ & H).
    destruct H as [(Ha & -> & Hq) | [(Ha & -> & Hd) | (Ha & -> & Hq)]];
      auto.
Qed.

Lemma C7_server_go_nil_dereferences_witness :
  let r := fst (ServerGo.handle reachable bindSession) in
  let w := snd (ServerGo.handle reachable bindSession) in
  (ServerGo.command (ServerGo.self w) <> connect
   /\ r = Panicked (NilDereference "RemoteAddr")
   /\ quiet (ServerGo.wire w))
  \/ (ServerGo.command (ServerGo.self w) = connect
      /\ r = Panicked (NilDereference "LocalAddr")
      /\ dialFailed reachable (ServerGo.wire w))
  \/ (ServerGo.command (ServerGo.self w) = connect
      /\ r = Panicked IndexOutOfRange
      /\ quiet (ServerGo.wire w)).
Proof.
  apply (@C7_server_go_nil_dereferences reachable bindSession); reflexivity.
Defined.

(** Both nil dereferences, and the index panic, at the entry point. *)
Example ServerGo_handle_panics :
  fst (ServerGo.handle reachable bindSession)
  = Panicked (NilDereference "RemoteAddr")
  /\ fst (ServerGo.handle refusing connectSession)
     = Panicked (NilDereference "LocalAddr")
  /\ fst (ServerGo.handle refusing
            (client [5; 1; 0; 5; 1; 0; 3; 2; 97; 98; 0; 80]))
     = Panicked IndexOutOfRange.
Proof. split; [| split]; vm_compute; reflexivity. Qed.

(** ** Invariants of a session of the later revision *)

Lemma P1Live_Inv w : P1Live w -> P1Inv w.
Proof. intros [H _]. exact H. Qed.

Lemma Part001_connRead_safe buf : safe P1Live (Part001.connRead buf).
Proof.
  intros [s wire] [(H1 & H2 & H3) Hl]. unfold Part001.connRead. simpl in *.
  destruct (Part001.conn s) as [c0|] eqn:Hc; [| contradiction].
  pose proof (Read_closed c0 buf) as Hcl.
  destruct (Read c0 buf) as [b c]. simpl in *.
  unfold P1Live, P1Inv. simpl. rewrite Hcl. conjs; auto; try tauto.
  discriminate.
Qed.

Lemma Part001_closeConnectionWithError_closes rep :
  triple P1Inv (Part001.closeConnectionWithError rep)
         (fun _ w => P1Inv w /\ Part001.conn (Part001.self w) = None)
         (fun _ _ => False).
Proof.
  intros [s wire] (H1 & H2 & H3). simpl in *.
  destruct (Part001.conn s) as [c|] eqn:Hc.
  - destruct H3 as [Ho H3].
    rewrite (Part001_closeConnectionWithError_live _ _ _ Hc Ho).
    unfold P1Inv. simpl. conjs; auto; wire_facts.
  - rewrite Part001_closeConnectionWithError_nil by exact Hc.
    unfold P1Inv. simpl. rewrite Hc. auto.
Qed.

Lemma Part001_closeConnectionWithError_safe rep :
  safe P1Inv (Part001.closeConnectionWithError rep).
Proof.
  eapply triple_weaken;
    [apply (Part001_closeConnectionWithError_closes rep) | auto | | auto].
  simpl. intros ? w [H _]. exact H.
Qed.

Lemma Part001_update_safe f :
  (forall s, Part001.conn (f s) = Part001.conn s) ->
  (forall s, Part001.remote (f s) = Part001.remote s) ->
  safe P1Live (Part001.update f).
Proof.
  intros Hc Hr [s wire] [(H1 & H2 & H3) Hl].
  unfold Part001.update, modify, P1Live, P1Inv in *. simpl in *.
  rewrite Hc, Hr. auto.
Qed.

Lemma Part001_field_safe {A} I (f : Part001.SocksProxy -> A) :
  safe I (Part001.field f).
Proof. apply safe_gets. Qed.

Lemma Part001_emit_safe e :
  isExchange e = false -> isDial e = false -> replyFrame e = false ->
  safe P1Live (Part001.emit e).
Proof.
  intros He Hd Hf [s wire] [(H1 & H2 & H3) Hl].
  unfold Part001.emit, modify, P1Live, P1Inv in *. simpl in *.
  rewrite replies_snoc, Hf, app_nil_r. conjs; auto.
  apply quiet_app; [assumption | apply quiet_one; assumption].
Qed.

Lemma Part001_method_selection_safe :
  triple P1Live (Part001.connWrite [socksVersion; noAuth])
         (fun _ => P1Live) (fun _ _ => False).
Proof.
  intros [s wire] [(H1 & H2 & H3) Hl].
  unfold Part001.connWrite, P1Live, P1Inv in *. simpl in *.
  destruct (Part001.conn s) as [c|] eqn:Hc; [| contradiction].
  destruct H3 as [Ho H3]. rewrite Ho. simpl. rewrite Hc.
  conjs; auto; try discriminate; wire_facts.
Qed.

Lemma Part001_readMethods_safe rounds : forall m acc,
  safe P1Live (Part001.readMethods rounds m acc).
Proof.
  induction rounds as [|k IH]; intros m acc; simpl.
  - apply safe_ret.
  - apply safe_bind; [apply Part001_connRead_safe | intros b; apply IH].
Qed.

Ltac p1_safe :=
  repeat first
    [ apply safe_ret
    | apply Part001_connRead_safe
    | apply Part001_readMethods_safe
    | apply Part001_method_selection_safe
    | apply Part001_field_safe
    | apply Part001_emit_safe; reflexivity
    | apply Part001_update_safe; reflexivity
    | apply safe_bind; [| intros ?] ].

Lemma Part001_parsePort_safe : safe P1Live Part001.parsePort.
Proof. unfold Part001.parsePort. p1_safe. Qed.

Lemma Part001_parseAddress_inv :
  triple P1Live Part001.parseAddress (fun _ => P1Inv) (fun _ _ => False).
Proof.
  unfold Part001.parseAddress.
  apply triple_after_safe; [apply Part001_field_safe | intros atyp].
  destruct (atyp =? ipv4);
    [apply safe_triple; [p1_safe | auto using P1Live_Inv] |].
  destruct (atyp =? domainName);
    [apply safe_triple; [p1_safe | auto using P1Live_Inv] |].
  destruct (atyp =? ipv6);
    [apply safe_triple; [p1_safe | auto using P1Live_Inv] |].
  apply triple_of_safe with (I := P1Inv);
    [apply Part001_closeConnectionWithError_safe | apply P1Live_Inv | auto].
Qed.

Lemma Part001_nil_test {A} (onNil : M Part001.State A)
      (onLive : M Part001.State A) Q :
  triple (fun w => P1Inv w /\ Part001.conn (Part001.self w) = None)
         onNil Q (fun _ _ => False) ->
  triple P1Live onLive Q (fun _ _ => False) ->
  triple P1Inv
         (bindM (Part001.field Part001.conn)
                (fun c => match c with
                          | None => onNil
                          | Some _ => onLive
                          end))
         Q (fun _ _ => False).
Proof.
  intros Hn Hl [s wire] HI. unfold bindM, Part001.field, gets. simpl.
  destruct (Part001.conn s) as [c|] eqn:Hc.
  - apply Hl. split; [exact HI |]. simpl. rewrite Hc. discriminate.
  - apply Hn. split; [exact HI |]. exact Hc.
Qed.

Lemma Part001_fail_ret e :
  triple (fun w => P1Inv w /\ Part001.conn (Part001.self w) = None)
         (ret (Some e)) closedIff (fun _ _ => False).
Proof.
  apply triple_ret. intros w [HI Hc]. unfold closedIff.
  conjs; auto; congruence.
Qed.

Lemma Part001_ensure_inv (m : M Part001.State unit) :
  m = ret tt \/ (exists rep, m = Part001.closeConnectionWithError rep) ->
  triple P1Live m (fun _ => P1Inv) (fun _ _ => False).
Proof.
  intros [-> | [rep ->]].
  - apply triple_ret. apply P1Live_Inv.
  - apply triple_of_safe with (I := P1Inv);
      [apply Part001_closeConnectionWithError_safe | apply P1Live_Inv | auto].
Qed.

Lemma Part001_handleGreetings_inv :
  triple P1Live Part001.handleGreetings closedIff (fun _ _ => False).
Proof.
  unfold Part001.handleGreetings.
  apply triple_after_safe; [apply Part001_connRead_safe | intros ver].
  apply triple_after_safe; [apply Part001_connRead_safe | intros nmethod].
  eapply triple_weaken with (P' := P1Inv) (E' := fun _ _ => False);
    [| apply P1Live_Inv | same | never].
  apply Part001_nil_test; [apply Part001_fail_ret |].
  eapply triple_bind.
  { apply Part001_ensure_inv. unfold Part001.ensureNMethod.
    destruct (negb _); eauto. }
  intros ?. apply Part001_nil_test; [apply Part001_fail_ret |].
  unfold Part001.getAvailableMethods.
  apply triple_after_safe; [apply Part001_readMethods_safe | intros ms].
  apply triple_after_safe; [p1_safe | intros ?].
  apply triple_after_safe; [apply Part001_method_selection_safe | intros ?].
  apply triple_ret. intros w [HI Hl]. unfold closedIff.
  conjs; auto; congruence.
Qed.

Lemma Part001_handleRequestHeader_inv :
  triple P1Live Part001.handleRequestHeader closedIff (fun _ _ => False).
Proof.
  unfold Part001.handleRequestHeader.
  apply triple_after_safe; [apply Part001_connRead_safe | intros header].
  eapply triple_bind.
  { apply Part001_ensure_inv. unfold Part001.ensureVersion.
    destruct (negb _); eauto. }
  intros ?. apply Part001_nil_test; [apply Part001_fail_ret |].
  apply triple_after_safe; [p1_safe | intros ?].
  apply triple_after_safe; [p1_safe | intros ?].
  eapply triple_bind; [apply Part001_parseAddress_inv | intros ?].
  apply Part001_nil_test; [apply Part001_fail_ret |].
  apply triple_after_safe; [apply Part001_parsePort_safe | intros ?].
  apply triple_ret. intros w [HI Hl]. unfold closedIff.
  conjs; auto; congruence.
Qed.

Lemma Part001_update_keeps f :
  (forall s, Part001.conn (f s) = Part001.conn s) ->
  (forall s, Part001.remote (f s) = Part001.remote s) ->
  safe P1Inv (Part001.update f).
Proof.
  intros Hc Hr [s wire] (H1 & H2 & H3).
  unfold Part001.update, modify, P1Inv in *. simpl in *.
  rewrite Hc, Hr. auto.
Qed.

Lemma P1Failed_Final w : P1Failed w -> P1Final w.
Proof. intros (H1 & H2 & H3). split; [exact H2 | tauto]. Qed.

Lemma P1Inv_closed_Failed w :
  P1Inv w -> Part001.conn (Part001.self w) = None -> P1Failed w.
Proof.
  intros (H1 & H2 & H3) Hc. rewrite Hc in H3.
  unfold P1Failed. auto using quiet_no_exchange.
Qed.

Lemma generateReply_valid_bound s bound :
  length (tcpIP bound) = 4%nat \/ length (tcpIP bound) = 16%nat ->
  isReplyFrame
    (Part001.generateSucceededReply (Part001.setReply succeeded s)
                                    (TCPAddrPort bound)) = true.
Proof.
  intros H.
  unfold Part001.generateSucceededReply, Part001.generateReply, IsValid,
    TCPAddrPort, AddrFromSlice.
  simpl. destruct H as [-> | ->]; reflexivity.
Qed.

Section P1Session.
Variable net : Net.

Lemma Part001_constructRemoteAddress_inv :
  triple P1Live (Part001.constructRemoteAddress net)
         (fun _ => P1Inv) (fun _ _ => False).
Proof.
  unfold Part001.constructRemoteAddress.
  apply triple_after_safe; [apply Part001_field_safe | intros atyp].
  destruct ((atyp =? ipv4) || (atyp =? ipv6)).
  { apply safe_triple; [p1_safe | auto using P1Live_Inv]. }
  destruct (atyp =? domainName).
  2:{ apply triple_of_safe with (I := P1Inv);
        [| apply P1Live_Inv | auto].
      apply safe_bind; [apply Part001_closeConnectionWithError_safe |].
      intros ?. apply safe_ret. }
  apply triple_after_safe; [apply Part001_field_safe | intros fqdn].
  apply triple_after_safe; [p1_safe | intros ?].
  destruct (LookupIP net fqdn) as [ips err].
  apply triple_of_safe with (I := P1Inv); [| apply P1Live_Inv | auto].
  apply safe_bind.
  - destruct (isErr err || (length ips =? 0)%nat);
      [apply Part001_closeConnectionWithError_safe | apply safe_ret].
  - intros ?. destruct ips as [|ip0 ips]; [apply safe_ret |].
    apply safe_bind; [apply Part001_field_safe | intros p].
    apply safe_bind; [apply Part001_update_keeps; reflexivity | intros ?].
    apply safe_ret.
Qed.

Lemma Part001_handleCommandConnect_inv :
  triple P1Live (Part001.handleCommandConnect net)
         (P1Outcome net) (fun _ _ => False).
Proof.
  unfold Part001.handleCommandConnect.
  eapply triple_bind; [apply Part001_constructRemoteAddress_inv |].
  intros address [s wire] HI.
  unfold bindM at 1, Part001.field, gets. simpl.
  destruct (Part001.conn s) as [c|] eqn:Hc.
  2:{ simpl. left. split; [discriminate |].
      apply P1Inv_closed_Failed; auto. }
  destruct HI as (H1 & H2 & H3). simpl in *. rewrite Hc in H3.
  destruct H3 as [Ho H3].
  unfold bindM at 1, Part001.emit, modify. simpl.
  destruct (Dial net address) as [bound|msg] eqn:Hd.
  - unfold bindM, Part001.update, modify, Part001.field, gets. simpl.
    right. split; [reflexivity |].
    unfold P1Connected. simpl. rewrite replies_snoc, app_nil_r.
    conjs; eauto; try discriminate.
    + rewrite in_snoc. intros [Hin | Heq]; [| discriminate].
      exact (quiet_no_exchange H2 Hin).
    + intros Hb. apply generateReply_valid_bound. exact (Hb _ _ Hd).
  - rewrite Part001_dial_error_branch.
    unfold bindM at 1, Part001.update, modify. simpl.
    unfold bindM at 1.
    rewrite (Part001_closeConnectionWithError_live _ _ (c := c))
      by assumption.
    simpl. left. split; [discriminate |].
    unfold P1Failed. simpl. conjs; auto.
    + unfold replies in *. rewrite !filter_app, !length_app. simpl. lia.
    + rewrite !in_app_iff. simpl.
      intros [[Hin | [Heq|[]]] | [Heq | [Heq | []]]]; try discriminate.
      exact (quiet_no_exchange H2 Hin).
Qed.

Lemma Part001_handleRequestCommand_inv :
  triple P1Live (Part001.handleRequestCommand net)
         (P1Outcome net) (fun _ _ => False).
Proof.
  unfold Part001.handleRequestCommand.
  apply triple_after_safe; [apply Part001_field_safe | intros cmd].
  destruct (cmd =? connect).
  - eapply triple_bind; [apply Part001_handleCommandConnect_inv |].
    intros [payload [e|]]; simpl; apply triple_ret;
      intros w [[H1 H2] | [H1 H2]];
      simpl in *; try congruence.
    + left. split; [discriminate | exact H2].
    + right. split; [reflexivity | exact H2].
  - eapply triple_bind with
      (R := fun _ w => P1Inv w /\ Part001.conn (Part001.self w) = None).
    + eapply triple_weaken with (P' := P1Inv) (E' := fun _ _ => False);
        [| apply P1Live_Inv | same | never].
      destruct (cmd =? bind); [| destruct (cmd =? udpAssociate)];
        apply Part001_closeConnectionWithError_closes.
    + intros ?. apply triple_ret. intros w [HI Hc]. left.
      split; [discriminate | apply P1Inv_closed_Failed; auto].
Qed.

Lemma Part001_after_command res :
  dialBindsIP net ->
  triple (P1Outcome net res)
         (match snd res with
          | Some _ => ret tt
          | None =>
              bindM (if 0 <? Z.of_nat (length (fst res))
                     then Part001.connWrite (fst res)
                     else ret None)
                (fun werr =>
                   match werr with
                   | Some _ => ret tt
                   | None =>
                       bindM Part001.doReplyAction
                         (fun err =>
                            match err with
                            | Some _ => ret tt
                            | None =>
                                bindM (Part001.field Part001.remote)
                                  (fun rem =>
                                     match rem with
                                     | Some r => Part001.remoteClose r
                                     | None => ret tt
                                     end)
                            end)
                   end)
          end)
         (fun _ => P1Final) (fun _ _ => False).
Proof.
  intros Hb. destruct res as [payload err].
  intros [s wire] [[H1 H2] | [H1 H2]]; simpl in *.
  - destruct err; [| congruence]. simpl. apply P1Failed_Final. exact H2.
  - subst err.
    destruct H2 as ((c & Hc & Ho) & H2 & H3 & H4 & H5 & H6).
    specialize (H6 Hb). simpl in *.
    destruct payload as [|v [|x [|r [|t rest]]]]; try discriminate H6.
    destruct (Part001.remote s) as [r0|] eqn:Hr; [| contradiction].
    unfold bindM, Part001.connWrite, Part001.doReplyAction,
      Part001.exchange, Part001.remoteClose,
      Part001.field, gets, Part001.emit, Part001.update, modify, bindM.
    simpl. rewrite Hc, Ho. simpl.
    destruct (Part001.command s =? connect) eqn:Hcmd; simpl;
      repeat (first [rewrite Hr | rewrite H5]; simpl);
      destruct (remoteClosed r0); simpl;
      unfold P1Final; simpl;
      (split;
       [ unfold replies in *; rewrite ?filter_app, ?length_app; simpl;
         simpl in H6; rewrite ?H6; simpl; lia
       | rewrite ?in_app_iff; simpl;
         try (apply Z.eqb_eq in Hcmd); intuition congruence ]).
Qed.

Lemma Part001_handleBody_inv :
  dialBindsIP net ->
  triple P1Live (Part001.handleBody net)
         (fun _ => P1Final) (fun _ _ => False).
Proof.
  intros Hb. unfold Part001.handleBody.
  eapply triple_bind; [apply Part001_handleGreetings_inv |].
  intros [e|].
  { apply triple_ret. intros w (HI & _ & Hc).
    apply P1Failed_Final, P1Inv_closed_Failed; auto. apply Hc. discriminate. }
  eapply triple_bind.
  { eapply triple_weaken;
      [apply Part001_handleRequestHeader_inv | | same | auto].
    intros w (HI & Hl & _). split; auto. }
  intros [e|].
  { apply triple_ret. intros w (HI & _ & Hc).
    apply P1Failed_Final, P1Inv_closed_Failed; auto. apply Hc. discriminate. }
  eapply triple_bind.
  { eapply triple_weaken;
      [apply Part001_handleRequestCommand_inv | | same | auto].
    intros w (HI & Hl & _). split; auto. }
  intros res. apply (@Part001_after_command res Hb).
Qed.

Lemma Part001_closeConnection_effect w :
  exists s more,
    snd (Part001.closeConnection w)
    = Part001.mkState s (Part001.wire w ++ more)
    /\ Part001.command s = Part001.command (Part001.self w)
    /\ Part001.reply s = Part001.reply (Part001.self w)
    /\ (more = [] \/ more = [ClientClose]).
Proof.
  destruct w as [s wire].
  unfold Part001.closeConnection, Part001.connClose, bindM, Part001.field,
    gets, Part001.update, modify. simpl.
  destruct (Part001.conn s) as [c|] eqn:Hc; simpl.
  - rewrite Hc. destruct (closed c); simpl.
    + eexists _, []. rewrite app_nil_r. simpl. auto.
    + eexists _, [ClientClose]. simpl. auto.
  - exists s, []. rewrite app_nil_r. auto.
Qed.

(** The whole session of the later revision, deferred close included: it
    never panics. *)
Lemma Part001_handle_inv c :
  closed c = false ->
  dialBindsIP net ->
  fst (Part001.handle net c) = Ok tt
  /\ P1Final (snd (Part001.handle net c)).
Proof.
  intros Hopen Hb. unfold Part001.handle, withDefer.
  assert (H0 : P1Live (Part001.mkState (Part001.NewProxy c) [])).
  { unfold P1Live, P1Inv. simpl. conjs; auto using quiet_nil. discriminate. }
  pose proof (@Part001_handleBody_inv Hb _ H0) as H.
  destruct (Part001.handleBody net
              (Part001.mkState (Part001.NewProxy c) [])) as [[[]|p] w];
    [| contradiction].
  simpl. split; [reflexivity |].
  destruct (Part001_closeConnection_effect w)
    as (s & more & -> & Hcmd & Hrep & Hm).
  destruct H as [H1 H2]. unfold P1Final. simpl.
  rewrite (replies_close _ Hm), (in_close _ Hm), Hcmd, Hrep by discriminate.
  auto.
Qed.

End P1Session.

(** C1.  Every session, in both versions, puts exactly one reply frame on
    the client connection, whether it succeeds, fails or (in [server.go])
    panics; and the relay is entered only in a session whose command is
    connect and whose recorded reply is succeeded.  The accepted connection
    is open, a dialled connection is bound to a 4- or 16-byte address, and a
    lookup without error has found an address. *)
Theorem C1_one_reply_and_guarded_relay : forall net c,
  closed c = false ->
  dialBindsIP net ->
  lookupFinds net ->
  let w := snd (ServerGo.handle net c) in
  let v := snd (Part001.handle net c) in
  (length (replies (ServerGo.wire w)) = 1%nat
   /\ (In Exchange (ServerGo.wire w) ->
       ServerGo.command (ServerGo.self w) = connect
       /\ ServerGo.reply (ServerGo.self w) = succeeded))
  /\
  (length (replies (Part001.wire v)) = 1%nat
   /\ (In Exchange (Part001.wire v) ->
       Part001.command (Part001.self v) = connect
       /\ Part001.reply (Part001.self v) = succeeded)).
Proof.
  intros net c Hopen Hb Hf. simpl. split.
  - pose proof (@ServerGo_handle_inv net c Hopen) as H.
    destruct (ServerGo.handle net c) as [[[]|p] w]; simpl.
    + destruct H as [H _]. exact H.
    + destruct H as (H1 & H2 & _). split; [auto | tauto].
  - exact (proj2 (@Part001_handle_inv net c Hopen Hb)).
Qed.

Lemma reachable_dialBindsIP : dialBindsIP reachable.
Proof.
  intros address bound H. simpl in H. inversion H. left. reflexivity.
Qed.

Lemma reachable_lookupFinds : lookupFinds reachable.
Proof. intros fqdn ips H. simpl in H. inversion H. discriminate. Qed.

Lemma C1_one_reply_and_guarded_relay_witness :
  let w := snd (ServerGo.handle reachable connectSession) in
  let v := snd (Part001.handle reachable connectSession) in
  (length (replies (ServerGo.wire w)) = 1%nat
   /\ (In Exchange (ServerGo.wire w) ->
       ServerGo.command (ServerGo.self w) = connect
       /\ ServerGo.reply (ServerGo.self w) = succeeded))
  /\
  (length (replies (Part001.wire v)) = 1%nat
   /\ (In Exchange (Part001.wire v) ->
       Part001.command (Part001.self v) = connect
       /\ Part001.reply (Part001.self v) = succeeded)).
Proof.
  apply (@C1_one_reply_and_guarded_relay reachable connectSession).
  - reflexivity.
  - exact reachable_dialBindsIP.
  - exact reachable_lookupFinds.
Defined.

(** ** The relay *)

Module Part001RelayFacts.
Import Part001Relay.

Lemma existsb_snoc {A} (f : A -> bool) l x :
  existsb f (l ++ [x]) = existsb f l || f x.
Proof. rewrite existsb_app. simpl. rewrite orb_false_r. reflexivity. Qed.

Lemma Inv_start : Inv start.
Proof. unfold Inv, start. simpl. conjs; auto; discriminate. Qed.

Lemma Inv_step r r' : Inv r -> step r r' -> Inv r'.
Proof.
  intros (Hwg & Hret & Hlr & Hlc) Hstep.
  destruct Hstep as [d err r Hp | d err r Hp | d r Hp | r Hc Hz];
    try destruct d;
    destruct r as [tr tc n cl lg]; simpl in *; subst; simpl in *;
    unfold Inv; simpl; rewrite ?existsb_snoc; simpl;
    rewrite ?orb_true_r, ?orb_false_r;
    conjs; auto; try lia; try discriminate;
    unfold unfinished in *; simpl in *;
    first [ lia | intros H; specialize (Hret H); lia ].
Qed.

Lemma reachable_Inv r : reachable r -> Inv r.
Proof.
  induction 1 as [| r r' _ IH Hstep]; [apply Inv_start |].
  exact (Inv_step IH Hstep).
Qed.

Lemma unfinished_zero p : unfinished p = 0%nat -> p = Finished.
Proof. destruct p; cbv; intros H; congruence. Qed.

(** The later revision joins both directions, each half-closed. *)
Lemma exchange_joins_both r : reachable r -> joinedBoth (view r).
Proof.
  intros Hr. destruct (reachable_Inv Hr) as (Hwg & Hret & Hlr & Hlc).
  unfold joinedBoth, view. simpl.
  destruct (caller r) eqn:Hc; [discriminate | intros _].
  specialize (Hret eq_refl). rewrite Hret in Hwg.
  assert (Htr : toRemote r = Finished) by (apply unfinished_zero; lia).
  assert (Htc : toClient r = Finished) by (apply unfinished_zero; lia).
  rewrite Htr in Hlr. rewrite Htc in Hlc.
  split.
  - intros []; simpl; [rewrite Htr | rewrite Htc]; reflexivity.
  - intros []; auto.
Qed.

(** The end of one copy, with or without error, moves its own goroutine
    only: the sibling, the wait group and the caller stay as they were. *)
Lemma copy_end_is_local r d err :
  let r' := record (CopyEnded d err) (setProxy d (Copied err) r) in
  proxy r' (sibling d) = proxy r (sibling d)
  /\ wg r' = wg r
  /\ caller r' = caller r.
Proof. destruct d; simpl; auto. Qed.

Lemma steps_trans r r' r'' : steps r r' -> steps r' r'' -> steps r r''.
Proof.
  induction 1; auto. intros H'. eapply steps_more; eauto.
Qed.

Lemma steps_reachable r r' : reachable r -> steps r r' -> reachable r'.
Proof.
  intros Hr Hs. induction Hs; auto.
  apply IHHs. eapply reach_step; eauto.
Qed.

Lemma proxy_setProxy_same d p r : proxy (setProxy d p r) d = p.
Proof. destruct d; reflexivity. Qed.

Lemma proxy_setProxy_other d p r :
  proxy (setProxy d p r) (sibling d) = proxy r (sibling d).
Proof. destruct d; reflexivity. Qed.

(** Once its copy ends, a goroutine runs to [wg.Done()] without touching
    its sibling. *)
Lemma proxy_finishes d r :
  exists r',
    steps r r'
    /\ proxy r' d = Finished
    /\ proxy r' (sibling d) = proxy r (sibling d)
    /\ caller r' = caller r.
Proof.
  assert (Hhalf : forall r0, proxy r0 d = HalfClosed ->
            exists r', steps r0 r' /\ proxy r' d = Finished
                       /\ proxy r' (sibling d) = proxy r0 (sibling d)
                       /\ caller r' = caller r0).
  { intros r0 H. eexists. split.
    - eapply steps_more; [apply (@wg_done d r0 H) | apply steps_refl].
    - destruct d; simpl; auto. }
  assert (Hcopied : forall r0 err, proxy r0 d = Copied err ->
            exists r', steps r0 r' /\ proxy r' d = Finished
                       /\ proxy r' (sibling d) = proxy r0 (sibling d)
                       /\ caller r' = caller r0).
  { intros r0 err H.
    destruct (Hhalf (record (CloseWrite (dst d)) (setProxy d HalfClosed r0)))
      as (r' & Hs & Hf & Hsib & Hcal).
    { destruct d; reflexivity. }
    exists r'. split.
    { eapply steps_more; [apply (@close_write d err r0 H) | exact Hs]. }
    split; [exact Hf |]. rewrite Hsib, Hcal. destruct d; simpl; auto. }
  destruct (proxy r d) eqn:Hp.
  - destruct (Hcopied (record (CopyEnded d None) (setProxy d (Copied None) r))
                      None) as (r' & Hs & Hf & Hsib & Hcal).
    { destruct d; reflexivity. }
    exists r'. split.
    { eapply steps_more; [apply (@copy_ends d None r Hp) | exact Hs]. }
    split; [exact Hf |]. rewrite Hsib, Hcal. destruct d; simpl; auto.
  - eapply Hcopied; eauto.
  - apply Hhalf; auto.
  - exists r. split; [apply steps_refl | auto].
Qed.

(** [exchange] can always run to its return. *)
Lemma exchange_can_return r :
  reachable r -> exists r', steps r r' /\ caller r' = Returned.
Proof.
  intros Hr.
  destruct (proxy_finishes ClientToRemote r) as (r1 & Hs1 & Hf1 & _ & Hc1).
  destruct (proxy_finishes RemoteToClient r1) as (r2 & Hs2 & Hf2 & Hsib & Hc2).
  simpl in Hf1, Hsib. rewrite Hf1 in Hsib.
  assert (Hr2 : reachable r2).
  { eapply steps_reachable; [| exact Hs2].
    eapply steps_reachable; [exact Hr | exact Hs1]. }
  destruct (reachable_Inv Hr2) as (Hwg & _).
  simpl in Hf2. rewrite Hf2, Hsib in Hwg. simpl in Hwg.
  destruct (caller r2) eqn:Hcal.
  - eexists. split.
    + eapply steps_trans; [exact Hs1 |].
      eapply steps_trans; [exact Hs2 |].
      eapply steps_more; [apply (@wait_returns r2 Hcal Hwg) | apply steps_refl].
    + reflexivity.
  - exists r2. split; [| exact Hcal].
    eapply steps_trans; eauto.
Qed.

End Part001RelayFacts.

Module ServerGoRelayFacts.
Import ServerGoRelay.

Lemma earlyReturn_reachable : reachable earlyReturn.
Proof.
  eapply reach_step.
  - eapply reach_step.
    + eapply reach_step; [apply reach_start |].
      apply (@copy_ends ClientToRemote (Some resetMessage) start).
      reflexivity.
    + eapply (@send ClientToRemote (Some resetMessage)); simpl;
        [reflexivity | lia].
  - apply (@receive 0%nat (Some resetMessage) []); reflexivity.
Qed.

(** No step of [server.go]'s relay shuts down a write side. *)
Lemma never_half_closes r :
  reachable r -> forall e, existsb (hasCloseWrite e) (log r) = false.
Proof.
  induction 1 as [| r r' _ IH Hstep]; intros e; [reflexivity |].
  specialize (IH e).
  destruct Hstep as [d err r Hp | d err r Hp Hlen | i err rest r Hc Hch].
  - destruct d; simpl; rewrite existsb_app, IH; destruct e; reflexivity.
  - destruct d; simpl; exact IH.
  - unfold afterReceive. destruct err as [msg|]; simpl.
    + rewrite existsb_app, IH. destruct e; reflexivity.
    + destruct (i + 1 <? 2)%nat; simpl; [exact IH |].
      rewrite existsb_app, IH. destruct e; reflexivity.
Qed.

End ServerGoRelayFacts.

(** C2.  [exchange] of [server.go] does not join: in the run [earlyReturn]
    it has returned the first error while the copy towards the client is
    still inside [io.Copy], and in no run does it shut down a write side.
    The later revision does what the claim says: whenever its [exchange] has
    returned, both goroutines have finished and both destinations have been
    half-closed. *)
Theorem C2_server_go_exchange_returns_early :
  ServerGoRelay.reachable ServerGoRelay.earlyReturn
  /\ returned (ServerGoRelay.view ServerGoRelay.earlyReturn) = true
  /\ finished (ServerGoRelay.view ServerGoRelay.earlyReturn)
              RemoteToClient = false
  /\ ~ joinedBoth (ServerGoRelay.view ServerGoRelay.earlyReturn)
  /\ (forall r, ServerGoRelay.reachable r ->
                forall e, halfClosed (ServerGoRelay.view r) e = false)
  /\ (forall r, Part001Relay.reachable r ->
                joinedBoth (Part001Relay.view r)).
Proof.
  split; [exact ServerGoRelayFacts.earlyReturn_reachable |].
  split; [reflexivity |].
  split; [reflexivity |].
  split.
  - intros H. destruct (H eq_refl) as [Hfin _].
    specialize (Hfin RemoteToClient). discriminate.
  - split.
    + intros r Hr e. exact (ServerGoRelayFacts.never_half_closes Hr e).
    + exact Part001RelayFacts.exchange_joins_both.
Qed.

(** ** Whole sessions on concrete input *)

(** The end-to-end scenario: greeting 05 01 00, then a connect to
    127.0.0.1:8080 that succeeds from 10.0.0.2:40000. *)
Example connect_session_runs :
  ServerGo.wire (snd (ServerGo.handle reachable connectSession))
  = [ClientWrite [5; 0]; DialTCP "127.0.0.1:8080";
     ClientWrite [5; 0; 0; 1; 10; 0; 0; 2; 156; 64]; Exchange;
     RemoteClose; ClientClose]
  /\ Part001.handle reachable connectSession
     = (Ok tt, snd (Part001.handle reachable connectSession))
  /\ Part001.wire (snd (Part001.handle reachable connectSession))
     = [ClientWrite [5; 0]; DialTCP "127.0.0.1:8080";
        ClientWrite [5; 0; 0; 1; 10; 0; 0; 2; 156; 64]; Exchange;
        RemoteClose; ClientClose].
Proof. split; [| split]; vm_compute; reflexivity. Qed.

(** The unsupported-command scenario: a bind request is answered with
    command-not-supported and the connection closed; nothing is dialled. *)
Example bind_session_runs :
  ServerGo.wire (snd (ServerGo.handle reachable bindSession))
  = [ClientWrite [5; 0]; ClientWrite [5; 7; 0; 1; 0; 0; 0]; ClientClose]
  /\ Part001.wire (snd (Part001.handle reachable bindSession))
     = [ClientWrite [5; 0]; ClientWrite [5; 7; 0; 1; 0; 0; 0; 0; 0; 0];
        ClientClose].
Proof. split; vm_compute; reflexivity. Qed.

(** A refused dial: the reply carries connection-refused. *)
Example refused_session_runs :
  ServerGo.wire (snd (ServerGo.handle refusing connectSession))
  = [ClientWrite [5; 0]; DialTCP "127.0.0.1:8080";
     ClientWrite [5; 5; 0; 1; 0; 0; 0]; ClientClose]
  /\ Part001.wire (snd (Part001.handle refusing connectSession))
     = [ClientWrite [5; 0]; DialTCP "127.0.0.1:8080";
        ClientWrite [5; 5; 0; 1; 0; 0; 0; 0; 0; 0]; ClientClose].
Proof. split; vm_compute; reflexivity. Qed.

(** A request with an unknown address type is answered before the command
    is looked at. *)
Example unknown_address_type_runs :
  Part001.wire (snd (Part001.handle reachable (client [5; 1; 0; 5; 2; 0; 9])))
  = [ClientWrite [5; 0]; ClientWrite [5; 8; 0; 9; 0; 0; 0; 0; 0; 0];
     ClientClose].
Proof. vm_compute. reflexivity. Qed.

(** A connect to example.com:80 by name: the first lookup result,
    93.184.216.34, is dialled and the reply is typed ipv4. *)
Example domain_session_runs :
  let bytes := [5; 1; 0; 5; 1; 0; 3; 11;
                101; 120; 97; 109; 112; 108; 101; 46; 99; 111; 109; 0; 80] in
  ServerGo.wire (snd (ServerGo.handle reachable (client bytes)))
  = [ClientWrite [5; 0]; Lookup "example.com"; DialTCP "93.184.216.34:80";
     ClientWrite [5; 0; 0; 1; 10; 0; 0; 2; 156; 64]; Exchange;
     RemoteClose; ClientClose]
  /\ Part001.wire (snd (Part001.handle reachable (client bytes)))
     = [ClientWrite [5; 0]; Lookup "example.com"; DialTCP "93.184.216.34:80";
        ClientWrite [5; 0; 0; 1; 10; 0; 0; 2; 156; 64]; Exchange;
        RemoteClose; ClientClose].
Proof. split; vm_compute; reflexivity. Qed.

(** * Further properties of the code *)

Unset Implicit Arguments.

(** ** The offered methods *)

(** X1.  [getAvailableMethods nmethod] on an open connection returns the
    first [nmethod] bytes the client has sent, leaves the bytes after them
    unread and writes nothing.  When the stream ends early the list still
    has [nmethod] entries: the missing ones repeat the last byte read (0
    when none was read), because the one-byte buffer is reused.  [s] is a
    session of [server.go], [s'] one of the later revision. *)
Theorem X1_getAvailableMethods_reads_the_offer :
  forall nmethod bytes (s : ServerGo.SocksProxy) (s' : Part001.SocksProxy)
         wire,
    closed (ServerGo.conn s) = false ->
    pending (ServerGo.conn s) = bytes ->
    Part001.conn s' = Some (mkClientConn bytes false) ->
    let n := Z.to_nat nmethod in
    let offered := firstn n bytes in
    let methods := offered ++ repeat (last offered 0) (n - length offered) in
    ServerGo.getAvailableMethods nmethod (ServerGo.mkState s wire)
    = (Ok methods,
       ServerGo.mkState
         (ServerGo.setConn (mkClientConn (skipn n bytes) false) s) wire)
    /\ Part001.getAvailableMethods nmethod (Part001.mkState s' wire)
       = (Ok methods,
          Part001.mkState
            (Part001.setConn (Some (mkClientConn (skipn n bytes) false)) s')
            wire)
    /\ length methods = n.
Proof.
  intros nmethod bytes s s' wire Hopen Hp Hc. simpl.
  unfold ServerGo.getAvailableMethods, Part001.getAvailableMethods.
  rewrite (ServerGo_readMethods_open _ 0 [] s wire bytes Hopen Hp).
  rewrite (Part001_readMethods_open _ 0 [] s' wire bytes Hc).
  simpl. repeat split.
  rewrite length_app, repeat_length.
  pose proof (firstn_le_length (Z.to_nat nmethod) bytes). lia.
Qed.

Lemma X1_getAvailableMethods_reads_the_offer_witness :
  ServerGo.getAvailableMethods 2
    (ServerGo.mkState (ServerGo.NewProxy (client [0; 2; 7])) [])
  = (Ok [0; 2],
     ServerGo.mkState (ServerGo.NewProxy (client [7])) [])
  /\ Part001.getAvailableMethods 2
       (Part001.mkState (Part001.NewProxy (client [0; 2; 7])) [])
     = (Ok [0; 2],
        Part001.mkState (Part001.NewProxy (client [7])) [])
  /\ length [0; 2] = 2%nat.
Proof.
  apply (X1_getAvailableMethods_reads_the_offer 2 [0; 2; 7]
           (ServerGo.NewProxy (client [0; 2; 7]))
           (Part001.NewProxy (client [0; 2; 7])) []); reflexivity.
Defined.

(** ** [server.go] after the connection is closed *)

Lemma idle_ret {A} (a : A) : idleOnClosed (ret a).
Proof. intros s wire _. exists a, s. auto. Qed.

Lemma idle_bind {A B} (m : M ServerGo.State A) (k : A -> M ServerGo.State B) :
  idleOnClosed m -> (forall a, idleOnClosed (k a)) ->
  idleOnClosed (bindM m k).
Proof.
  intros Hm Hk s wire Hc.
  destruct (Hm s wire Hc) as (a & s2 & Hrun & Hconn & Hrem).
  assert (Hc2 : closed (ServerGo.conn s2) = true) by (rewrite Hconn; exact Hc).
  destruct (Hk a s2 wire Hc2) as (b & s3 & Hrun' & Hconn' & Hrem').
  exists b, s3. unfold bindM. rewrite Hrun, Hrun'.
  repeat split; congruence.
Qed.

Lemma idle_connRead buf : idleOnClosed (ServerGo.connRead buf).
Proof.
  intros s wire Hc. exists buf, s. unfold ServerGo.connRead, Read. simpl.
  rewrite Hc. destruct s; auto.
Qed.

Lemma idle_connWrite payload : idleOnClosed (ServerGo.connWrite payload).
Proof.
  intros s wire Hc. exists tt, s. unfold ServerGo.connWrite. simpl.
  rewrite Hc. auto.
Qed.

Lemma idle_update f :
  (forall s, ServerGo.conn (f s) = ServerGo.conn s) ->
  (forall s, ServerGo.remote (f s) = ServerGo.remote s) ->
  idleOnClosed (ServerGo.update f).
Proof. intros Hf Hr s wire Hc. exists tt, (f s). auto. Qed.

Lemma idle_field {A} (f : ServerGo.SocksProxy -> A) :
  idleOnClosed (ServerGo.field f).
Proof. intros s wire Hc. exists (f s), s. auto. Qed.

Lemma idle_closeConnectionWithError err :
  idleOnClosed (ServerGo.closeConnectionWithError err).
Proof.
  intros s wire Hc. exists tt, (ServerGo.setReply err s).
  rewrite ServerGo_closeConnectionWithError_closed by exact Hc. auto.
Qed.

Lemma idle_readMethods rounds : forall m acc,
  idleOnClosed (ServerGo.readMethods rounds m acc).
Proof.
  induction rounds as [|k IH]; intros m acc; simpl.
  - apply idle_ret.
  - apply idle_bind; [apply idle_connRead | intros b; apply IH].
Qed.

Ltac idle :=
  repeat first
    [ apply idle_ret
    | apply idle_connRead
    | apply idle_connWrite
    | apply idle_field
    | apply idle_closeConnectionWithError
    | apply idle_readMethods
    | apply idle_update; reflexivity
    | apply idle_bind; [| intros ?] ].

Lemma idle_ensureNMethod n : idleOnClosed (ServerGo.ensureNMethod n).
Proof.
  unfold ServerGo.ensureNMethod.
  destruct (negb ((1 <=? n) && (n <=? 255))); idle.
Qed.

Lemma idle_parseAddress : idleOnClosed ServerGo.parseAddress.
Proof.
  unfold ServerGo.parseAddress.
  apply idle_bind; [apply idle_field | intros atyp].
  destruct (atyp =? ipv4); [idle |].
  destruct (atyp =? domainName); [idle |].
  destruct (atyp =? ipv6); idle.
Qed.

Lemma idle_parsePort : idleOnClosed ServerGo.parsePort.
Proof. unfold ServerGo.parsePort. idle. Qed.

Lemma idle_handleGreetings_tail n :
  idleOnClosed
    (bindM (ServerGo.getAvailableMethods n)
       (fun ms =>
          bindM (ServerGo.update (ServerGo.setMethods ms))
            (fun _ => ServerGo.connWrite [socksVersion; noAuth]))).
Proof. unfold ServerGo.getAvailableMethods. idle. Qed.

(** ** Requests and greetings that are turned down *)

(** The first byte of a buffer of zeros filled from [bytes]. *)
Lemma first_byte_read bytes k :
  nth 0 (firstn (S k) bytes
           ++ skipn (length (firstn (S k) bytes)) (repeat 0 (S k))) 0
  = hd 0 bytes.
Proof. destruct bytes; reflexivity. Qed.

Lemma unknown_address_type atyp :
  atyp <> ipv4 -> atyp <> domainName -> atyp <> ipv6 ->
  (atyp =? ipv4) = false /\ (atyp =? domainName) = false
  /\ (atyp =? ipv6) = false.
Proof. intros H1 H2 H3. repeat split; apply Z.eqb_neq; assumption. Qed.

(** X5.  A request header whose version byte is not 5 (a client that has
    sent nothing reads as version 0) is answered with a general-failure
    reply and the connection is closed; nothing else is written.  The later
    revision returns the error and leaves command and address type as they
    were; [server.go] returns normally with the connection closed and the
    remote connection untouched. *)
Theorem X5_handleRequestHeader_rejects_version :
  forall bytes (s : ServerGo.SocksProxy) (s' : Part001.SocksProxy) wire,
    hd 0 bytes <> 5 ->
    closed (ServerGo.conn s) = false ->
    pending (ServerGo.conn s) = bytes ->
    Part001.conn s' = Some (mkClientConn bytes false) ->
    (exists s2,
        ServerGo.handleRequestHeader (ServerGo.mkState s wire)
        = (Ok tt,
           ServerGo.mkState s2
             (wire ++ [ClientWrite [5; generalFailure; 0;
                                    ServerGo.addressType s; 0; 0; 0];
                       ClientClose]))
        /\ closed (ServerGo.conn s2) = true
        /\ ServerGo.remote s2 = ServerGo.remote s)
    /\ Part001.handleRequestHeader (Part001.mkState s' wire)
       = (Ok (Some (Part001.errorf "connection closed due to invalid version"
                                   (hd 0 bytes))),
          Part001.mkState
            (Part001.setConn None (Part001.setReply generalFailure s'))
            (wire ++ [ClientWrite [5; generalFailure; 0;
                                   Part001.addressType s';
                                   0; 0; 0; 0; 0; 0];
                      ClientClose])).
Proof.
  intros bytes s s' wire Hv Hopen Hp Hc.
  assert (Hbad : negb (hd 0 bytes =? socksVersion) = true).
  { apply negb_true_iff, Z.eqb_neq. exact Hv. }
  split.
  - unfold ServerGo.handleRequestHeader.
    rewrite (bind_ok _ _ _ _ _ (ServerGo_connRead_open s wire _ Hopen)).
    rewrite Hp. change (length [0; 0; 0; 0]) with 4%nat.
    change [0; 0; 0; 0] with (repeat 0 4).
    rewrite (first_byte_read bytes 3).
    unfold ServerGo.ensureVersion. rewrite Hbad.
    erewrite bind_ok;
      [| apply ServerGo_closeConnectionWithError_open; reflexivity].
    match goal with
    | |- exists s2, ?k (ServerGo.mkState ?t ?w) = _ /\ _ =>
        assert (Htail : idleOnClosed k)
    end.
    { apply idle_bind; [apply idle_update; reflexivity | intros ?].
      apply idle_bind; [apply idle_update; reflexivity | intros ?].
      apply idle_bind; [apply idle_parseAddress | intros ?].
      apply idle_parsePort. }
    match goal with
    | |- exists s2, _ (ServerGo.mkState ?t ?w) = _ /\ _ =>
        destruct (Htail t w eq_refl) as (a & s2 & Hrun & Hconn & Hrem)
    end.
    destruct a. exists s2. split; [exact Hrun |].
    split; [rewrite Hconn; reflexivity | rewrite Hrem; reflexivity].
  - unfold Part001.handleRequestHeader.
    rewrite (bind_ok _ _ _ _ _ (Part001_connRead_open s' wire _ bytes Hc)).
    change (length [0; 0; 0; 0]) with 4%nat.
    change [0; 0; 0; 0] with (repeat 0 4).
    rewrite (first_byte_read bytes 3).
    unfold Part001.ensureVersion. rewrite Hbad.
    erewrite bind_ok;
      [| apply (@Part001_closeConnectionWithError_live generalFailure _
                  (mkClientConn (skipn 4 bytes) false)); reflexivity].
    reflexivity.
Qed.

Lemma X5_handleRequestHeader_rejects_version_witness :
  (exists s2,
      ServerGo.handleRequestHeader
        (ServerGo.mkState (ServerGo.NewProxy (client [4; 1; 0; 1; 9])) [])
      = (Ok tt,
         ServerGo.mkState s2
           [ClientWrite [5; 1; 0; 0; 0; 0; 0]; ClientClose])
      /\ closed (ServerGo.conn s2) = true
      /\ ServerGo.remote s2 = None)
  /\ Part001.handleRequestHeader
       (Part001.mkState (Part001.NewProxy (client [4; 1; 0; 1; 9])) [])
     = (Ok (Some "connection closed due to invalid version(4)"),
        Part001.mkState
          (Part001.setConn None
             (Part001.setReply generalFailure
                (Part001.NewProxy (client [4; 1; 0; 1; 9]))))
          [ClientWrite [5; 1; 0; 0; 0; 0; 0; 0; 0; 0]; ClientClose]).
Proof.
  apply (X5_handleRequestHeader_rejects_version [4; 1; 0; 1; 9]
           (ServerGo.NewProxy (client [4; 1; 0; 1; 9]))
           (Part001.NewProxy (client [4; 1; 0; 1; 9])) []);
    first [discriminate | reflexivity].
Defined.

(** X6.  [parseAddress] on a recorded address type that is none of IPv4,
    domain name and IPv6 reads nothing: it answers with reply 0x08
    (address type not supported) carrying that address type, and closes the
    connection, the unread bytes left as they were.  In [server.go] the
    [parsePort] that follows finds the connection closed and sets the port
    to 0, whatever the client has sent. *)
Theorem X6_parseAddress_rejects_address_type :
  forall atyp c (s : ServerGo.SocksProxy) (s' : Part001.SocksProxy) wire,
    atyp <> ipv4 -> atyp <> domainName -> atyp <> ipv6 ->
    ServerGo.addressType s = atyp ->
    Part001.addressType s' = atyp ->
    closed (ServerGo.conn s) = false ->
    Part001.conn s' = Some c ->
    closed c = false ->
    ServerGo.parseAddress (ServerGo.mkState s wire)
    = (Ok tt,
       ServerGo.mkState
         (ServerGo.setConn (mkClientConn (pending (ServerGo.conn s)) true)
            (ServerGo.setReply addressTypeNotSupported s))
         (wire ++ [ClientWrite [5; addressTypeNotSupported; 0; atyp; 0; 0; 0];
                   ClientClose]))
    /\ (ServerGo.parseAddress ;; ServerGo.parsePort) (ServerGo.mkState s wire)
       = (Ok tt,
          ServerGo.mkState
            (ServerGo.setPort 0
               (ServerGo.setConn
                  (mkClientConn (pending (ServerGo.conn s)) true)
                  (ServerGo.setReply addressTypeNotSupported s)))
            (wire ++ [ClientWrite [5; addressTypeNotSupported; 0; atyp;
                                   0; 0; 0];
                      ClientClose]))
    /\ Part001.parseAddress (Part001.mkState s' wire)
       = (Ok tt,
          Part001.mkState
            (Part001.setConn None
               (Part001.setReply addressTypeNotSupported s'))
            (wire ++ [ClientWrite [5; addressTypeNotSupported; 0; atyp;
                                   0; 0; 0; 0; 0; 0];
                      ClientClose])).
Proof.
  intros atyp c s s' wire H4 Hd H6 Ht Ht' Hopen Hc Hco.
  destruct (unknown_address_type atyp H4 Hd H6) as (E4 & Ed & E6).
  assert (Hgo : ServerGo.parseAddress (ServerGo.mkState s wire)
                = (Ok tt,
                   ServerGo.mkState
                     (ServerGo.setConn
                        (mkClientConn (pending (ServerGo.conn s)) true)
                        (ServerGo.setReply addressTypeNotSupported s))
                     (wire ++ [ClientWrite [5; addressTypeNotSupported; 0;
                                            atyp; 0; 0; 0];
                               ClientClose]))).
  { unfold ServerGo.parseAddress.
    erewrite bind_ok; [| reflexivity].
    cbn [ServerGo.self]. rewrite Ht, E4, Ed, E6.
    rewrite (ServerGo_closeConnectionWithError_open addressTypeNotSupported
               s wire Hopen), Ht.
    reflexivity. }
  split; [exact Hgo |]. split.
  - rewrite (bind_ok _ _ _ _ _ Hgo). reflexivity.
  - unfold Part001.parseAddress.
    erewrite bind_ok; [| reflexivity].
    cbn [Part001.self]. rewrite Ht', E4, Ed, E6.
    rewrite (@Part001_closeConnectionWithError_live addressTypeNotSupported
               s' c wire Hc Hco), Ht'.
    reflexivity.
Qed.

Lemma X6_parseAddress_rejects_address_type_witness :
  ServerGo.parseAddress
    (ServerGo.mkState
       (ServerGo.setAddressType 9 (ServerGo.NewProxy (client [7; 7]))) [])
  = (Ok tt,
     ServerGo.mkState
       (ServerGo.setConn (mkClientConn [7; 7] true)
          (ServerGo.setReply addressTypeNotSupported
             (ServerGo.setAddressType 9 (ServerGo.NewProxy (client [7; 7])))))
       [ClientWrite [5; 8; 0; 9; 0; 0; 0]; ClientClose])
  /\ (ServerGo.parseAddress ;; ServerGo.parsePort)
       (ServerGo.mkState
          (ServerGo.setAddressType 9 (ServerGo.NewProxy (client [7; 7]))) [])
     = (Ok tt,
        ServerGo.mkState
          (ServerGo.setPort 0
             (ServerGo.setConn (mkClientConn [7; 7] true)
                (ServerGo.setReply addressTypeNotSupported
                   (ServerGo.setAddressType 9
                      (ServerGo.NewProxy (client [7; 7]))))))
          [ClientWrite [5; 8; 0; 9; 0; 0; 0]; ClientClose])
  /\ Part001.parseAddress
       (Part001.mkState
          (Part001.setAddressType 9 (Part001.NewProxy (client [7; 7]))) [])
     = (Ok tt,
        Part001.mkState
          (Part001.setConn None
             (Part001.setReply addressTypeNotSupported
                (Part001.setAddressType 9
                   (Part001.NewProxy (client [7; 7])))))
          [ClientWrite [5; 8; 0; 9; 0; 0; 0; 0; 0; 0]; ClientClose]).
Proof.
  apply (X6_parseAddress_rejects_address_type 9 (client [7; 7])
           (ServerGo.setAddressType 9 (ServerGo.NewProxy (client [7; 7])))
           (Part001.setAddressType 9 (Part001.NewProxy (client [7; 7])))
           []);
    first [discriminate | reflexivity].
Defined.

(** X7.  A greeting that offers no method (NMETHODS = 0, which includes a
    client that sends fewer than two bytes) is answered with a
    general-failure reply and the connection is closed; the method
    selection [05 00] is not written.  The later revision returns the
    error; [server.go] returns normally on the closed connection. *)
Theorem X7_handleGreetings_rejects_empty_offer :
  forall bytes (s : ServerGo.SocksProxy) (s' : Part001.SocksProxy) wire,
    nth 1 bytes 0 = 0 ->
    closed (ServerGo.conn s) = false ->
    pending (ServerGo.conn s) = bytes ->
    Part001.conn s' = Some (mkClientConn bytes false) ->
    (exists s2,
        ServerGo.handleGreetings (ServerGo.mkState s wire)
        = (Ok tt,
           ServerGo.mkState s2
             (wire ++ [ClientWrite [5; generalFailure; 0;
                                    ServerGo.addressType s; 0; 0; 0];
                       ClientClose]))
        /\ ServerGo.conn s2 = mkClientConn (skipn 2 bytes) true)
    /\ Part001.handleGreetings (Part001.mkState s' wire)
       = (Ok (Some (Part001.errorf "connection closed due to invalid nmethod"
                                   0)),
          Part001.mkState
            (Part001.setConn None (Part001.setReply generalFailure s'))
            (wire ++ [ClientWrite [5; generalFailure; 0;
                                   Part001.addressType s';
                                   0; 0; 0; 0; 0; 0];
                      ClientClose])).
Proof.
  intros bytes s s' wire Hn Hopen Hp Hc. split.
  - rewrite (ServerGo_handleGreetings_reads s wire bytes Hopen Hp), Hn.
    unfold ServerGo.ensureVersion.
    destruct (negb (hd 0 bytes =? socksVersion)).
    + erewrite bind_ok;
        [| apply ServerGo_closeConnectionWithError_open; reflexivity].
      match goal with
      | |- exists s2, ?k (ServerGo.mkState ?t ?w) = _ /\ _ =>
          assert (Htail : idleOnClosed k)
      end.
      { apply idle_bind; [apply idle_ensureNMethod | intros ?].
        apply (idle_handleGreetings_tail 0). }
      match goal with
      | |- exists s2, _ (ServerGo.mkState ?t ?w) = _ /\ _ =>
          destruct (Htail t w eq_refl) as (a & s2 & Hrun & Hconn & _)
      end.
      destruct a. exists s2. split; [exact Hrun | exact Hconn].
    + erewrite bind_ok; [| reflexivity].
      unfold ServerGo.ensureNMethod. cbn [negb andb Z.leb Z.compare].
      erewrite bind_ok;
        [| apply ServerGo_closeConnectionWithError_open; reflexivity].
      destruct (idle_handleGreetings_tail 0
                  (ServerGo.setConn
                     (mkClientConn (skipn 2 bytes) true)
                     (ServerGo.setReply generalFailure
                        (ServerGo.setConn
                           (mkClientConn (skipn 2 bytes) false) s)))
                  (wire ++ [ClientWrite [5; generalFailure; 0;
                                         ServerGo.addressType s; 0; 0; 0];
                            ClientClose]) eq_refl)
        as (a & s2 & Hrun & Hconn & _).
      destruct a. exists s2. split; [exact Hrun | exact Hconn].
  - rewrite (Part001_handleGreetings_reads s' wire bytes Hc), Hn.
    unfold Part001.ensureNMethod. cbn [negb andb Z.leb Z.compare].
    erewrite bind_ok;
      [| apply (@Part001_closeConnectionWithError_live generalFailure _
                  (mkClientConn (skipn 2 bytes) false)); reflexivity].
    reflexivity.
Qed.

Lemma X7_handleGreetings_rejects_empty_offer_witness :
  (exists s2,
      ServerGo.handleGreetings
        (ServerGo.mkState (ServerGo.NewProxy (client [5; 0; 7])) [])
      = (Ok tt,
         ServerGo.mkState s2
           [ClientWrite [5; 1; 0; 0; 0; 0; 0]; ClientClose])
      /\ ServerGo.conn s2 = mkClientConn [7] true)
  /\ Part001.handleGreetings
       (Part001.mkState (Part001.NewProxy (client [5; 0; 7])) [])
     = (Ok (Some "connection closed due to invalid nmethod(0)"),
        Part001.mkState
          (Part001.setConn None
             (Part001.setReply generalFailure
                (Part001.NewProxy (client [5; 0; 7]))))
          [ClientWrite [5; 1; 0; 0; 0; 0; 0; 0; 0; 0]; ClientClose]).
Proof.
  apply (X7_handleGreetings_rejects_empty_offer [5; 0; 7]
           (ServerGo.NewProxy (client [5; 0; 7]))
           (Part001.NewProxy (client [5; 0; 7])) []);
    reflexivity.
Defined.

(** X8.  The version byte of the greeting.  [server.go] turns down every
    greeting whose first byte is not 5, whatever follows: general-failure
    reply, connection closed, no method selection.  The later revision
    never looks at the byte: a greeting behaves exactly as the same
    greeting with its first byte replaced by 5. *)
Theorem X8_handleGreetings_version_byte :
  forall v rest (s : ServerGo.SocksProxy) (s' : Part001.SocksProxy) wire,
    v <> 5 ->
    closed (ServerGo.conn s) = false ->
    pending (ServerGo.conn s) = v :: rest ->
    Part001.conn s' = Some (mkClientConn (v :: rest) false) ->
    (exists s2,
        ServerGo.handleGreetings (ServerGo.mkState s wire)
        = (Ok tt,
           ServerGo.mkState s2
             (wire ++ [ClientWrite [5; generalFailure; 0;
                                    ServerGo.addressType s; 0; 0; 0];
                       ClientClose]))
        /\ ServerGo.conn s2 = mkClientConn (skipn 1 rest) true)
    /\ Part001.handleGreetings (Part001.mkState s' wire)
       = Part001.handleGreetings
           (Part001.mkState
              (Part001.setConn (Some (mkClientConn (5 :: rest) false)) s')
              wire).
Proof.
  intros v rest s s' wire Hv Hopen Hp Hc. split.
  - rewrite (ServerGo_handleGreetings_reads s wire (v :: rest) Hopen Hp).
    unfold ServerGo.ensureVersion. cbn [hd].
    replace (negb (v =? socksVersion)) with true
      by (symmetry; apply negb_true_iff, Z.eqb_neq; exact Hv).
    erewrite bind_ok;
      [| apply ServerGo_closeConnectionWithError_open; reflexivity].
    match goal with
    | |- exists s2, ?k (ServerGo.mkState ?t ?w) = _ /\ _ =>
        assert (Htail : idleOnClosed k)
    end.
    { apply idle_bind; [apply idle_ensureNMethod | intros ?].
      apply idle_handleGreetings_tail. }
    match goal with
    | |- exists s2, _ (ServerGo.mkState ?t ?w) = _ /\ _ =>
        destruct (Htail t w eq_refl) as (a & s2 & Hrun & Hconn & _)
    end.
    destruct a. exists s2. split; [exact Hrun | exact Hconn].
  - rewrite (Part001_handleGreetings_reads s' wire (v :: rest) Hc).
    rewrite (Part001_handleGreetings_reads
               (Part001.setConn (Some (mkClientConn (5 :: rest) false)) s')
               wire (5 :: rest) eq_refl).
    reflexivity.
Qed.

Lemma X8_handleGreetings_version_byte_witness :
  (exists s2,
      ServerGo.handleGreetings
        (ServerGo.mkState (ServerGo.NewProxy (client [4; 1; 0; 7])) [])
      = (Ok tt,
         ServerGo.mkState s2
           [ClientWrite [5; 1; 0; 0; 0; 0; 0]; ClientClose])
      /\ ServerGo.conn s2 = mkClientConn [0; 7] true)
  /\ Part001.handleGreetings
       (Part001.mkState (Part001.NewProxy (client [4; 1; 0; 7])) [])
     = Part001.handleGreetings
         (Part001.mkState
            (Part001.setConn (Some (client [5; 1; 0; 7]))
               (Part001.NewProxy (client [4; 1; 0; 7]))) []).
Proof.
  apply (X8_handleGreetings_version_byte 4 [1; 0; 7]
           (ServerGo.NewProxy (client [4; 1; 0; 7]))
           (Part001.NewProxy (client [4; 1; 0; 7])) []);
    first [discriminate | reflexivity].
Defined.

(** ** The reply frame *)

(** The high byte shifted left and the low byte do not overlap. *)
Lemma lor_bytes hi lo :
  0 <= lo < 256 -> Z.lor (Z.shiftl hi 8) lo = 256 * hi + lo.
Proof.
  intros Hlo.
  assert (Hland : Z.land (Z.shiftl hi 8) lo = 0).
  { apply Z.bits_inj'. intros n Hn.
    rewrite Z.land_spec, Z.bits_0.
    destruct (Z.ltb_spec n 8) as [Hlt | Hge].
    - rewrite Z.shiftl_spec_low by exact Hlt. reflexivity.
    - rewrite (Z.bits_above_log2 lo n); [apply andb_false_r | lia |].
      destruct (Z.eq_dec lo 0) as [-> | Hnz]; [simpl; lia |].
      apply Z.log2_lt_pow2; [lia |].
      apply Z.lt_le_trans with (2 ^ 8); [simpl; lia |].
      apply Z.pow_le_mono_r; lia. }
  rewrite <- Z.lxor_lor by exact Hland.
  rewrite <- Z.add_nocarry_lxor by exact Hland.
  rewrite Z.shiftl_mul_pow2 by lia. change (2 ^ 8) with 256. lia.
Qed.

(** The two bytes [generateReply] writes for a port give the port back. *)
Lemma port_bytes_join p :
  0 <= p < 65536 ->
  Z.lor (Z.shiftl (uint8 (Z.shiftr p 8)) 8) (uint8 (Z.land p 255)) = p.
Proof.
  intros Hp. unfold uint8.
  change 255 with (Z.ones 8).
  rewrite !Z.land_ones by lia. rewrite Z.shiftr_div_pow2 by lia.
  change (2 ^ 8) with 256.
  rewrite Z.mod_mod by lia.
  rewrite (Z.mod_small (p / 256) 256)
    by (split; [apply Z.div_pos; lia | apply Z.div_lt_upper_bound; lia]).
  rewrite lor_bytes by (apply Z.mod_pos_bound; lia).
  symmetry. apply Z.div_mod. lia.
Qed.

Lemma uint8_range x : 0 <= uint8 x < 256.
Proof.
  unfold uint8. change 255 with (Z.ones 8). rewrite Z.land_ones by lia.
  apply Z.mod_pos_bound. lia.
Qed.

Lemma port_bytes_sum p :
  0 <= p < 65536 ->
  256 * uint8 (Z.shiftr p 8) + uint8 (Z.land p 255) = p.
Proof.
  intros Hp. rewrite <- (lor_bytes _ _ (uint8_range (Z.land p 255))).
  apply port_bytes_join. exact Hp.
Qed.

(** X9.  The frame [generateReply] builds, for every port below 65536:
    version 5, the recorded reply code, a zero, the recorded address type,
    the address bytes, and the port as two bytes in network order, each
    between 0 and 255, the first times 256 plus the second being the port.
    [server.go] appends whatever address bytes it is given; the later
    revision builds the frame for a 4- or 16-byte address and returns an
    empty payload for any other. *)
Theorem X9_generateReply_frame :
  forall ip p (t : ServerGo.SocksProxy) (t' : Part001.SocksProxy),
    0 <= p < 65536 ->
    let hi := uint8 (Z.shiftr p 8) in
    let lo := uint8 (Z.land p 255) in
    ServerGo.generateReply t ip p
    = [5; ServerGo.reply t; 0; ServerGo.addressType t] ++ ip ++ [hi; lo]
    /\ Part001.generateReply t' (mkAddrPort (AddrFromSlice ip) p)
       = (if ((length ip =? 4) || (length ip =? 16))%nat
          then [5; Part001.reply t'; 0; Part001.addressType t']
                 ++ ip ++ [hi; lo]
          else [])
    /\ 0 <= hi < 256
    /\ 0 <= lo < 256
    /\ 256 * hi + lo = p.
Proof.
  intros ip p t t' Hp. cbv zeta.
  split; [| split; [| split; [| split]]].
  - unfold ServerGo.generateReply. simpl. rewrite <- app_assoc. reflexivity.
  - unfold Part001.generateReply, AddrFromSlice, IsValid.
    destruct (length ip =? 4)%nat; simpl;
      [rewrite <- app_assoc; reflexivity |].
    destruct (length ip =? 16)%nat; simpl;
      [rewrite <- app_assoc; reflexivity | reflexivity].
  - apply uint8_range.
  - apply uint8_range.
  - apply port_bytes_sum. exact Hp.
Qed.

Lemma X9_generateReply_frame_witness :
  ServerGo.generateReply (ServerGo.NewProxy (client [])) [10; 0; 0; 7] 1081
  = [5; 0; 0; 0] ++ [10; 0; 0; 7] ++ [4; 57]
  /\ Part001.generateReply (Part001.NewProxy (client []))
       (mkAddrPort (AddrFromSlice [10; 0; 0; 7]) 1081)
     = [5; 0; 0; 0] ++ [10; 0; 0; 7] ++ [4; 57]
  /\ 0 <= 4 < 256
  /\ 0 <= 57 < 256
  /\ 256 * 4 + 57 = 1081.
Proof.
  apply (X9_generateReply_frame [10; 0; 0; 7] 1081
           (ServerGo.NewProxy (client []))
           (Part001.NewProxy (client [])));
    lia.
Defined.

(** ** A connect command that succeeds *)

Lemma ip_address_type aty :
  aty = ipv4 \/ aty = ipv6 -> (aty =? ipv4) || (aty =? ipv6) = true.
Proof. intros [-> | ->]; reflexivity. Qed.

Lemma ServerGo_handleCommandConnect_ip net s wire bound :
  ServerGo.addressType s = ipv4 \/ ServerGo.addressType s = ipv6 ->
  Dial net (hostPort (IPString net (ServerGo.IP s)) (ServerGo.port s))
  = inl bound ->
  ServerGo.handleCommandConnect net (ServerGo.mkState s wire)
  = (Ok ([5; succeeded; 0; ServerGo.addressType s]
           ++ tcpIP bound
           ++ [uint8 (Z.shiftr (tcpPort bound) 8);
               uint8 (Z.land (tcpPort bound) 255)]),
     ServerGo.mkState
       (ServerGo.setReply succeeded
          (ServerGo.setRemote (Some (mkRemoteConn bound false)) s))
       (wire ++ [DialTCP (hostPort (IPString net (ServerGo.IP s))
                                   (ServerGo.port s))])).
Proof.
  intros Hkind Hd.
  unfold ServerGo.handleCommandConnect, ServerGo.constructRemoteAddress.
  unfold bindM at 1. unfold bindM at 1.
  unfold ServerGo.field at 1, gets.
  cbn [ServerGo.self fst snd].
  rewrite (ip_address_type _ Hkind).
  unfold bindM, ServerGo.field, gets, ret, ServerGo.emit, modify.
  cbn [ServerGo.self ServerGo.wire]. rewrite Hd.
  unfold ServerGo.update, modify, ServerGo.generateSucceededReply,
    ServerGo.generateReply.
  cbn. rewrite <- !app_assoc. reflexivity.
Qed.

Lemma Part001_handleCommandConnect_ip net s c wire bound :
  Part001.addressType s = ipv4 \/ Part001.addressType s = ipv6 ->
  Part001.conn s = Some c ->
  length (tcpIP bound) = 4%nat \/ length (tcpIP bound) = 16%nat ->
  Dial net (hostPort (AddrString net (Part001.IP s)) (Part001.port s))
  = inl bound ->
  Part001.handleCommandConnect net (Part001.mkState s wire)
  = (Ok ([5; succeeded; 0; Part001.addressType s]
           ++ tcpIP bound
           ++ [uint8 (Z.shiftr (Z.land (tcpPort bound) 65535) 8);
               uint8 (Z.land (Z.land (tcpPort bound) 65535) 255)],
         None),
     Part001.mkState
       (Part001.setReply succeeded
          (Part001.setRemote (Some (mkRemoteConn bound false)) s))
       (wire ++ [DialTCP (hostPort (AddrString net (Part001.IP s))
                                   (Part001.port s))])).
Proof.
  intros Hkind Hc Hlen Hd.
  unfold Part001.handleCommandConnect, Part001.constructRemoteAddress.
  unfold bindM at 1. unfold bindM at 1.
  unfold Part001.field at 1, gets.
  cbn [Part001.self fst snd].
  rewrite (ip_address_type _ Hkind).
  unfold bindM, Part001.field, gets, ret, Part001.emit, modify.
  cbn [Part001.self Part001.wire]. rewrite Hc, Hd.
  unfold Part001.update, modify, Part001.generateSucceededReply,
    Part001.generateReply, TCPAddrPort, AddrFromSlice, IsValid.
  cbn [Part001.self Part001.wire LocalAddr apAddr apPort].
  destruct Hlen as [Hl | Hl]; rewrite Hl; cbn;
    rewrite <- !app_assoc; reflexivity.
Qed.

(** X10.  A connect command for an IPv4 or IPv6 address whose dial
    succeeds: the proxy dials exactly the text [ip:port] of the request,
    without any lookup, records the remote connection, sets the reply to
    succeeded and returns the frame [05 00 00 ATYP] followed by the local
    address and port of the dialled connection.  The ATYP byte is the one of
    the request.  Nothing is written to the client by this step.  The later
    revision builds the frame only from a 4- or 16-byte local address. *)
Theorem X10_handleCommandConnect_success :
  forall net aty bound c
         (s : ServerGo.SocksProxy) (s' : Part001.SocksProxy) wire,
    aty = ipv4 \/ aty = ipv6 ->
    ServerGo.addressType s = aty ->
    Part001.addressType s' = aty ->
    Part001.conn s' = Some c ->
    length (tcpIP bound) = 4%nat \/ length (tcpIP bound) = 16%nat ->
    0 <= tcpPort bound < 65536 ->
    Dial net (hostPort (IPString net (ServerGo.IP s)) (ServerGo.port s))
    = inl bound ->
    Dial net (hostPort (AddrString net (Part001.IP s')) (Part001.port s'))
    = inl bound ->
    ServerGo.handleCommandConnect net (ServerGo.mkState s wire)
    = (Ok ([5; succeeded; 0; aty] ++ tcpIP bound
             ++ [uint8 (Z.shiftr (tcpPort bound) 8);
                 uint8 (Z.land (tcpPort bound) 255)]),
       ServerGo.mkState
         (ServerGo.setReply succeeded
            (ServerGo.setRemote (Some (mkRemoteConn bound false)) s))
         (wire ++ [DialTCP (hostPort (IPString net (ServerGo.IP s))
                                     (ServerGo.port s))]))
    /\ Part001.handleCommandConnect net (Part001.mkState s' wire)
       = (Ok ([5; succeeded; 0; aty] ++ tcpIP bound
                ++ [uint8 (Z.shiftr (tcpPort bound) 8);
                    uint8 (Z.land (tcpPort bound) 255)],
              None),
          Part001.mkState
            (Part001.setReply succeeded
               (Part001.setRemote (Some (mkRemoteConn bound false)) s'))
            (wire ++ [DialTCP (hostPort (AddrString net (Part001.IP s'))
                                        (Part001.port s'))])).
Proof.
  intros net aty bound c s s' wire Hkind Ht Ht' Hc Hlen Hport Hd Hd'.
  subst aty. split.
  - apply ServerGo_handleCommandConnect_ip; assumption.
  - rewrite (Part001_handleCommandConnect_ip net s' c wire bound)
      by (try rewrite Ht'; assumption).
    rewrite Ht'.
    replace (Z.land (tcpPort bound) 65535) with (tcpPort bound);
      [reflexivity |].
    change 65535 with (Z.ones 16). rewrite Z.land_ones by lia.
    symmetry. apply Z.mod_small. change (2 ^ 16) with 65536. lia.
Qed.

Lemma X10_handleCommandConnect_success_witness :
  ServerGo.handleCommandConnect reachable
    (ServerGo.mkState
       (ServerGo.setPort 80
          (ServerGo.setIP [192; 0; 2; 1]
             (ServerGo.setAddressType ipv4 (ServerGo.NewProxy (client [])))))
       [])
  = (Ok [5; 0; 0; 1; 10; 0; 0; 2; 156; 64],
     ServerGo.mkState
       (ServerGo.setReply succeeded
          (ServerGo.setRemote
             (Some (mkRemoteConn (mkTCPAddr [10; 0; 0; 2] 40000) false))
             (ServerGo.setPort 80
                (ServerGo.setIP [192; 0; 2; 1]
                   (ServerGo.setAddressType ipv4
                      (ServerGo.NewProxy (client [])))))))
       [DialTCP "192.0.2.1:80"])
  /\ Part001.handleCommandConnect reachable
       (Part001.mkState
          (Part001.setPort 80
             (Part001.setIP (Addr4 [192; 0; 2; 1])
                (Part001.setAddressType ipv4
                   (Part001.NewProxy (client [])))))
          [])
     = (Ok ([5; 0; 0; 1; 10; 0; 0; 2; 156; 64], None),
        Part001.mkState
          (Part001.setReply succeeded
             (Part001.setRemote
                (Some (mkRemoteConn (mkTCPAddr [10; 0; 0; 2] 40000) false))
                (Part001.setPort 80
                   (Part001.setIP (Addr4 [192; 0; 2; 1])
                      (Part001.setAddressType ipv4
                         (Part001.NewProxy (client [])))))))
          [DialTCP "192.0.2.1:80"]).
Proof.
  apply (X10_handleCommandConnect_success reachable ipv4
           (mkTCPAddr [10; 0; 0; 2] 40000) (client [])
           (ServerGo.setPort 80
              (ServerGo.setIP [192; 0; 2; 1]
                 (ServerGo.setAddressType ipv4
                    (ServerGo.NewProxy (client [])))))
           (Part001.setPort 80
              (Part001.setIP (Addr4 [192; 0; 2; 1])
                 (Part001.setAddressType ipv4
                    (Part001.NewProxy (client [])))))
           []);
    first [reflexivity | (left; reflexivity) | (simpl; lia)].
Defined.

(** ** A name that does not resolve *)

(** X11.  A connect command for a domain name whose lookup gives no
    address never dials.  The later revision answers with a
    general-failure reply, closes the connection and returns the error
    "Connection closed early", whether or not the lookup reported an
    error.  [server.go] sends the reply and closes only when the lookup
    reported an error, and then panics on [ips[0]] in either case. *)
Theorem X11_connect_unresolved_name :
  forall net err err' c
         (s : ServerGo.SocksProxy) (s' : Part001.SocksProxy) wire,
    ServerGo.addressType s = domainName ->
    Part001.addressType s' = domainName ->
    closed (ServerGo.conn s) = false ->
    Part001.conn s' = Some c ->
    closed c = false ->
    LookupIP net (ServerGo.FQDN s) = ([], err) ->
    LookupIP net (Part001.FQDN s') = ([], err') ->
    ServerGo.handleCommandConnect net (ServerGo.mkState s wire)
    = (Panicked IndexOutOfRange,
       if isErr err
       then ServerGo.mkState
              (ServerGo.setConn
                 (mkClientConn (pending (ServerGo.conn s)) true)
                 (ServerGo.setReply generalFailure s))
              (wire ++ [Lookup (ServerGo.FQDN s);
                        ClientWrite [5; generalFailure; 0; domainName;
                                     0; 0; 0];
                        ClientClose])
       else ServerGo.mkState s (wire ++ [Lookup (ServerGo.FQDN s)]))
    /\ Part001.handleCommandConnect net (Part001.mkState s' wire)
       = (Ok ([], Some "Connection closed early"),
          Part001.mkState
            (Part001.setConn None (Part001.setReply generalFailure s'))
            (wire ++ [Lookup (Part001.FQDN s');
                      ClientWrite [5; generalFailure; 0; domainName;
                                   0; 0; 0; 0; 0; 0];
                      ClientClose])).
Proof.
  intros net err err' c s s' wire Ht Ht' Hopen Hc Hco Hl Hl'. split.
  - unfold ServerGo.handleCommandConnect, ServerGo.constructRemoteAddress.
    unfold bindM at 1. unfold bindM at 1.
    unfold ServerGo.field at 1, gets. cbn [ServerGo.self fst snd].
    rewrite Ht. cbn [Z.eqb ipv4 ipv6 domainName orb Pos.eqb].
    unfold bindM at 1. unfold ServerGo.field at 1, gets.
    cbn [ServerGo.self fst snd].
    unfold bindM at 1. unfold ServerGo.emit at 1, modify.
    cbn [ServerGo.self ServerGo.wire]. rewrite Hl.
    destruct err as [msg|]; cbn [isErr].
    + unfold bindM at 1.
      rewrite (ServerGo_closeConnectionWithError_open generalFailure _ _
                 Hopen).
      rewrite Ht, <- app_assoc. reflexivity.
    + reflexivity.
  - unfold Part001.handleCommandConnect, Part001.constructRemoteAddress.
    unfold bindM at 1. unfold bindM at 1.
    unfold Part001.field at 1, gets. cbn [Part001.self fst snd].
    rewrite Ht'. cbn [Z.eqb ipv4 ipv6 domainName orb Pos.eqb].
    unfold bindM at 1. unfold Part001.field at 1, gets.
    cbn [Part001.self fst snd].
    unfold bindM at 1. unfold Part001.emit at 1, modify.
    cbn [Part001.self Part001.wire]. rewrite Hl'.
    replace (isErr err' || (length (@nil (list Z)) =? 0)%nat) with true
      by (destruct err'; reflexivity).
    unfold bindM at 1.
    rewrite (@Part001_closeConnectionWithError_live generalFailure _ c _
               Hc Hco).
    rewrite Ht', <- app_assoc. reflexivity.
Qed.

Lemma X11_connect_unresolved_name_witness :
  ServerGo.handleCommandConnect refusing
    (ServerGo.mkState
       (ServerGo.setFQDN "nowhere.invalid"
          (ServerGo.setAddressType domainName
             (ServerGo.NewProxy (client [])))) [])
  = (Panicked IndexOutOfRange,
     ServerGo.mkState
       (ServerGo.setConn (mkClientConn [] true)
          (ServerGo.setReply generalFailure
             (ServerGo.setFQDN "nowhere.invalid"
                (ServerGo.setAddressType domainName
                   (ServerGo.NewProxy (client []))))))
       [Lookup "nowhere.invalid";
        ClientWrite [5; 1; 0; 3; 0; 0; 0]; ClientClose])
  /\ Part001.handleCommandConnect refusing
       (Part001.mkState
          (Part001.setFQDN "nowhere.invalid"
             (Part001.setAddressType domainName
                (Part001.NewProxy (client [])))) [])
     = (Ok ([], Some "Connection closed early"),
        Part001.mkState
          (Part001.setConn None
             (Part001.setReply generalFailure
                (Part001.setFQDN "nowhere.invalid"
                   (Part001.setAddressType domainName
                      (Part001.NewProxy (client []))))))
          [Lookup "nowhere.invalid";
           ClientWrite [5; 1; 0; 3; 0; 0; 0; 0; 0; 0]; ClientClose]).
Proof.
  apply (X11_connect_unresolved_name refusing (Some "no such host")
           (Some "no such host") (client [])
           (ServerGo.setFQDN "nowhere.invalid"
              (ServerGo.setAddressType domainName
                 (ServerGo.NewProxy (client []))))
           (Part001.setFQDN "nowhere.invalid"
              (Part001.setAddressType domainName
                 (Part001.NewProxy (client []))))
           []);
    reflexivity.
Defined.

(** ** The later revision never panics *)

Section P1Runs.
Variable net : Net.

Lemma Part001_after_command_runs res :
  triple (P1Outcome net res)
         (match snd res with
          | Some _ => ret tt
          | None =>
              bindM (if 0 <? Z.of_nat (length (fst res))
                     then Part001.connWrite (fst res)
                     else ret None)
                (fun werr =>
                   match werr with
                   | Some _ => ret tt
                   | None =>
                       bindM Part001.doReplyAction
                         (fun err =>
                            match err with
                            | Some _ => ret tt
                            | None =>
                                bindM (Part001.field Part001.remote)
                                  (fun rem =>
                                     match rem with
                                     | Some r => Part001.remoteClose r
                                     | None => ret tt
                                     end)
                            end)
                   end)
          end)
         (fun _ _ => True) (fun _ _ => False).
Proof.
  destruct res as [payload err].
  intros [s wire] [[H1 H2] | [H1 H2]]; simpl in *.
  - destruct err; [exact I | congruence].
  - subst err.
    destruct H2 as ((c & Hc & Ho) & _ & _ & Hr & _ & _). simpl in *.
    destruct (Part001.remote s) as [r0|] eqn:Hrem; [| contradiction].
    unfold bindM, Part001.connWrite, Part001.doReplyAction,
      Part001.exchange, Part001.remoteClose,
      Part001.field, gets, Part001.emit, Part001.update, modify, bindM.
    simpl.
    destruct (0 <? Z.of_nat (length payload)); simpl;
      rewrite ?Hc, ?Ho; simpl;
      destruct (Part001.command s =? connect); simpl;
      destruct (Part001.reply s =? succeeded); simpl;
      rewrite ?Hrem; simpl;
      destruct (remoteClosed r0); simpl; exact I.
Qed.

Lemma Part001_handleBody_runs :
  triple P1Live (Part001.handleBody net)
         (fun _ _ => True) (fun _ _ => False).
Proof.
  unfold Part001.handleBody.
  eapply triple_bind; [apply Part001_handleGreetings_inv |].
  intros [e|]; [apply triple_ret; auto |].
  eapply triple_bind.
  { eapply triple_weaken;
      [apply Part001_handleRequestHeader_inv | | same | auto].
    intros w (HI & Hl & _). split; auto. }
  intros [e|]; [apply triple_ret; auto |].
  eapply triple_bind.
  { eapply triple_weaken;
      [apply Part001_handleRequestCommand_inv | | same | auto].
    intros w (HI & Hl & _). split; auto. }
  intros res. apply Part001_after_command_runs.
Qed.

End P1Runs.

Lemma Part001_closeConnection_nil w :
  Part001.conn (Part001.self (snd (Part001.closeConnection w))) = None.
Proof.
  destruct w as [s wire].
  unfold Part001.closeConnection, Part001.connClose, bindM, Part001.field,
    gets, Part001.update, modify. simpl.
  destruct (Part001.conn s) as [c|] eqn:Hc; simpl.
  - rewrite Hc. destruct (closed c); reflexivity.
  - exact Hc.
Qed.

(** X13.  The later revision never panics: on every network (lookups that
    fail or find nothing, dials that fail, a local address of any length)
    and for every byte stream of the client, [handle] on an open connection
    returns normally, and the proxy's connection handle is nil when it
    does.  ([server.go] panics on a failed dial or lookup.) *)
Theorem X13_part001_handle_never_panics :
  forall net c,
    closed c = false ->
    fst (Part001.handle net c) = Ok tt
    /\ Part001.conn (Part001.self (snd (Part001.handle net c))) = None.
Proof.
  intros net c Hopen. unfold Part001.handle, withDefer.
  assert (H0 : P1Live (Part001.mkState (Part001.NewProxy c) [])).
  { unfold P1Live, P1Inv. simpl. conjs; auto using quiet_nil. discriminate. }
  pose proof (Part001_handleBody_runs net _ H0) as H.
  destruct (Part001.handleBody net
              (Part001.mkState (Part001.NewProxy c) [])) as [[[]|p] w];
    [| contradiction].
  simpl. split; [reflexivity | apply Part001_closeConnection_nil].
Qed.

Lemma X13_part001_handle_never_panics_witness :
  fst (Part001.handle refusing (client [5; 1; 0; 5; 1; 0; 3; 1; 97; 0; 80]))
  = Ok tt
  /\ Part001.conn
       (Part001.self
          (snd (Part001.handle refusing
                  (client [5; 1; 0; 5; 1; 0; 3; 1; 97; 0; 80]))))
     = None.
Proof.
  apply (X13_part001_handle_never_panics refusing
           (client [5; 1; 0; 5; 1; 0; 3; 1; 97; 0; 80])).
  reflexivity.
Defined.

(** ** Closing with an error, twice *)

(** X14.  Only the first [closeConnectionWithError] reaches the client: a
    second call, with whatever code, puts nothing on the wire.  In
    [server.go] the second call still overwrites the recorded reply (its
    write fails on the closed connection); the later revision returns
    before touching the record, which keeps the code the client was
    sent. *)
Theorem X14_closeConnectionWithError_second_call_is_silent :
  forall e1 e2 c (s : ServerGo.SocksProxy) (s' : Part001.SocksProxy) wire,
    closed (ServerGo.conn s) = false ->
    Part001.conn s' = Some c ->
    closed c = false ->
    (ServerGo.closeConnectionWithError e1 ;;
     ServerGo.closeConnectionWithError e2) (ServerGo.mkState s wire)
    = (Ok tt,
       ServerGo.mkState
         (ServerGo.setReply e2
            (ServerGo.setConn (mkClientConn (pending (ServerGo.conn s)) true)
               s))
         (wire ++ [ClientWrite [5; e1; 0; ServerGo.addressType s; 0; 0; 0];
                   ClientClose]))
    /\ (Part001.closeConnectionWithError e1 ;;
        Part001.closeConnectionWithError e2) (Part001.mkState s' wire)
       = (Ok tt,
          Part001.mkState
            (Part001.setReply e1 (Part001.setConn None s'))
            (wire ++ [ClientWrite [5; e1; 0; Part001.addressType s';
                                   0; 0; 0; 0; 0; 0];
                      ClientClose])).
Proof.
  intros e1 e2 c s s' wire Hopen Hc Hco. split.
  - rewrite (bind_ok _ _ _ _ _
               (ServerGo_closeConnectionWithError_open e1 s wire Hopen)).
    rewrite ServerGo_closeConnectionWithError_closed by reflexivity.
    reflexivity.
  - rewrite (bind_ok _ _ _ _ _
               (@Part001_closeConnectionWithError_live e1 s' c wire Hc Hco)).
    rewrite Part001_closeConnectionWithError_nil by reflexivity.
    reflexivity.
Qed.

Lemma X14_closeConnectionWithError_second_call_is_silent_witness :
  (ServerGo.closeConnectionWithError hostUnreachable ;;
   ServerGo.closeConnectionWithError generalFailure)
    (ServerGo.mkState (ServerGo.NewProxy (client [7])) [])
  = (Ok tt,
     ServerGo.mkState
       (ServerGo.setReply generalFailure
          (ServerGo.setConn (mkClientConn [7] true)
             (ServerGo.NewProxy (client [7]))))
       [ClientWrite [5; 4; 0; 0; 0; 0; 0]; ClientClose])
  /\ (Part001.closeConnectionWithError hostUnreachable ;;
      Part001.closeConnectionWithError generalFailure)
       (Part001.mkState (Part001.NewProxy (client [7])) [])
     = (Ok tt,
        Part001.mkState
          (Part001.setReply hostUnreachable
             (Part001.setConn None (Part001.NewProxy (client [7]))))
          [ClientWrite [5; 4; 0; 0; 0; 0; 0; 0; 0; 0]; ClientClose]).
Proof.
  apply (X14_closeConnectionWithError_second_call_is_silent
           hostUnreachable generalFailure (client [7])
           (ServerGo.NewProxy (client [7]))
           (Part001.NewProxy (client [7])) []);
    reflexivity.
Defined.

(** ** The relay of the later revision *)

(** X15.  [exchange] of the later revision cannot get stuck: from every
    state the relay can reach, whatever the two copies have done so far and
    whatever errors they ended with, it can run on to its return. *)
Theorem X15_part001_exchange_can_always_return :
  forall r,
    Part001Relay.reachable r ->
    exists r',
      Part001Relay.steps r r'
      /\ Part001Relay.reachable r'
      /\ returned (Part001Relay.view r') = true.
Proof.
  intros r Hr.
  destruct (@Part001RelayFacts.exchange_can_return r Hr) as (r' & Hs & Hc).
  exists r'. split; [exact Hs |]. split.
  - exact (@Part001RelayFacts.steps_reachable r r' Hr Hs).
  - unfold Part001Relay.view. simpl. rewrite Hc. reflexivity.
Qed.

Lemma X15_part001_exchange_can_always_return_witness :
  exists r',
    Part001Relay.steps Part001Relay.start r'
    /\ Part001Relay.reachable r'
    /\ returned (Part001Relay.view r') = true.
Proof.
  apply (X15_part001_exchange_can_always_return Part001Relay.start).
  apply Part001Relay.reach_start.
Defined.

Lemma closedOnce_start : closedOnce Part001Relay.start.
Proof. split; reflexivity. Qed.

Lemma closeWrites_snoc e log ev :
  closeWrites e (log ++ [ev])
  = (closeWrites e log + if hasCloseWrite e ev then 1 else 0)%nat.
Proof.
  unfold closeWrites. rewrite filter_app, length_app. simpl.
  destruct (hasCloseWrite e ev); reflexivity.
Qed.

Lemma closedOnce_step r r' :
  closedOnce r -> Part001Relay.step r r' -> closedOnce r'.
Proof.
  intros [Hr Hc] Hstep.
  destruct Hstep as [d err r Hp | d err r Hp | d r Hp | r Hcal Hz];
    try destruct d;
    destruct r as [tr tc n cl lg]; simpl in *; subst;
    unfold closedOnce; simpl; rewrite ?closeWrites_snoc; simpl;
    simpl in Hr, Hc; rewrite ?Hr, ?Hc; split; lia.
Qed.

Lemma reachable_closedOnce r : Part001Relay.reachable r -> closedOnce r.
Proof.
  induction 1 as [| r r' _ IH Hstep]; [apply closedOnce_start |].
  exact (closedOnce_step r r' IH Hstep).
Qed.

(** X16.  The later revision shuts down the write side of each
    destination at most once in any run, and exactly once by the time
    [exchange] has returned. *)
Theorem X16_part001_exchange_half_closes_once :
  forall r e,
    Part001Relay.reachable r ->
    (closeWrites e (Part001Relay.log r) <= 1)%nat
    /\ (returned (Part001Relay.view r) = true ->
        closeWrites e (Part001Relay.log r) = 1%nat).
Proof.
  intros r e Hr.
  destruct (reachable_closedOnce r Hr) as [Hrem Hcli].
  split.
  - destruct e; [rewrite Hcli | rewrite Hrem];
      match goal with |- context [if ?b then _ else _] => destruct b end;
      lia.
  - intros Hret.
    destruct (@Part001RelayFacts.reachable_Inv r Hr) as (Hwg & Hdone & _).
    unfold Part001Relay.view in Hret. simpl in Hret.
    destruct (Part001Relay.caller r); [discriminate |].
    specialize (Hdone eq_refl). rewrite Hdone in Hwg.
    assert (Htr : Part001Relay.toRemote r = Part001Relay.Finished)
      by (apply Part001RelayFacts.unfinished_zero; lia).
    assert (Htc : Part001Relay.toClient r = Part001Relay.Finished)
      by (apply Part001RelayFacts.unfinished_zero; lia).
    rewrite Htr in Hrem. rewrite Htc in Hcli.
    destruct e; assumption.
Qed.

Lemma joined_reachable : Part001Relay.reachable joined.
Proof.
  apply (@Part001RelayFacts.steps_reachable Part001Relay.start joined
           Part001Relay.reach_start).
  eapply Part001Relay.steps_more;
    [apply (@Part001Relay.copy_ends ClientToRemote None); reflexivity |].
  eapply Part001Relay.steps_more;
    [apply (@Part001Relay.close_write ClientToRemote None); reflexivity |].
  eapply Part001Relay.steps_more;
    [apply (@Part001Relay.wg_done ClientToRemote); reflexivity |].
  eapply Part001Relay.steps_more;
    [apply (@Part001Relay.copy_ends RemoteToClient None); reflexivity |].
  eapply Part001Relay.steps_more;
    [apply (@Part001Relay.close_write RemoteToClient None); reflexivity |].
  eapply Part001Relay.steps_more;
    [apply (@Part001Relay.wg_done RemoteToClient); reflexivity |].
  eapply Part001Relay.steps_more;
    [apply (@Part001Relay.wait_returns); reflexivity |].
  apply Part001Relay.steps_refl.
Qed.

Lemma X16_part001_exchange_half_closes_once_witness :
  (closeWrites ClientEnd (Part001Relay.log joined) <= 1)%nat
  /\ (returned (Part001Relay.view joined) = true ->
      closeWrites ClientEnd (Part001Relay.log joined) = 1%nat).
Proof.
  apply (X16_part001_exchange_half_closes_once joined ClientEnd).
  exact joined_reachable.
Defined.

(** ** The relay of [server.go] *)

Lemma failed_snoc d log ev :
  failed d (log ++ [ev]) = failed d log || copyFailed d ev.
Proof.
  unfold failed. rewrite existsb_app. simpl. rewrite orb_false_r.
  reflexivity.
Qed.

Lemma accounted_start : accounted ServerGoRelay.start.
Proof.
  unfold accounted, proxyKnown, channelKnown, callerKnown. simpl.
  conjs; auto; lia.
Qed.

Ltac relay_unfold :=
  unfold accounted, proxyKnown, channelKnown, callerKnown, sent, sentError,
    ServerGoRelay.record, ServerGoRelay.setProxy, ServerGoRelay.setErrCh,
    ServerGoRelay.setCaller, ServerGoRelay.returnEvent,
    ServerGoRelay.afterReceive in *;
  simpl in *.

Ltac relay_auto :=
  repeat match goal with
         | H : _ /\ _ |- _ => destruct H
         | H : exists _, _ |- _ => destruct H
         | |- _ /\ _ => split
         | |- True => exact I
         end;
  rewrite ?in_app_iff; simpl;
  try solve [ lia | congruence | tauto | eauto
            | eexists; rewrite in_app_iff; eauto ].

Lemma accounted_step r r' :
  accounted r -> ServerGoRelay.step r r' -> accounted r'.
Proof.
  intros Hacc Hstep.
  destruct Hstep as [d err r Hp | d err r Hp Hlen | i err rest r Hcl Hq].
  - destruct r as [tr tc ch cl lg].
    destruct d; relay_unfold; subst;
      destruct Hacc as (Hr & Hc & Hch & Hcal);
      rewrite ?failed_snoc; simpl; rewrite ?orb_false_r;
      (split; [| split; [| split]]);
      try (intros e He; destruct (Hch e He) as [d0 Hd0]; exists d0;
           rewrite in_app_iff; left; exact Hd0).
    all: try (destruct tc as [|e1|]); try (destruct tr as [|e1|]);
      destruct cl as [i|[e|]]; destruct err; simpl in *;
      rewrite ?Hr, ?Hc, ?orb_false_r, ?andb_false_r in *; simpl in *;
      relay_auto.
  - destruct r as [tr tc ch cl lg].
    destruct d; relay_unfold; subst;
      destruct Hacc as (Hr & Hc & Hch & Hcal);
      (split; [| split; [| split]]);
      try exact I; try assumption;
      try (intros e He; apply in_app_iff in He;
           destruct He as [He | [<- | []]];
           [exact (Hch e He) | eexists; apply Hr || apply Hc]).
    all: rewrite ?filter_app, ?length_app; simpl;
      try (destruct tc as [|e1|]); try (destruct tr as [|e1|]);
      destruct cl as [i|[e|]]; destruct err;
      destruct (failed ClientToRemote lg); destruct (failed RemoteToClient lg);
      simpl in *; relay_auto.
  - destruct r as [tr tc ch cl lg]. simpl in Hcl, Hq. subst cl ch.
    destruct Hacc as (Hr & Hc & Hch & Hcal).
    assert (Hfirst : exists d, In (CopyEnded d err) lg)
      by (apply Hch; left; reflexivity).
    assert (Hrest : forall e, In e rest -> exists d, In (CopyEnded d e) lg)
      by (intros e He; apply Hch; right; exact He).
    clear Hch.
    relay_unfold.
    destruct err as [e|];
      [| destruct (i + 1 <? 2)%nat eqn:Hb;
         [pose proof (proj1 (Nat.ltb_lt _ _) Hb) as Hi
         | pose proof (proj1 (Nat.ltb_ge _ _) Hb) as Hi]];
      simpl; rewrite ?failed_snoc; simpl; rewrite ?orb_false_r;
      (split; [| split; [| split]]);
      try (intros e0 He0; destruct (Hrest e0 He0) as [d0 Hd0]; exists d0;
           rewrite ?in_app_iff; auto).
    all: try (destruct tr as [|e1|]; destruct tc as [|e2|];
              rewrite ?in_app_iff; simpl; tauto).
    all: destruct tr as [|e1|]; destruct tc as [|e2|];
      destruct (failed ClientToRemote lg);
      destruct (failed RemoteToClient lg);
      simpl in *;
      try (assert (rest = [])
             by (destruct rest; [reflexivity | simpl in *; lia]);
           subst rest; simpl in * );
      relay_auto.
Qed.

Lemma reachable_accounted r : ServerGoRelay.reachable r -> accounted r.
Proof.
  induction 1 as [| r r' _ IH Hstep]; [apply accounted_start |].
  exact (accounted_step r r' IH Hstep).
Qed.

Lemma buffer_has_room r d err :
  accounted r ->
  ServerGoRelay.proxy r d = ServerGoRelay.Copied err ->
  (length (ServerGoRelay.errCh r) < 2)%nat.
Proof.
  intros (_ & _ & _ & Hcal) Hp.
  destruct r as [tr tc ch cl lg].
  unfold callerKnown, sent in Hcal. simpl in *.
  destruct d; simpl in Hp; subst;
    destruct cl as [i|[e|]]; simpl in Hcal;
    repeat match goal with
           | H : context [ServerGoRelay.isFinished ?p] |- _ =>
               destruct (ServerGoRelay.isFinished p)
           end;
    relay_auto.
Qed.

Lemma lateSender_reachable : ServerGoRelay.reachable lateSender.
Proof.
  eapply ServerGoRelay.reach_step;
    [apply ServerGoRelayFacts.earlyReturn_reachable |].
  exact (@ServerGoRelay.copy_ends RemoteToClient None
           ServerGoRelay.earlyReturn eq_refl).
Qed.

(** X17.  In [server.go] a goroutine whose copy has ended can always
    deliver its result: the channel of capacity two has room for it in
    every state the relay can reach, also after [exchange] has returned
    early and nobody receives any more.  No goroutine stays blocked on the
    send. *)
Theorem X17_server_go_exchange_send_never_blocks :
  forall r d err,
    ServerGoRelay.reachable r ->
    ServerGoRelay.proxy r d = ServerGoRelay.Copied err ->
    (length (ServerGoRelay.errCh r) < 2)%nat
    /\ ServerGoRelay.step r
         (ServerGoRelay.setErrCh (ServerGoRelay.errCh r ++ [err])
            (ServerGoRelay.setProxy d ServerGoRelay.Finished r)).
Proof.
  intros r d err Hr Hp.
  assert (Hroom : (length (ServerGoRelay.errCh r) < 2)%nat)
    by exact (buffer_has_room r d err (reachable_accounted r Hr) Hp).
  split; [exact Hroom |].
  exact (@ServerGoRelay.send d err r Hp Hroom).
Qed.

Lemma X17_server_go_exchange_send_never_blocks_witness :
  (length (ServerGoRelay.errCh lateSender) < 2)%nat
  /\ ServerGoRelay.step lateSender
       (ServerGoRelay.setErrCh (ServerGoRelay.errCh lateSender ++ [None])
          (ServerGoRelay.setProxy RemoteToClient ServerGoRelay.Finished
             lateSender)).
Proof.
  apply (X17_server_go_exchange_send_never_blocks lateSender RemoteToClient
           None).
  - exact lateSender_reachable.
  - reflexivity.
Defined.

Lemma not_failed d log e :
  failed d log = false -> ~ In (CopyEnded d (Some e)) log.
Proof.
  intros Hf Hin.
  assert (Ht : failed d log = true).
  { apply existsb_exists. exists (CopyEnded d (Some e)).
    split; [exact Hin | destruct d; reflexivity]. }
  congruence.
Qed.

(** X18.  What [exchange] of [server.go] returns.  When it has returned
    nil, both goroutines have finished and neither copy ended with an
    error.  When it has returned an error, that error is the one some copy
    ended with. *)
Theorem X18_server_go_exchange_result :
  forall r,
    ServerGoRelay.reachable r ->
    (ServerGoRelay.caller r = ServerGoRelay.Returned None ->
     (forall d, finished (ServerGoRelay.view r) d = true)
     /\ (forall d e, ~ In (CopyEnded d (Some e)) (ServerGoRelay.log r)))
    /\ (forall e,
           ServerGoRelay.caller r = ServerGoRelay.Returned (Some e) ->
           exists d, In (CopyEnded d (Some e)) (ServerGoRelay.log r)).
Proof.
  intros r Hr.
  destruct (reachable_accounted r Hr) as (_ & _ & _ & Hcal).
  unfold callerKnown, sent, sentError in Hcal.
  split.
  - intros Hret. rewrite Hret in Hcal.
    destruct Hcal as (Hn & _ & Hbad).
    unfold ServerGoRelay.view. simpl.
    destruct (ServerGoRelay.isFinished
                (ServerGoRelay.proxy r ClientToRemote)) eqn:Hf1;
      destruct (ServerGoRelay.isFinished
                  (ServerGoRelay.proxy r RemoteToClient)) eqn:Hf2;
      try (simpl in Hn; lia).
    split; [intros []; assumption |].
    simpl in Hbad.
    destruct (failed ClientToRemote (ServerGoRelay.log r)) eqn:F1;
      [simpl in Hbad; lia |].
    destruct (failed RemoteToClient (ServerGoRelay.log r)) eqn:F2;
      [simpl in Hbad; lia |].
    intros [] e; apply not_failed; assumption.
  - intros e Hret. rewrite Hret in Hcal. apply Hcal.
Qed.

Lemma X18_server_go_exchange_result_witness :
  (ServerGoRelay.caller ServerGoRelay.earlyReturn
   = ServerGoRelay.Returned None ->
   (forall d, finished (ServerGoRelay.view ServerGoRelay.earlyReturn) d
              = true)
   /\ (forall d e, ~ In (CopyEnded d (Some e))
                        (ServerGoRelay.log ServerGoRelay.earlyReturn)))
  /\ (forall e,
         ServerGoRelay.caller ServerGoRelay.earlyReturn
         = ServerGoRelay.Returned (Some e) ->
         exists d, In (CopyEnded d (Some e))
                      (ServerGoRelay.log ServerGoRelay.earlyReturn)).
Proof.
  apply (X18_server_go_exchange_result ServerGoRelay.earlyReturn).
  exact ServerGoRelayFacts.earlyReturn_reachable.
Defined.

Lemma runsTo_trans r r' r'' : runsTo r r' -> runsTo r' r'' -> runsTo r r''.
Proof.
  induction 1 as [| r r1 r2 Hstep _ IH]; [auto |].
  intros H'. exact (@runs_more r r1 r'' Hstep (IH H')).
Qed.

Lemma runsTo_reachable r r' :
  ServerGoRelay.reachable r -> runsTo r r' -> ServerGoRelay.reachable r'.
Proof.
  intros Hr Hs. induction Hs as [| r r1 r2 Hstep _ IH]; [exact Hr |].
  apply IH. exact (@ServerGoRelay.reach_step _ _ Hr Hstep).
Qed.

Lemma runs_one r r' : ServerGoRelay.step r r' -> runsTo r r'.
Proof. intros H. exact (@runs_more r r' r' H (@runs_refl r')). Qed.

(** A goroutine runs on to its send; its sibling stays where it is. *)
Lemma goroutine_delivers d r :
  ServerGoRelay.reachable r ->
  exists r',
    runsTo r r'
    /\ ServerGoRelay.proxy r' d = ServerGoRelay.Finished
    /\ ServerGoRelay.proxy r' (sibling d) = ServerGoRelay.proxy r (sibling d)
    /\ ServerGoRelay.caller r' = ServerGoRelay.caller r.
Proof.
  intros Hr.
  assert (Hsend : forall r0 err,
            ServerGoRelay.reachable r0 ->
            ServerGoRelay.proxy r0 d = ServerGoRelay.Copied err ->
            exists r',
              runsTo r0 r'
              /\ ServerGoRelay.proxy r' d = ServerGoRelay.Finished
              /\ ServerGoRelay.proxy r' (sibling d)
                 = ServerGoRelay.proxy r0 (sibling d)
              /\ ServerGoRelay.caller r' = ServerGoRelay.caller r0).
  { intros r0 err Hr0 Hp.
    pose proof (buffer_has_room r0 d err (reachable_accounted r0 Hr0) Hp)
      as Hroom.
    eexists. split; [apply runs_one, (@ServerGoRelay.send d err r0 Hp Hroom) |].
    destruct d; simpl; auto. }
  destruct (ServerGoRelay.proxy r d) eqn:Hp.
  - pose proof (@ServerGoRelay.copy_ends d None r Hp) as Hstep.
    destruct (Hsend _ None (@ServerGoRelay.reach_step _ _ Hr Hstep))
      as (r' & Hs & Hf & Hsib & Hcal).
    { destruct d; reflexivity. }
    exists r'. split; [exact (@runs_more _ _ _ Hstep Hs) |].
    split; [exact Hf |]. rewrite Hsib, Hcal. destruct d; simpl; auto.
  - exact (Hsend r err Hr Hp).
  - exists r. split; [apply runs_refl | auto].
Qed.

(** Once both goroutines have sent, the caller receives until it
    returns. *)
Lemma caller_returns r :
  ServerGoRelay.reachable r ->
  ServerGoRelay.toRemote r = ServerGoRelay.Finished ->
  ServerGoRelay.toClient r = ServerGoRelay.Finished ->
  exists r',
    runsTo r r'
    /\ returned (ServerGoRelay.view r') = true.
Proof.
  assert (Hlast : forall r0,
            ServerGoRelay.reachable r0 ->
            ServerGoRelay.toRemote r0 = ServerGoRelay.Finished ->
            ServerGoRelay.toClient r0 = ServerGoRelay.Finished ->
            ServerGoRelay.caller r0 = ServerGoRelay.Receiving 1 ->
            exists r', runsTo r0 r'
                       /\ returned (ServerGoRelay.view r') = true).
  { intros r0 Hr0 Htr Htc Hcl.
    destruct (reachable_accounted r0 Hr0) as (_ & _ & _ & Hcal).
    unfold callerKnown, sent in Hcal. simpl in Hcal.
    rewrite Hcl, Htr, Htc in Hcal. simpl in Hcal.
    destruct Hcal as (Hn & _ & _).
    destruct (ServerGoRelay.errCh r0) as [|err rest] eqn:Hch;
      [simpl in Hn; lia |].
    eexists. split;
      [apply runs_one, (@ServerGoRelay.receive 1%nat err rest r0 Hcl Hch) |].
    destruct err; reflexivity. }
  intros Hr Htr Htc.
  destruct (ServerGoRelay.caller r) as [i | err] eqn:Hcl.
  2:{ exists r. split; [apply runs_refl |].
      unfold ServerGoRelay.view. simpl. rewrite Hcl. reflexivity. }
  destruct (reachable_accounted r Hr) as (_ & _ & _ & Hcal).
  unfold callerKnown, sent in Hcal. simpl in Hcal.
  rewrite Hcl, Htr, Htc in Hcal. simpl in Hcal.
  destruct Hcal as (Hn & _ & Hi).
  destruct i as [|[|i]]; [| exact (Hlast r Hr Htr Htc Hcl) | lia].
  destruct (ServerGoRelay.errCh r) as [|err rest] eqn:Hch;
    [simpl in Hn; lia |].
  pose proof (@ServerGoRelay.receive 0%nat err rest r Hcl Hch) as Hstep.
  destruct err as [e|].
  - eexists. split; [apply runs_one, Hstep | reflexivity].
  - destruct (Hlast _ (@ServerGoRelay.reach_step _ _ Hr Hstep))
      as (r' & Hs & Hret); try (simpl; assumption); try reflexivity.
    exists r'. split; [exact (@runs_more _ _ _ Hstep Hs) | exact Hret].
Qed.

(** X19.  [exchange] of [server.go] cannot get stuck either: from every
    state the relay can reach it can run on to its return. *)
Theorem X19_server_go_exchange_can_always_return :
  forall r,
    ServerGoRelay.reachable r ->
    exists r',
      runsTo r r'
      /\ ServerGoRelay.reachable r'
      /\ returned (ServerGoRelay.view r') = true.
Proof.
  intros r Hr.
  destruct (goroutine_delivers ClientToRemote r Hr)
    as (r1 & Hs1 & Hf1 & _ & _).
  pose proof (runsTo_reachable r r1 Hr Hs1) as Hr1.
  destruct (goroutine_delivers RemoteToClient r1 Hr1)
    as (r2 & Hs2 & Hf2 & Hsib & _).
  pose proof (runsTo_reachable r1 r2 Hr1 Hs2) as Hr2.
  simpl in Hf1, Hf2, Hsib. rewrite Hf1 in Hsib.
  destruct (caller_returns r2 Hr2 Hsib Hf2) as (r3 & Hs3 & Hret).
  exists r3. split.
  - exact (runsTo_trans _ _ _ Hs1 (runsTo_trans _ _ _ Hs2 Hs3)).
  - split; [| exact Hret].
    exact (runsTo_reachable r2 r3 Hr2 Hs3).
Qed.

Lemma X19_server_go_exchange_can_always_return_witness :
  exists r',
    runsTo ServerGoRelay.start r'
    /\ ServerGoRelay.reachable r'
    /\ returned (ServerGoRelay.view r') = true.
Proof.
  apply (X19_server_go_exchange_can_always_return ServerGoRelay.start).
  apply ServerGoRelay.reach_start.
Defined.

(** ** Names of reply codes *)

From Stdlib Require DecimalN DecimalPos.

Lemma string_length_append (a b : string) :
  String.length (a ++ b) = (String.length a + String.length b)%nat.
Proof. induction a as [|x a IH]; simpl; [reflexivity | rewrite IH; lia]. Qed.

Lemma string_append_cancel_r (c : string) :
  forall a b : string, (a ++ c)%string = (b ++ c)%string -> a = b.
Proof.
  induction a as [|x a IH]; destruct b as [|y b]; simpl; intros H.
  - reflexivity.
  - apply (f_equal String.length) in H. simpl in H.
    rewrite string_length_append in H. lia.
  - apply (f_equal String.length) in H. simpl in H.
    rewrite string_length_append in H. lia.
  - injection H as Hx Hrest. subst y. f_equal. exact (IH b Hrest).
Qed.

Lemma to_uint_not_nil n : N.to_uint n <> Decimal.Nil.
Proof.
  destruct n; [discriminate | apply DecimalPos.Unsigned.to_uint_nonnil].
Qed.

Lemma decimal_inj n m : 0 <= n -> 0 <= m -> decimal n = decimal m -> n = m.
Proof.
  intros Hn Hm H. unfold decimal in H.
  apply (f_equal NilZero.uint_of_string) in H.
  rewrite !NilZero.usu in H by apply to_uint_not_nil.
  injection H as H. apply DecimalN.Unsigned.to_uint_inj in H.
  apply Z2N.inj in H; assumption.
Qed.

Lemma socksReply_String_unknown r :
  8 < r -> socksReply_String r = ("unknown(" ++ decimal r ++ ")")%string.
Proof.
  intros H. unfold socksReply_String.
  repeat match goal with
         | |- context [r =? ?c] =>
             replace (r =? c) with false
               by (symmetry; apply Z.eqb_neq; cbv; lia)
         end.
  reflexivity.
Qed.

Lemma socksReply_String_known r :
  0 <= r <= 8 ->
  exists x rest, socksReply_String r = String x rest /\ x <> "u"%char.
Proof.
  intros H.
  assert (Hr : r = 0 \/ r = 1 \/ r = 2 \/ r = 3 \/ r = 4 \/ r = 5
               \/ r = 6 \/ r = 7 \/ r = 8) by lia.
  repeat (destruct Hr as [-> | Hr]); try subst r;
    (eexists; eexists; split; [reflexivity | discriminate]).
Qed.

Lemma socksReply_String_inj r r' :
  0 <= r < 256 -> 0 <= r' < 256 ->
  socksReply_String r = socksReply_String r' -> r = r'.
Proof.
  intros Hr Hr' H.
  destruct (Z_le_gt_dec r 8) as [Hk | Hu];
    destruct (Z_le_gt_dec r' 8) as [Hk' | Hu'].
  - assert (Hc : r = 0 \/ r = 1 \/ r = 2 \/ r = 3 \/ r = 4 \/ r = 5
                 \/ r = 6 \/ r = 7 \/ r = 8) by lia.
    assert (Hc' : r' = 0 \/ r' = 1 \/ r' = 2 \/ r' = 3 \/ r' = 4 \/ r' = 5
                  \/ r' = 6 \/ r' = 7 \/ r' = 8) by lia.
    repeat (destruct Hc as [-> | Hc]); try subst r;
      repeat (destruct Hc' as [-> | Hc']); try subst r';
      first [reflexivity | discriminate H].
  - destruct (socksReply_String_known r) as (x & rest & Hx & Hne); [lia |].
    rewrite Hx, socksReply_String_unknown in H by lia.
    simpl in H. injection H as H _. congruence.
  - destruct (socksReply_String_known r') as (x & rest & Hx & Hne); [lia |].
    rewrite Hx, socksReply_String_unknown in H by lia.
    simpl in H. injection H as H _. congruence.
  - rewrite !socksReply_String_unknown in H by lia.
    simpl in H. injection H as H.
    apply string_append_cancel_r in H.
    apply decimal_inj; [lia | lia | exact H].
Qed.

(** X21.  [String] gives every reply code a name of its own: two
    different codes never print alike, the nine named ones and the ones
    printed as [unknown(n)] included. *)
Theorem X21_socksReply_String_distinct :
  forall r r',
    0 <= r < 256 -> 0 <= r' < 256 ->
    r <> r' ->
    socksReply_String r <> socksReply_String r'.
Proof.
  intros r r' Hr Hr' Hne H. apply Hne.
  exact (socksReply_String_inj r r' Hr Hr' H).
Qed.

Lemma X21_socksReply_String_distinct_witness :
  socksReply_String 19 <> socksReply_String 190.
Proof.
  apply (X21_socksReply_String_distinct 19 190); lia.
Defined.
